(** * AS3935 lightning detector driver: register access and clock calibration

    A shallow embedding of [biffobear_as3935.py].  Python integers are [Z]
    (so [&], [|], [~], [<<] and [>>] are [Z.land], [Z.lor], [Z.lnot],
    [Z.shiftl] and [Z.shiftr] on unbounded two's complement numbers); the
    elements of the two shared [bytearray] buffers are [Byte.byte]; the SPI
    device, [time.monotonic] and [time.sleep] are an environment the driver is
    run against; exceptions are values of [exn]; a reading of
    [time.monotonic()] is the rational number its float denotes, and the
    float subtraction of two readings is the exact difference rounded to the
    nearest binary64 number ([float_sub]). *)

From Stdlib Require Import ZArith QArith List String Bool Lia.
From Stdlib Require Import Strings.Byte.
From Stdlib Require Import DecimalString.
Import ListNotations.

Local Open Scope string_scope.
Local Open Scope list_scope.
Local Open Scope Z_scope.

(** ** Registers and constants *)

(** [Register = namedtuple("Register", ["addr", "offset", "mask"])] *)
Record Register : Type := mkRegister { addr : Z; offset : Z; mask : Z }.

Definition _0X00 : Z := 0x00.
Definition _0X01 : Z := 0x01.
Definition _0X02 : Z := 0x02.
Definition _0X03 : Z := 0x03.
Definition _0X04 : Z := 0x04.
Definition _0X05 : Z := 0x05.
Definition _0X06 : Z := 0x06.
Definition _0X07 : Z := 0x07.
Definition _0X08 : Z := 0x08.
Definition _0X09 : Z := 0x09.
Definition _0X0A : Z := 0x0A.
Definition _0X0B : Z := 0x0B.
Definition _0X0E : Z := 0x0E.
Definition _0X0F : Z := 0x0F.
Definition _0X10 : Z := 0x10.
Definition _0X12 : Z := 0x12.
Definition _0X1F : Z := 0x1F.
Definition _0X20 : Z := 0x20.
Definition _0X30 : Z := 0x30.
Definition _0X3A : Z := 0x3A.
Definition _0X3B : Z := 0x3B.
Definition _0X3C : Z := 0x3C.
Definition _0X3D : Z := 0x3D.
Definition _0X3E : Z := 0x3E.
Definition _0X3F : Z := 0x3F.
Definition _0X40 : Z := 0x40.
Definition _0X70 : Z := 0x70.
Definition _0X80 : Z := 0x80.
Definition _0XC0 : Z := 0xC0.
Definition _0XE0 : Z := 0xE0.
Definition _0XFF : Z := 0xFF.

Definition _LIGHTNING_COUNT : list Z := [_0X01; _0X05; _0X09; _0X10].
Definition _FREQ_DIVISOR : list Z := [_0X10; _0X20; _0X40; _0X80].

(** The class attributes of [AS3935] that describe the chip's registers. *)
Definition _pwd := mkRegister _0X00 _0X00 _0X01.
Definition _afe_gb := mkRegister _0X00 _0X01 _0X3E.
Definition _wdth := mkRegister _0X01 _0X00 _0X0F.
Definition _nf_lev := mkRegister _0X01 _0X04 _0X70.
Definition _srej := mkRegister _0X02 _0X00 _0X0F.
Definition _min_num_ligh := mkRegister _0X02 _0X04 _0X30.
Definition _cl_stat := mkRegister _0X02 _0X06 _0X40.
Definition _int := mkRegister _0X03 _0X00 _0X0F.
Definition _mask_dist := mkRegister _0X03 _0X05 _0X20.
Definition _lco_fdiv := mkRegister _0X03 _0X06 _0XC0.
Definition _s_lig_l := mkRegister _0X04 _0X00 _0XFF.
Definition _s_lig_m := mkRegister _0X05 _0X00 _0XFF.
Definition _s_lig_mm := mkRegister _0X06 _0X00 _0X1F.
Definition _distance := mkRegister _0X07 _0X00 _0X3F.
Definition _tun_cap := mkRegister _0X08 _0X00 _0X0F.
Definition _disp_flags := mkRegister _0X08 0x05 _0XE0.
Definition _trco_calib_nok := mkRegister _0X3A _0X06 _0X40.
Definition _trco_calib_done := mkRegister _0X3A _0X07 _0X80.
Definition _srco_calib_nok := mkRegister _0X3B _0X06 _0X40.
Definition _srco_calib_done := mkRegister _0X3B _0X07 _0X80.
Definition _preset_default := mkRegister _0X3C _0X00 _0XFF.
Definition _calib_rco := mkRegister _0X3D _0X00 _0XFF.

(** The descriptors in the order the class body declares them. *)
Definition as3935_registers : list Register :=
  [ _pwd; _afe_gb; _wdth; _nf_lev; _srej; _min_num_ligh; _cl_stat; _int;
    _mask_dist; _lco_fdiv; _s_lig_l; _s_lig_m; _s_lig_mm; _distance;
    _tun_cap; _disp_flags; _trco_calib_nok; _trco_calib_done;
    _srco_calib_nok; _srco_calib_done; _preset_default; _calib_rco ].

(** ** Exceptions and results *)

Inductive exn : Type :=
| ValueError (msg : string)
| IndexError (msg : string)
| TimeoutError (msg : string)
| RuntimeError (msg : string).

Inductive Res (A : Type) : Type :=
| Ok (a : A)
| Raise (e : exn).
Arguments Ok {A} a.
Arguments Raise {A} e.

(** ** Bytes of a [bytearray] *)

Definition byte_val (b : byte) : Z := Z.of_N (Byte.to_N b).

(** [buffer[0] = v]: CPython accepts only [0 <= v < 256]. *)
Definition bytearray_store (v : Z) : option byte :=
  if v <? 0 then None else Byte.of_N (Z.to_N v).

Definition byte_range_error : exn := ValueError "byte must be in range(0, 256)".
Definition negative_shift_error : exn := ValueError "negative shift count".

(** [str(x)] for an integer. *)
Definition str (x : Z) : string := NilZero.string_of_int (Z.to_int x).

(** ** Float subtraction *)

(** [2^e <= a / d], for positive [a] and [d]. *)
Definition pow2_le (e a d : Z) : bool :=
  if 0 <=? e then d * 2 ^ e <=? a else d <=? a * 2 ^ (- e).

(** The exponent [e] of a positive quotient: [2^e <= a / d < 2^(e+1)]. *)
Definition exponent (a d : Z) : Z :=
  let e0 := Z.log2 a - Z.log2 d in
  if pow2_le e0 a d then e0 else e0 - 1.

(** [num / den] rounded to the nearest integer, a tie to the even one. *)
Definition div_nearest_even (num den : Z) : Z :=
  let m := num / den in
  let r := num mod den in
  if (den <? 2 * r) || ((den =? 2 * r) && Z.odd m) then m + 1 else m.

(** The binary64 number nearest to the positive rational [a / d], ties to
    the even mantissa: a multiple of [2^(e-52)], that is 53 bits of
    precision, down to the exponent -1022, and below it a multiple of the
    fixed unit [2^-1074] of the subnormal numbers.  A result of [2^1024] or
    more stands for the float infinity. *)
Definition round64_pos (a d : Z) : Q :=
  let s := 52 - Z.max (exponent a d) (-1022) in
  if 0 <=? s then Qmake (div_nearest_even (a * 2 ^ s) d) (Z.to_pos (2 ^ s))
  else inject_Z (div_nearest_even a (d * 2 ^ (- s)) * 2 ^ (- s)).

Definition round64 (q : Q) : Q :=
  match Qnum q with
  | 0 => 0%Q
  | Zpos _ => round64_pos (Qnum q) (Zpos (Qden q))
  | Zneg _ => Qopp (round64_pos (- Qnum q) (Zpos (Qden q)))
  end.

(** [a - b] on two floats: the exact difference, rounded. *)
Definition float_sub (a b : Q) : Q := round64 (a - b).

(** ** The collaborators: SPI device and clock *)

(** What the driver asks of its collaborators, as a mock would record it: the
    calls made on the device inside one [with self._device as device] block,
    and the calls on [time]. *)
Inductive DevCall : Type :=
| DevWrite (b : byte)       (* device.write(buffer, end=1) sent [b] *)
| DevReadinto (b : byte).   (* device.readinto(buffer, end=1) received [b] *)

Inductive Call : Type :=
| Session (body : list DevCall)
| MonotonicCall (t : Q)
| SleepCall (d : Q).

(** An environment over a world [W]: how the bus and the clock answer. *)
Record Env (W : Type) : Type := mkEnv {
  dev_enter : W -> W;
  dev_write : byte -> W -> W;
  dev_readinto : W -> byte * W;
  dev_exit : W -> W;
  time_monotonic : W -> Q * W;
  time_sleep : Q -> W -> W
}.
Arguments dev_enter {W} _ _.
Arguments dev_write {W} _ _ _.
Arguments dev_readinto {W} _ _.
Arguments dev_exit {W} _ _.
Arguments time_monotonic {W} _ _.
Arguments time_sleep {W} _ _ _.

(** Driver state: the world, the two class-level buffers and the record of
    calls made so far (oldest first). *)
Record State (W : Type) : Type := mkState {
  world : W;
  _ADDR_BUFFER : byte;
  _DATA_BUFFER : byte;
  calls : list Call
}.
Arguments mkState {W} _ _ _ _.
Arguments world {W} _.
Arguments _ADDR_BUFFER {W} _.
Arguments _DATA_BUFFER {W} _.
Arguments calls {W} _.

Definition M (W A : Type) : Type := State W -> Res A * State W.

Definition ret {W A} (a : A) : M W A := fun st => (Ok a, st).
Definition raise {W A} (e : exn) : M W A := fun st => (Raise e, st).
Definition bind {W A B} (m : M W A) (k : A -> M W B) : M W B :=
  fun st => match m st with
            | (Ok a, st') => k a st'
            | (Raise e, st') => (Raise e, st')
            end.

Notation "x <- m ;; k" := (bind m (fun x => k))
  (at level 61, m at next level, right associativity).
Notation "m ;;; k" := (bind m (fun _ => k))
  (at level 61, right associativity).

(** ** Validation helpers (module level functions) *)

(** [choices.index(value)]: position of the first element equal to [value]. *)
Fixpoint index (value : Z) (choices : list Z) : option Z :=
  match choices with
  | [] => None
  | x :: rest =>
      if x =? value then Some 0 else option_map Z.succ (index value rest)
  end.

Definition _reg_value_from_choices (value : Z) (choices : list Z) : Res Z :=
  match index value choices with
  | Some i => Ok i
  | None =>
      Raise (ValueError
               ("Select a value from " ++ String.concat ", " (map str choices))%string)
  end.

Definition _value_is_in_range (value lo_limit hi_limit : Z) : Res Z :=
  if (lo_limit <=? value) && (value <=? hi_limit) then Ok value
  else
    Raise (ValueError
             ("Value must be in the range " ++ str lo_limit ++ " to "
              ++ str hi_limit ++ " inclusive.")%string).

(** [t[i]] on a tuple, with Python's negative indices. *)
Definition tuple_getitem (t : list Z) (i : Z) : Res Z :=
  let n := Z.of_nat (List.length t) in
  let j := if i <? 0 then i + n else i in
  if (0 <=? j) && (j <? n) then Ok (nth (Z.to_nat j) t 0)
  else Raise (IndexError "tuple index out of range").

(** ** The driver *)

Section Driver.
Context {W : Type} (env : Env W).

(** [_read_byte_in]: the command byte has bits 7..6 = 01. *)
Definition _read_byte_in (register : Register) : M W Z := fun st =>
  match bytearray_store (Z.lor (Z.land (addr register) _0X3F) _0X40) with
  | None => (Raise byte_range_error, st)
  | Some a =>
      let w1 := dev_enter env (world st) in
      let w2 := dev_write env a w1 in
      let (d, w3) := dev_readinto env w2 in
      let w4 := dev_exit env w3 in
      (Ok (byte_val d),
       mkState w4 a d (calls st ++ [Session [DevWrite a; DevReadinto d]]))
  end.

(** [_write_byte_out]: the command byte has bits 7..6 = 00. *)
Definition _write_byte_out (register : Register) (data : Z) : M W unit :=
  fun st =>
  match bytearray_store (Z.land (addr register) _0X3F) with
  | None => (Raise byte_range_error, st)
  | Some a =>
      match bytearray_store data with
      | None =>
          (Raise byte_range_error,
           mkState (world st) a (_DATA_BUFFER st) (calls st))
      | Some d =>
          let w1 := dev_enter env (world st) in
          let w2 := dev_write env a w1 in
          let w3 := dev_write env d w2 in
          let w4 := dev_exit env w3 in
          (Ok tt,
           mkState w4 a d (calls st ++ [Session [DevWrite a; DevWrite d]]))
      end
  end.

(** [_get_register]; Python's [>>] raises on a negative count. *)
Definition _get_register (register : Register) : M W Z :=
  byte <- _read_byte_in register ;;
  if offset register <? 0 then raise negative_shift_error
  else ret (Z.shiftr (Z.land byte (mask register)) (offset register)).

(** [_set_register]: read, clear the field, or in the value, write.  Python's
    [<<] raises on a negative count; the count is the descriptor's offset, a
    bit position of a byte (0 to 7) in every descriptor of the driver, so
    the shifted integer can always be built. *)
Definition _set_register (register : Register) (value : Z) : M W unit :=
  byte <- _read_byte_in register ;;
  let byte := Z.land byte (Z.lnot (mask register)) in
  if offset register <? 0 then raise negative_shift_error
  else
    let byte := Z.lor byte (Z.land (Z.shiftl value (offset register)) _0XFF) in
    _write_byte_out register byte.

Definition lift {A} (r : Res A) : M W A := fun st => (r, st).

(** *** Properties *)

Definition watchdog : M W Z := _get_register _wdth.

Definition watchdog_setter (value : Z) : M W unit :=
  v <- lift (_value_is_in_range value _0X00 _0X0A) ;;
  _set_register _wdth v.

Definition strike_count_threshold : M W Z :=
  i <- _get_register _min_num_ligh ;;
  lift (tuple_getitem _LIGHTNING_COUNT i).

Definition strike_count_threshold_setter (value : Z) : M W unit :=
  i <- lift (_reg_value_from_choices value _LIGHTNING_COUNT) ;;
  _set_register _min_num_ligh i.

Definition freq_divisor : M W Z :=
  i <- _get_register _lco_fdiv ;;
  lift (tuple_getitem _FREQ_DIVISOR i).

Definition freq_divisor_setter (value : Z) : M W unit :=
  i <- lift (_reg_value_from_choices value _FREQ_DIVISOR) ;;
  _set_register _lco_fdiv i.

(** [bool(self._get_register(self._pwd))] *)
Definition power_down : M W bool :=
  v <- _get_register _pwd ;;
  ret (negb (v =? 0)).

(** *** Clock calibration *)

Definition monotonic : M W Q := fun st =>
  let (t, w') := time_monotonic env (world st) in
  (Ok t,
   mkState w' (_ADDR_BUFFER st) (_DATA_BUFFER st)
     (calls st ++ [MonotonicCall t])).

Definition sleep (d : Q) : M W unit := fun st =>
  (Ok tt,
   mkState (time_sleep env d (world st)) (_ADDR_BUFFER st) (_DATA_BUFFER st)
     (calls st ++ [SleepCall d])).

(** The operand of [not] in the loop condition: [a and b] reads the second
    flag only when the first one is truthy. *)
Definition calibration_done : M W bool :=
  trco <- _get_register _trco_calib_done ;;
  if trco =? 0 then ret false
  else srco <- _get_register _srco_calib_done ;;
       ret (negb (srco =? 0)).

(** The condition of the final [if]: [a or b] reads the second flag only when
    the first one is falsy. *)
Definition calibration_failed : M W bool :=
  trco <- _get_register _trco_calib_nok ;;
  if negb (trco =? 0) then ret true
  else srco <- _get_register _srco_calib_nok ;;
       ret (negb (srco =? 0)).

Definition timed_out : exn := TimeoutError "RCO calibration timed out.".
Definition calibration_error : exn := RuntimeError "AS3935 RCO calibration failed.".

(** The [while] loop; [fuel] bounds the number of times its condition is
    evaluated, [None] is a loop still running when the fuel is spent.  The
    deadline test [time.monotonic() - start > 1] compares the float
    difference of the two readings with one. *)
Fixpoint wait_for_calibration (fuel : nat) (start : Q) (st : State W)
  : option (Res unit * State W) :=
  match fuel with
  | O => None
  | S fuel' =>
      match calibration_done st with
      | (Raise e, st1) => Some (Raise e, st1)
      | (Ok true, st1) => Some (Ok tt, st1)
      | (Ok false, st1) =>
          match monotonic st1 with
          | (Raise e, st2) => Some (Raise e, st2)
          | (Ok now, st2) =>
              if negb (Qle_bool (float_sub now start) 1)
              then Some (Raise timed_out, st2)
              else wait_for_calibration fuel' start st2
          end
      end
  end.

Definition _calibrate_clocks (fuel : nat) (st : State W)
  : option (Res unit * State W) :=
  match (_set_register _calib_rco 0x96 ;;; monotonic) st with
  | (Raise e, st1) => Some (Raise e, st1)
  | (Ok start, st1) =>
      match wait_for_calibration fuel start st1 with
      | None => None
      | Some (Raise e, st2) => Some (Raise e, st2)
      | Some (Ok _, st2) =>
          Some ((failed <- calibration_failed ;;
                 if failed : bool then raise calibration_error else ret tt) st2)
      end
  end.

Definition power_down_setter (fuel : nat) (value : bool) (st : State W)
  : option (Res unit * State W) :=
  if value then Some (_set_register _pwd 0x01 st)
  else
    match power_down st with
    | (Raise e, st1) => Some (Raise e, st1)
    | (Ok false, st1) => Some (Ok tt, st1)
    | (Ok true, st1) =>
        match _set_register _pwd 0x00 st1 with
        | (Raise e, st2) => Some (Raise e, st2)
        | (Ok _, st2) =>
            match _calibrate_clocks fuel st2 with
            | None => None
            | Some (Raise e, st3) => Some (Raise e, st3)
            | Some (Ok _, st3) =>
                Some ((_set_register _disp_flags 0x02 ;;;
                       sleep (2 # 1000) ;;;
                       _set_register _disp_flags 0x00) st3)
            end
        end
    end.

End Driver.

(** ** Simulated collaborators *)

(** A stub chip that echoes writes: 64 byte registers and the command byte of
    the transaction in progress.  Under chip select the first byte written is
    the command; bit 6 of it selects a read, its low six bits the address. *)
Record Chip : Type := mkChip { mem : Z -> byte; command : option byte }.

Definition set_mem (m : Z -> byte) (a : Z) (b : byte) : Z -> byte :=
  fun a' => if a' =? a then b else m a'.

Definition chip_select (c : Chip) : Chip := mkChip (mem c) None.

Definition chip_write (b : byte) (c : Chip) : Chip :=
  match command c with
  | None => mkChip (mem c) (Some b)
  | Some cmd =>
      if Z.testbit (byte_val cmd) 6 then c
      else mkChip (set_mem (mem c) (Z.land (byte_val cmd) 0x3F) b) (Some cmd)
  end.

Definition chip_readinto (c : Chip) : byte * Chip :=
  match command c with
  | Some cmd => (mem c (Z.land (byte_val cmd) 0x3F), c)
  | None => (x00, c)
  end.

(** The stub chip next to a simulated clock with state [C]. *)
Definition chip_env {C : Type} (clock : C -> Q * C) : Env (Chip * C) :=
  mkEnv (Chip * C)
    (fun w => (chip_select (fst w), snd w))
    (fun b w => (chip_write b (fst w), snd w))
    (fun w => (fst (chip_readinto (fst w)), (snd (chip_readinto (fst w)), snd w)))
    (fun w => (chip_select (fst w), snd w))
    (fun w => (fst (clock (snd w)), (fst w, snd (clock (snd w)))))
    (fun _ w => w).

(** A clock that advances by [step] at every reading; [ticking_clock 0] is a
    clock that stands still. *)
Definition ticking_clock (step : Q) : Q -> Q * Q := fun t => (t, (t + step)%Q).

(** A clock that replays a script of readings and then repeats the last. *)
Definition scripted_clock (l : list Q) : Q * list Q :=
  match l with
  | [] => (0%Q, [])
  | [t] => (t, [t])
  | t :: l' => (t, l')
  end.

Definition blank_mem : Z -> byte := fun _ => x00.

Definition init_state {W : Type} (w : W) : State W := mkState w x00 x00 [].

(** A simulated bus with state [B], by itself. *)
Record Bus (B : Type) : Type := mkBus {
  bus_enter : B -> B;
  bus_write : byte -> B -> B;
  bus_readinto : B -> byte * B;
  bus_exit : B -> B
}.
Arguments bus_enter {B} _ _.
Arguments bus_write {B} _ _ _.
Arguments bus_readinto {B} _ _.
Arguments bus_exit {B} _ _.

(** A simulated bus next to a simulated clock: the two do not see each
    other, and a sleep changes neither. *)
Definition simulated {B C : Type} (bus : Bus B) (clock : C -> Q * C)
  : Env (B * C) :=
  mkEnv (B * C)
    (fun w => (bus_enter bus (fst w), snd w))
    (fun b w => (bus_write bus b (fst w), snd w))
    (fun w => (fst (bus_readinto bus (fst w)),
               (snd (bus_readinto bus (fst w)), snd w)))
    (fun w => (bus_exit bus (fst w), snd w))
    (fun w => (fst (clock (snd w)), (fst w, snd (clock (snd w)))))
    (fun _ w => w).

(** The stub chip as a bus: [chip_env clock] is [simulated chip_bus clock]. *)
Definition chip_bus : Bus Chip :=
  mkBus Chip chip_select chip_write chip_readinto chip_select.

(** A bus that answers reads from a script; its state is what is left of the
    script. *)
Definition script_bus : Bus (list byte) :=
  mkBus (list byte) (fun w => w) (fun _ w => w)
    (fun w => match w with
              | [] => (x00, [])
              | b :: w' => (b, w')
              end)
    (fun w => w).


(** What the [k]-th next call of a simulated clock in state [c] reads,
    counting from 0. *)
Fixpoint nth_reading {C : Type} (clock : C -> Q * C) (k : nat) (c : C) : Q :=
  match k with
  | O => fst (clock c)
  | S k' => nth_reading clock k' (snd (clock c))
  end.

(** ** Register fields and the specification's table *)

(** A mask of [w] contiguous one bits whose lowest set bit is bit [off]. *)
Definition field_mask (off w : Z) : Z := Z.shiftl (Z.ones w) off.

(** [register] is a field of width [w] inside a byte. *)
Definition is_field (register : Register) (w : Z) : bool :=
  (0 <=? offset register) && (1 <=? w) && (offset register + w <=? 8)
  && (mask register =? field_mask (offset register) w).

(** The register table as the specification prints it:
    field, address, bit offset, bit mask. *)
Definition spec_register_table : list (string * Z * Z * Z) :=
  [ ("power_down", 0, 0, 0x01);
    ("gain_boost/AFE", 0, 1, 0x3E);
    ("watchdog", 1, 0, 0x0F);
    ("noise_floor", 1, 4, 0x70);
    ("spike_reject", 2, 0, 0x0F);
    ("min_strikes", 2, 4, 0x30);
    ("clear_stats", 2, 6, 0x40);
    ("interrupt_reason", 3, 0, 0x0F);
    ("disturber_mask", 3, 5, 0x20);
    ("freq_divisor", 3, 6, 0xC0);
    ("strike_energy_lsb", 4, 0, 0xFF);
    ("strike_energy_msb", 5, 0, 0xFF);
    ("strike_energy_mmsb", 6, 0, 0x1F);
    ("distance", 7, 0, 0x3F);
    ("tuning_cap", 8, 0, 0x0F);
    ("display_flags", 8, 5, 0xE0);
    ("trco_not_ok", 58, 6, 0x40);
    ("trco_done", 58, 7, 0x80);
    ("srco_not_ok", 59, 6, 0x40);
    ("srco_done", 59, 7, 0x80);
    ("factory_reset", 60, 0, 0xFF);
    ("calibration_start", 61, 0, 0xFF) ].

(** The driver's descriptors under the specification's field names. *)
Definition named_registers : list (string * Register) :=
  [ ("power_down", _pwd);
    ("gain_boost/AFE", _afe_gb);
    ("watchdog", _wdth);
    ("noise_floor", _nf_lev);
    ("spike_reject", _srej);
    ("min_strikes", _min_num_ligh);
    ("clear_stats", _cl_stat);
    ("interrupt_reason", _int);
    ("disturber_mask", _mask_dist);
    ("freq_divisor", _lco_fdiv);
    ("strike_energy_lsb", _s_lig_l);
    ("strike_energy_msb", _s_lig_m);
    ("strike_energy_mmsb", _s_lig_mm);
    ("distance", _distance);
    ("tuning_cap", _tun_cap);
    ("display_flags", _disp_flags);
    ("trco_not_ok", _trco_calib_nok);
    ("trco_done", _trco_calib_done);
    ("srco_not_ok", _srco_calib_nok);
    ("srco_done", _srco_calib_done);
    ("factory_reset", _preset_default);
    ("calibration_start", _calib_rco) ].

Definition descriptor (entry : string * Register) : string * Z * Z * Z :=
  (fst entry, addr (snd entry), offset (snd entry), mask (snd entry)).

(** ** Reading the record of calls *)

(** A register write transaction: command byte [A] (direction bits 00) and
    data byte [data]. *)
Definition is_write_of (A data : Z) (c : Call) : bool :=
  match c with
  | Session [DevWrite a; DevWrite d] => (byte_val a =? A) && (byte_val d =? data)
  | _ => false
  end.

Definition is_register_write (c : Call) : bool :=
  match c with
  | Session [DevWrite _; DevWrite _] => true
  | _ => false
  end.

Definition is_register_read (c : Call) : bool :=
  match c with
  | Session [DevWrite _; DevReadinto _] => true
  | _ => false
  end.

Definition is_bus_call (c : Call) : bool :=
  match c with
  | Session _ => true
  | _ => false
  end.

Definition is_clock_reading (c : Call) : bool :=
  match c with
  | MonotonicCall _ => true
  | _ => false
  end.

(** How many times the magic value 0x96 went to the calibration start
    register, address 0x3D. *)
Definition magic_writes (l : list Call) : nat :=
  List.length (filter (is_write_of 0x3D 0x96) l).

(** A read transaction of address [A] (command [0x40 | A]): the value of bit
    [bit] of the byte that came back. *)
Definition flag_read (A bit : Z) (c : Call) : option bool :=
  match c with
  | Session [DevWrite a; DevReadinto d] =>
      if byte_val a =? Z.lor 0x40 A then Some (Z.testbit (byte_val d) bit)
      else None
  | _ => None
  end.

(** One evaluation of the loop condition that found calibration unfinished:
    TRCO not done (SRCO is then not read), or TRCO done and SRCO not done. *)
Inductive poll_not_done : list Call -> Prop :=
| pnd_trco c :
    flag_read 0x3A 7 c = Some false -> poll_not_done [c]
| pnd_srco c c' :
    flag_read 0x3A 7 c = Some true -> flag_read 0x3B 7 c' = Some false ->
    poll_not_done [c; c'].

(** One evaluation that found both oscillators done. *)
Inductive poll_done : list Call -> Prop :=
| pd_both c c' :
    flag_read 0x3A 7 c = Some true -> flag_read 0x3B 7 c' = Some true ->
    poll_done [c; c'].

(** The calls of the poll loop entered at time [start]; the boolean tells
    whether the loop ended by the deadline. *)
Inductive wait_trace (start : Q) : list Call -> bool -> Prop :=
| wt_done p :
    poll_done p -> wait_trace start p false
| wt_timeout p t :
    poll_not_done p -> (1 < float_sub t start)%Q ->
    wait_trace start (p ++ [MonotonicCall t]) true
| wt_again p t tr b :
    poll_not_done p -> (float_sub t start <= 1)%Q -> wait_trace start tr b ->
    wait_trace start (p ++ MonotonicCall t :: tr) b.


Definition is_timed_out (r : Res unit) : bool :=
  match r with
  | Raise (TimeoutError _) => true
  | _ => false
  end.

(** The final check of the not-ok flags: TRCO's flag set (SRCO's is then not
    read), TRCO's clear and SRCO's set, or both clear. *)
Inductive verdict_trace : list Call -> Res unit -> Prop :=
| vt_trco c :
    flag_read 0x3A 6 c = Some true ->
    verdict_trace [c] (Raise calibration_error)
| vt_srco c c' :
    flag_read 0x3A 6 c = Some false -> flag_read 0x3B 6 c' = Some true ->
    verdict_trace [c; c'] (Raise calibration_error)
| vt_ok c c' :
    flag_read 0x3A 6 c = Some false -> flag_read 0x3B 6 c' = Some false ->
    verdict_trace [c; c'] (Ok tt).

(** A whole calibration: the read-modify-write that stores 0x96 at address
    0x3D, the reading of the start time, the poll loop and, unless the
    deadline ended it, the final check. *)
Inductive calibration_trace : list Call -> Res unit -> Prop :=
| ct_timed_out a d a' d' start tr :
    byte_val a = 0x7D -> byte_val a' = 0x3D -> byte_val d' = 0x96 ->
    wait_trace start tr true ->
    calibration_trace
      (Session [DevWrite a; DevReadinto d] :: Session [DevWrite a'; DevWrite d']
         :: MonotonicCall start :: tr)
      (Raise timed_out)
| ct_finished a d a' d' start tr rest r :
    byte_val a = 0x7D -> byte_val a' = 0x3D -> byte_val d' = 0x96 ->
    wait_trace start tr false ->
    verdict_trace rest r ->
    calibration_trace
      (Session [DevWrite a; DevReadinto d] :: Session [DevWrite a'; DevWrite d']
         :: MonotonicCall start :: tr ++ rest)
      r.

(** ** Enumerated selections *)

(** What C9 says of one property: [register] holds the position of the
    selected element of [choices]. *)
Definition selects_by_index {W : Type} (env : Env W) (choices : list Z)
    (register : Register) (getter : M W Z) (setter : Z -> M W unit)
    (message : string) : Prop :=
  forall st : State W,
    (forall (i : nat) (value : Z),
        nth_error choices i = Some value ->
        setter value st = _set_register env register (Z.of_nat i) st) /\
    (forall value : Z,
        ~ In value choices ->
        setter value st = (Raise (ValueError message), st)) /\
    (exists a d st',
        getter st
        = (Ok (nth (Z.to_nat (Z.shiftr (Z.land (byte_val d) (mask register))
                                       (offset register)))
                   choices 0), st') /\
        calls st' = calls st ++ [Session [DevWrite a; DevReadinto d]] /\
        0 <= Z.shiftr (Z.land (byte_val d) (mask register)) (offset register) < 4).

(** On the stub chip: what the setter stores is the index, and the getter
    hands back the selected value. *)
Definition selection_round_trips {C : Type} (clock : C -> Q * C)
    (choices : list Z) (register : Register)
    (getter : M (Chip * C) Z) (setter : Z -> M (Chip * C) unit) : Prop :=
  forall (st : State (Chip * C)) (i : nat) (value : Z),
    nth_error choices i = Some value ->
    exists st1 st2 st3,
      setter value st = (Ok tt, st1) /\
      _get_register (chip_env clock) register st1 = (Ok (Z.of_nat i), st2) /\
      getter st1 = (Ok value, st3).

(** ** More simulated collaborators *)

(** A clock that always reads [t]. *)
Definition frozen_clock (t : Q) : unit -> Q * unit := fun _ => (t, tt).

(** A bus that answers reads from a script, next to a clock that always
    reads [t]; the world is what is left of the script. *)
Definition script_env (t : Q) : Env (list byte) :=
  mkEnv (list byte) (fun w => w) (fun _ w => w)
    (fun w => match w with
              | [] => (x00, [])
              | b :: w' => (b, w')
              end)
    (fun w => w) (fun w => (t, w)) (fun _ w => w).

(** ** The rest of the driver *)

(** An [assert] at the head of a setter: when it fails the call ends with an
    [AssertionError] before anything else has run. *)
Inductive Asserted (A : Type) : Type :=
| AssertionError
| Passed (a : A).
Arguments AssertionError {A}.
Arguments Passed {A} a.

Section Settings.
Context {W : Type} (env : Env W).

(** [indoor]: the AFE gain field is 0x12 indoors and 0x0E outdoors. *)
Definition indoor : M W bool :=
  v <- _get_register env _afe_gb ;;
  if v =? _0X12 then ret true else ret false.

Definition indoor_setter (value : bool) : M W unit :=
  if value then _set_register env _afe_gb _0X12
  else _set_register env _afe_gb _0X0E.

Definition outdoor : M W bool :=
  b <- indoor ;;
  ret (negb b).

Definition outdoor_setter (value : bool) : M W unit :=
  indoor_setter (negb value).

Definition noise_floor_limit : M W Z := _get_register env _nf_lev.

Definition noise_floor_limit_setter (value : Z) : M W unit :=
  v <- lift (_value_is_in_range value _0X00 _0X07) ;;
  _set_register env _nf_lev v.

Definition spike_threshold : M W Z := _get_register env _srej.

(** The setter asserts the range before it validates it. *)
Definition spike_threshold_setter (value : Z) (st : State W)
  : Asserted (Res unit * State W) :=
  if (_0X00 <=? value) && (value <=? _0X0B)
  then Passed ((v <- lift (_value_is_in_range value _0X00 _0X0B) ;;
                _set_register env _srej v) st)
  else AssertionError.

Definition energy : M W Z :=
  mmsb <- _get_register env _s_lig_mm ;;
  msb <- _get_register env _s_lig_m ;;
  lsb <- _get_register env _s_lig_l ;;
  ret (Z.land (Z.lor (Z.lor (Z.shiftl mmsb 16) (Z.shiftl msb 8)) lsb) 0x3FFFFF).

(** [distance]: [None] is Python's [None]. *)
Definition distance : M W (option Z) :=
  distance <- _get_register env _distance ;;
  if distance =? 0x3F then ret None
  else if distance =? 0x01 then ret (Some 0)
  else ret (Some distance).

(** [time.sleep(0.0002)], then the read. *)
Definition interrupt_status : M W Z :=
  sleep env (2 # 10000) ;;;
  _get_register env _int.

Definition disturber_mask : M W bool :=
  v <- _get_register env _mask_dist ;;
  ret (negb (v =? 0)).

(** [int(value)] of a [bool] is [Z.b2z]. *)
Definition disturber_mask_setter (value : bool) : M W unit :=
  _set_register env _mask_dist (Z.b2z value).

Definition clear_stats : M W unit :=
  _set_register env _cl_stat 0x01 ;;;
  _set_register env _cl_stat 0x00 ;;;
  _set_register env _cl_stat 0x01.

Definition output_antenna_freq : M W bool :=
  v <- _get_register env _disp_flags ;;
  ret (v =? 4).

Definition output_antenna_freq_setter (value : bool) : M W unit :=
  _set_register env _disp_flags (Z.shiftl (Z.b2z value) 2).

Definition output_srco : M W bool :=
  v <- _get_register env _disp_flags ;;
  ret (v =? 2).

Definition output_srco_setter (value : bool) : M W unit :=
  _set_register env _disp_flags (Z.shiftl (Z.b2z value) 1).

Definition output_trco : M W bool :=
  v <- _get_register env _disp_flags ;;
  ret (v =? 1).

Definition output_trco_setter (value : bool) : M W unit :=
  _set_register env _disp_flags (Z.b2z value).

Definition tuning_capacitance : M W Z :=
  v <- _get_register env _tun_cap ;;
  ret (v * 8).

(** [//] is floor division. *)
Definition tuning_capacitance_setter (value : Z) : M W unit :=
  v <- lift (_value_is_in_range value _0X00 120) ;;
  _set_register env _tun_cap (v / 8).

Definition reset : M W unit := _set_register env _preset_default 0x96.

(** [interrupt_set]: [pin_value] reads [self._interrupt_pin.value]; the
    result [None] is Python's [None]. *)
Definition interrupt_set (pin_value : W -> bool * W) : M W (option bool) :=
  flags <- _get_register env _disp_flags ;;
  if negb (flags =? 0) then ret None
  else fun st =>
         let (level, w') := pin_value (world st) in
         (Ok (Some level),
          mkState w' (_ADDR_BUFFER st) (_DATA_BUFFER st) (calls st)).

End Settings.

(** The value of a register field in the stub chip's memory. *)
Definition field_of (m : Z -> byte) (register : Register) : Z :=
  Z.shiftr (Z.land (byte_val (m (Z.land (addr register) 0x3F))) (mask register))
           (offset register).

Definition sleep_calls (l : list Call) : list Q :=
  flat_map (fun c => match c with
                     | SleepCall d => [d]
                     | _ => []
                     end) l.

(** * Properties *)

(** ** Float subtraction *)

Lemma float_sub_diag (t : Q) : float_sub t t = 0%Q.
Proof.
  unfold float_sub, round64.
  replace (Qnum (t - t)) with 0; [reflexivity |].
  destruct t as [n d]. unfold Qminus, Qplus, Qopp. cbn [Qnum Qden]. lia.
Qed.










(** A difference that a float holds is not rounded; one second and a
    hundredth is rounded to the float next to it, still past one second; and
    2.0 minus the float just below 1.0 is rounded to 1.0, which is not past
    one second although the exact difference is. *)
Example float_sub_tests :
  Qeq_bool (float_sub 1001 1000) 1 = true /\
  Qle_bool (float_sub (100101 # 100) 1000) 1 = false /\
  Qeq_bool (float_sub (100101 # 100) 1000) (101 # 100) = false /\
  (1 < 2 - (9007199254740991 # 9007199254740992))%Q /\
  Qeq_bool (float_sub 2 (9007199254740991 # 9007199254740992)) 1 = true /\
  Qeq_bool (float_sub 0 (1 # 2)) (- (1 # 2)) = true /\
  Qeq_bool (float_sub 3 (1 # 3)) (6004799503160661 # 2251799813685248) = true.
Proof. repeat split; vm_compute; reflexivity. Qed.

(** ** Bytes and bit operations *)

Lemma byte_val_range (b : byte) : 0 <= byte_val b < 256.
Proof.
  unfold byte_val. pose proof (Byte.to_N_bounded b). lia.
Qed.

Lemma bytearray_store_val (v : Z) (b : byte) :
  bytearray_store v = Some b -> byte_val b = v.
Proof.
  unfold bytearray_store, byte_val.
  destruct (Z.ltb_spec v 0) as [Hneg | Hpos]; [discriminate |].
  intros H. apply Byte.to_of_N in H. rewrite H. lia.
Qed.

Lemma bytearray_store_ok (v : Z) :
  0 <= v < 256 -> exists b, bytearray_store v = Some b /\ byte_val b = v.
Proof.
  intros Hv. unfold bytearray_store.
  destruct (Z.ltb_spec v 0) as [Hneg | _]; [lia |].
  destruct (Byte.of_N (Z.to_N v)) as [b |] eqn:E.
  - exists b. split; [reflexivity |].
    unfold byte_val. apply Byte.to_of_N in E. rewrite E. lia.
  - apply Byte.of_N_None_iff in E. lia.
Qed.

Lemma bytearray_store_byte_val (b : byte) :
  bytearray_store (byte_val b) = Some b.
Proof.
  destruct (bytearray_store_ok (byte_val b) (byte_val_range b)) as (b' & E & V).
  rewrite E. f_equal.
  unfold byte_val in V. apply N2Z.inj in V.
  pose proof (Byte.of_to_N b) as Hb. pose proof (Byte.of_to_N b') as Hb'.
  rewrite V in Hb'. congruence.
Qed.

Lemma byte_val_inj (a b : byte) : byte_val a = byte_val b -> a = b.
Proof.
  intros H. pose proof (bytearray_store_byte_val a) as Ha.
  pose proof (bytearray_store_byte_val b) as Hb. congruence.
Qed.

Lemma bytearray_store_out_of_range (v : Z) :
  v < 0 \/ 255 < v -> bytearray_store v = None.
Proof.
  intros Hv. unfold bytearray_store.
  destruct (Z.ltb_spec v 0) as [_ | Hpos]; [reflexivity |].
  apply Byte.of_N_None_iff. lia.
Qed.

(** A number lies in [0, 2^n) exactly when masking with [n] ones keeps it. *)
Lemma land_ones_fix (a n : Z) :
  0 <= n -> (0 <= a < 2 ^ n <-> Z.land a (Z.ones n) = a).
Proof.
  intros Hn. rewrite Z.land_ones by assumption. split.
  - intros Ha. now apply Z.mod_small.
  - intros <-. apply Z.mod_pos_bound. now apply Z.pow_pos_nonneg.
Qed.

Lemma land_range_r (a b n : Z) :
  0 <= n -> 0 <= b < 2 ^ n -> 0 <= Z.land a b < 2 ^ n.
Proof.
  intros Hn Hb. apply land_ones_fix; [assumption |].
  apply (land_ones_fix b n Hn) in Hb.
  rewrite <- Z.land_assoc. now rewrite Hb.
Qed.

Lemma land_range_l (a b n : Z) :
  0 <= n -> 0 <= a < 2 ^ n -> 0 <= Z.land a b < 2 ^ n.
Proof.
  intros Hn Ha. rewrite Z.land_comm. now apply land_range_r.
Qed.

Lemma lor_range (a b n : Z) :
  0 <= n -> 0 <= a < 2 ^ n -> 0 <= b < 2 ^ n -> 0 <= Z.lor a b < 2 ^ n.
Proof.
  intros Hn Ha Hb. apply land_ones_fix; [assumption |].
  apply (land_ones_fix a n Hn) in Ha. apply (land_ones_fix b n Hn) in Hb.
  rewrite Z.land_lor_distr_l. now rewrite Ha, Hb.
Qed.

Lemma testbit_high (a n i : Z) :
  0 <= n -> 0 <= a < 2 ^ n -> n <= i -> Z.testbit a i = false.
Proof.
  intros Hn Ha Hi.
  rewrite <- (Z.mod_small a (2 ^ n)) by assumption.
  apply Z.mod_pow2_bits_high. lia.
Qed.

(** The two command bytes always fit a byte. *)
Lemma write_command_range (A : Z) : 0 <= Z.land A _0X3F < 64.
Proof.
  change _0X3F with (Z.ones 6). rewrite Z.land_ones by lia.
  change 64 with (2 ^ 6). apply Z.mod_pos_bound. lia.
Qed.

Lemma read_command_range (A : Z) : 64 <= Z.lor (Z.land A _0X3F) _0X40 < 128.
Proof.
  pose proof (write_command_range A) as Hlow.
  assert (Hup : 0 <= Z.lor (Z.land A _0X3F) _0X40 < 2 ^ 7).
  { apply lor_range; [lia | change (2 ^ 7) with 128; lia |].
    unfold _0X40. change (2 ^ 7) with 128. lia. }
  change (2 ^ 7) with 128 in Hup. split; [| lia].
  assert (Hbit : Z.testbit (Z.lor (Z.land A _0X3F) _0X40) 6 = true).
  { rewrite Z.lor_spec. unfold _0X40. change (Z.testbit 64 6) with true.
    apply orb_true_r. }
  destruct (Z.lt_ge_cases (Z.lor (Z.land A _0X3F) _0X40) 64) as [Hlt | Hge];
    [| lia].
  rewrite (testbit_high _ 6 6) in Hbit; [discriminate | lia | | lia].
  change (2 ^ 6) with 64. lia.
Qed.

Lemma read_command_address (A : Z) :
  Z.land (Z.lor (Z.land A _0X3F) _0X40) 0x3F = Z.land A 0x3F.
Proof.
  rewrite Z.land_lor_distr_l. unfold _0X3F, _0X40.
  rewrite <- Z.land_assoc. change (Z.land 63 63) with 63.
  change (Z.land 64 63) with 0. apply Z.lor_0_r.
Qed.

Lemma read_command_bit (A : Z) :
  Z.testbit (Z.lor (Z.land A _0X3F) _0X40) 6 = true.
Proof.
  rewrite Z.lor_spec. unfold _0X40. change (Z.testbit 64 6) with true.
  apply orb_true_r.
Qed.

Lemma write_command_bit (A : Z) : Z.testbit (Z.land A _0X3F) 6 = false.
Proof.
  rewrite Z.land_spec. unfold _0X3F. change (Z.testbit 63 6) with false.
  apply andb_false_r.
Qed.

Lemma write_command_address (A : Z) :
  Z.land (Z.land A _0X3F) 0x3F = Z.land A 0x3F.
Proof.
  unfold _0X3F. rewrite <- Z.land_assoc. reflexivity.
Qed.

(** The byte [_set_register] computes always fits the data buffer. *)
Lemma merged_byte_range (byte msk shifted : Z) :
  0 <= byte < 256 ->
  0 <= Z.lor (Z.land byte (Z.lnot msk)) (Z.land shifted _0XFF) < 256.
Proof.
  intros Hb. change 256 with (2 ^ 8) in *.
  apply lor_range; [lia | apply land_range_l; [lia | assumption] |].
  apply land_range_r; [lia |]. unfold _0XFF. change (2 ^ 8) with 256. lia.
Qed.

(** ** The byte accessors on any bus *)

Section Accessor.
Context {W : Type} (env : Env W).

(** What one read transaction does to state and record. *)
Lemma read_byte_in_spec (register : Register) (st : State W) :
  exists a d w',
    byte_val a = Z.lor (Z.land (addr register) _0X3F) _0X40 /\
    dev_readinto env (dev_write env a (dev_enter env (world st))) = (d, w') /\
    _read_byte_in env register st =
      (Ok (byte_val d),
       mkState (dev_exit env w') a d
         (calls st ++ [Session [DevWrite a; DevReadinto d]])).
Proof.
  pose proof (read_command_range (addr register)) as Hr.
  destruct (bytearray_store_ok (Z.lor (Z.land (addr register) _0X3F) _0X40))
    as (a & Ea & Va); [lia |].
  destruct (dev_readinto env (dev_write env a (dev_enter env (world st))))
    as [d w'] eqn:Er.
  exists a, d, w'. split; [assumption |]. split; [assumption |].
  unfold _read_byte_in. rewrite Ea. cbv zeta. rewrite Er. reflexivity.
Qed.

(** What one write transaction does, for a data value that fits a byte. *)
Lemma write_byte_out_spec (register : Register) (data : Z) (st : State W) :
  0 <= data < 256 ->
  exists a d,
    byte_val a = Z.land (addr register) _0X3F /\ byte_val d = data /\
    _write_byte_out env register data st =
      (Ok tt,
       mkState
         (dev_exit env (dev_write env d (dev_write env a (dev_enter env (world st)))))
         a d (calls st ++ [Session [DevWrite a; DevWrite d]])).
Proof.
  intros Hd.
  pose proof (write_command_range (addr register)) as Hr.
  destruct (bytearray_store_ok (Z.land (addr register) _0X3F))
    as (a & Ea & Va); [lia |].
  destruct (bytearray_store_ok data Hd) as (d & Ed & Vd).
  exists a, d. split; [assumption |]. split; [assumption |].
  unfold _write_byte_out. rewrite Ea, Ed. reflexivity.
Qed.

(** A data value outside a byte is refused before the bus is touched. *)
Lemma write_byte_out_refused (register : Register) (data : Z) (st : State W) :
  data < 0 \/ 255 < data ->
  exists st',
    _write_byte_out env register data st = (Raise byte_range_error, st') /\
    world st' = world st /\ calls st' = calls st.
Proof.
  intros Hd.
  pose proof (write_command_range (addr register)) as Hr.
  destruct (bytearray_store_ok (Z.land (addr register) _0X3F))
    as (a & Ea & Va); [lia |].
  unfold _write_byte_out. rewrite Ea, (bytearray_store_out_of_range data Hd).
  eexists. split; [reflexivity |]. split; reflexivity.
Qed.

Lemma get_register_spec (register : Register) (st : State W) :
  0 <= offset register ->
  exists a d w',
    byte_val a = Z.lor (Z.land (addr register) _0X3F) _0X40 /\
    dev_readinto env (dev_write env a (dev_enter env (world st))) = (d, w') /\
    _get_register env register st =
      (Ok (Z.shiftr (Z.land (byte_val d) (mask register)) (offset register)),
       mkState (dev_exit env w') a d
         (calls st ++ [Session [DevWrite a; DevReadinto d]])).
Proof.
  intros Hoff.
  destruct (read_byte_in_spec register st) as (a & d & w' & Va & Er & E).
  exists a, d, w'. split; [assumption |]. split; [assumption |].
  unfold _get_register, bind. rewrite E.
  destruct (Z.ltb_spec (offset register) 0); [lia | reflexivity].
Qed.

(** The read-modify-write of [_set_register]: one read transaction, then one
    write transaction whose data byte is the byte read with the field
    cleared and the shifted value or-ed in. *)
Lemma set_register_spec (register : Register) (value : Z) (st : State W) :
  0 <= offset register ->
  exists a d w' a' d',
    byte_val a = Z.lor (Z.land (addr register) _0X3F) _0X40 /\
    dev_readinto env (dev_write env a (dev_enter env (world st))) = (d, w') /\
    byte_val a' = Z.land (addr register) _0X3F /\
    byte_val d' =
      Z.lor (Z.land (byte_val d) (Z.lnot (mask register)))
            (Z.land (Z.shiftl value (offset register)) _0XFF) /\
    _set_register env register value st =
      (Ok tt,
       mkState
         (dev_exit env
            (dev_write env d' (dev_write env a' (dev_enter env (dev_exit env w')))))
         a' d'
         (calls st ++ [Session [DevWrite a; DevReadinto d];
                       Session [DevWrite a'; DevWrite d']])).
Proof.
  intros Hoff.
  destruct (read_byte_in_spec register st) as (a & d & w' & Va & Er & E).
  pose proof (merged_byte_range (byte_val d) (mask register)
                (Z.shiftl value (offset register)) (byte_val_range d)) as Hm.
  destruct (write_byte_out_spec register _
              (mkState (dev_exit env w') a d
                 (calls st ++ [Session [DevWrite a; DevReadinto d]])) Hm)
    as (a' & d' & Va' & Vd' & E').
  exists a, d, w', a', d'. repeat (split; [assumption |]).
  unfold _set_register, bind. rewrite E.
  destruct (Z.ltb_spec (offset register) 0); [lia |].
  rewrite E'. cbn [world calls]. rewrite <- app_assoc. reflexivity.
Qed.

End Accessor.

(** ** C3: command bytes *)

(** C3.  For every address [A], also one of 64 or more, the command byte that
    [_read_byte_in] sends is [0x40 | (A & 0x3F)] and the one that
    [_write_byte_out] sends is [A & 0x3F]; each is the first byte of its
    transaction, the address is masked and nothing is raised.  At the
    boundary addresses 0x00, 0x3F, 0x40 and 0xFF the read commands are 0x40,
    0x7F, 0x40, 0x7F and the write commands 0x00, 0x3F, 0x00, 0x3F. *)
Theorem command_byte_masks_address :
  forall (W : Type) (env : Env W) (A off msk : Z) (st : State W),
    (exists a d st',
        _read_byte_in env (mkRegister A off msk) st = (Ok (byte_val d), st') /\
        calls st' = calls st ++ [Session [DevWrite a; DevReadinto d]] /\
        _ADDR_BUFFER st' = a /\
        byte_val a = Z.lor 0x40 (Z.land A 0x3F)) /\
    (forall data, 0 <= data < 256 ->
       exists a d st',
         _write_byte_out env (mkRegister A off msk) data st = (Ok tt, st') /\
         calls st' = calls st ++ [Session [DevWrite a; DevWrite d]] /\
         _ADDR_BUFFER st' = a /\
         byte_val a = Z.land A 0x3F /\ byte_val d = data) /\
    map (fun A' => Z.lor 0x40 (Z.land A' 0x3F)) [0x00; 0x3F; 0x40; 0xFF]
      = [0x40; 0x7F; 0x40; 0x7F] /\
    map (fun A' => Z.land A' 0x3F) [0x00; 0x3F; 0x40; 0xFF]
      = [0x00; 0x3F; 0x00; 0x3F].
Proof.
  intros W env A off msk st. split; [| split; [| split; reflexivity]].
  - destruct (read_byte_in_spec env (mkRegister A off msk) st)
      as (a & d & w' & Va & _ & E).
    exists a, d. eexists. split; [exact E |].
    cbn [calls _ADDR_BUFFER addr] in *.
    split; [reflexivity |]. split; [reflexivity |].
    rewrite Va. apply Z.lor_comm.
  - intros data Hd.
    destruct (write_byte_out_spec env (mkRegister A off msk) data st Hd)
      as (a & d & Va & Vd & E).
    exists a, d. eexists. split; [exact E |].
    cbn [calls _ADDR_BUFFER addr] in *. repeat split; assumption.
Qed.

(** The test suite's cases for the two command bytes. *)
Example read_command_tests :
  map (fun A => option_map byte_val
                  (bytearray_store (Z.lor (Z.land A _0X3F) _0X40)))
      [0x0F; 0x3F; 0xF0] = [Some 0x4F; Some 0x7F; Some 0x70].
Proof. reflexivity. Qed.

Lemma command_byte_masks_address_witness :
  exists a d st',
    _write_byte_out (chip_env (ticking_clock 0)) (mkRegister 0xFF 4 0x70) 0x22
      (init_state (mkChip blank_mem None, 0%Q)) = (Ok tt, st') /\
    calls st' = [Session [DevWrite a; DevWrite d]] /\
    _ADDR_BUFFER st' = a /\ byte_val a = 0x3F /\ byte_val d = 0x22.
Proof.
  destruct (command_byte_masks_address _ (chip_env (ticking_clock 0))
              0xFF 4 0x70 (init_state (mkChip blank_mem None, 0%Q)))
    as (_ & Hw & _).
  apply (Hw 0x22). lia.
Defined.

(** ** C8: the register table *)

(** C8.  The driver declares 22 register descriptors and, field by field,
    their (address, bit offset, bit mask) triples are those of the
    specification's register table. *)
Theorem register_table_matches_spec :
  map descriptor named_registers = spec_register_table /\
  map snd named_registers = as3935_registers /\
  List.length as3935_registers = 22%nat.
Proof. repeat split. Qed.

(** ** Fields inside a byte *)

Lemma field_mask_spec (off w i : Z) :
  0 <= off -> 0 <= w -> 0 <= i ->
  Z.testbit (field_mask off w) i = (off <=? i) && (i <? off + w).
Proof.
  intros Hoff Hw Hi. unfold field_mask.
  rewrite Z.shiftl_spec by assumption. rewrite Z.testbit_ones by assumption.
  destruct (Z.leb_spec 0 (i - off)), (Z.ltb_spec (i - off) w),
    (Z.leb_spec off i), (Z.ltb_spec i (off + w)); simpl; lia || reflexivity.
Qed.

(** The set bits of a representable value, once shifted, lie under the mask. *)
Lemma shifted_bits (v off w i : Z) :
  0 <= off -> 0 <= w -> 0 <= v < 2 ^ w -> 0 <= i ->
  Z.testbit (Z.shiftl v off) i = true -> off <= i < off + w.
Proof.
  intros Hoff Hw Hv Hi. rewrite Z.shiftl_spec by assumption. intros Hbit.
  destruct (Z.lt_ge_cases (i - off) 0) as [Hneg | Hge].
  - rewrite Z.testbit_neg_r in Hbit by assumption. discriminate.
  - destruct (Z.lt_ge_cases (i - off) w) as [Hlt | Hhigh]; [lia |].
    rewrite (testbit_high v w) in Hbit by assumption. discriminate.
Qed.

Lemma shifted_outside_mask (v off w : Z) :
  0 <= off -> 0 <= w -> 0 <= v < 2 ^ w ->
  Z.land (Z.shiftl v off) (Z.lnot (field_mask off w)) = 0.
Proof.
  intros Hoff Hw Hv. apply Z.bits_inj'. intros i Hi.
  rewrite Z.land_spec, Z.lnot_spec, Z.bits_0 by assumption.
  rewrite field_mask_spec by assumption.
  destruct (Z.testbit (Z.shiftl v off) i) eqn:Hbit; [| reflexivity].
  apply shifted_bits with (w := w) in Hbit; try assumption.
  destruct (Z.leb_spec off i), (Z.ltb_spec i (off + w)); simpl; lia || reflexivity.
Qed.

Lemma shifted_under_mask (v off w : Z) :
  0 <= off -> 0 <= w -> 0 <= v < 2 ^ w ->
  Z.land (Z.shiftl v off) (field_mask off w) = Z.shiftl v off.
Proof.
  intros Hoff Hw Hv. apply Z.bits_inj'. intros i Hi.
  rewrite Z.land_spec. rewrite field_mask_spec by assumption.
  destruct (Z.testbit (Z.shiftl v off) i) eqn:Hbit; [| reflexivity].
  apply shifted_bits with (w := w) in Hbit; try assumption.
  destruct (Z.leb_spec off i), (Z.ltb_spec i (off + w)); simpl; lia || reflexivity.
Qed.

Lemma shifted_in_byte (v off w : Z) :
  0 <= off -> 0 <= w -> off + w <= 8 -> 0 <= v < 2 ^ w ->
  Z.land (Z.shiftl v off) _0XFF = Z.shiftl v off.
Proof.
  intros Hoff Hw Hfit Hv. apply Z.bits_inj'. intros i Hi.
  rewrite Z.land_spec. change _0XFF with (Z.ones 8).
  rewrite Z.testbit_ones_nonneg by lia.
  destruct (Z.testbit (Z.shiftl v off) i) eqn:Hbit; [| reflexivity].
  apply shifted_bits with (w := w) in Hbit; try assumption.
  destruct (Z.ltb_spec i 8); simpl; lia || reflexivity.
Qed.

Lemma is_field_inv (register : Register) (w : Z) :
  is_field register w = true ->
  0 <= offset register /\ 1 <= w /\ offset register + w <= 8 /\
  mask register = field_mask (offset register) w.
Proof.
  unfold is_field. intros H.
  apply andb_prop in H as [H Hm]. apply andb_prop in H as [H Hfit].
  apply andb_prop in H as [Hoff Hw].
  apply Z.leb_le in Hoff, Hw, Hfit. apply Z.eqb_eq in Hm. auto.
Qed.

(** Writing a representable value into a field: the merged byte keeps every
    bit outside the mask and carries the value under it. *)
Lemma merged_byte_outside (register : Register) (w v byte : Z) :
  is_field register w = true -> 0 <= v < 2 ^ w ->
  Z.land
    (Z.lor (Z.land byte (Z.lnot (mask register)))
           (Z.land (Z.shiftl v (offset register)) _0XFF))
    (Z.lnot (mask register))
  = Z.land byte (Z.lnot (mask register)).
Proof.
  intros Hf Hv. apply is_field_inv in Hf as (Hoff & Hw & Hfit & Hm).
  rewrite shifted_in_byte with (w := w) by lia.
  rewrite Z.land_lor_distr_l, <- Z.land_assoc, Z.land_diag.
  rewrite Hm, shifted_outside_mask by lia. apply Z.lor_0_r.
Qed.

Lemma merged_byte_field (register : Register) (w v byte : Z) :
  is_field register w = true -> 0 <= v < 2 ^ w ->
  Z.shiftr
    (Z.land
       (Z.lor (Z.land byte (Z.lnot (mask register)))
              (Z.land (Z.shiftl v (offset register)) _0XFF))
       (mask register))
    (offset register)
  = v.
Proof.
  intros Hf Hv. apply is_field_inv in Hf as (Hoff & Hw & Hfit & Hm).
  rewrite shifted_in_byte with (w := w) by lia.
  rewrite Z.land_lor_distr_l, <- Z.land_assoc.
  rewrite (Z.land_comm (Z.lnot _)), Z.land_lnot_diag, Z.land_0_r, Z.lor_0_l.
  rewrite Hm, shifted_under_mask by lia.
  rewrite Z.shiftr_shiftl_l by lia. rewrite Z.sub_diag. apply Z.shiftl_0_r.
Qed.

(** Every descriptor of the driver is a field, of the width its mask shows. *)
Lemma registers_are_fields :
  forallb (fun r => existsb (is_field r) [1; 2; 3; 4; 5; 6; 7; 8])
    as3935_registers = true.
Proof. reflexivity. Qed.

(** ** The accessors against the stub chip *)

Section StubChip.
Context {C : Type} (clock : C -> Q * C).

Lemma chip_read_byte_in (register : Register) (st : State (Chip * C)) :
  exists a,
    byte_val a = Z.lor (Z.land (addr register) _0X3F) _0X40 /\
    _read_byte_in (chip_env clock) register st =
      (Ok (byte_val (mem (fst (world st)) (Z.land (addr register) 0x3F))),
       mkState (mkChip (mem (fst (world st))) None, snd (world st)) a
         (mem (fst (world st)) (Z.land (addr register) 0x3F))
         (calls st ++
            [Session [DevWrite a;
                      DevReadinto
                        (mem (fst (world st)) (Z.land (addr register) 0x3F))]])).
Proof.
  destruct (read_byte_in_spec (chip_env clock) register st)
    as (a & d & w' & Va & Er & E).
  exists a. split; [assumption |]. rewrite E.
  cbn [dev_readinto dev_write dev_enter dev_exit chip_env fst snd
       chip_readinto chip_write chip_select command mem] in *.
  rewrite Va, read_command_address in Er.
  injection Er as <- <-. reflexivity.
Qed.

Lemma chip_get_register (register : Register) (st : State (Chip * C)) :
  0 <= offset register ->
  exists st',
    _get_register (chip_env clock) register st =
      (Ok (Z.shiftr
             (Z.land (byte_val (mem (fst (world st)) (Z.land (addr register) 0x3F)))
                     (mask register))
             (offset register)), st') /\
    mem (fst (world st')) = mem (fst (world st)) /\
    snd (world st') = snd (world st) /\
    exists c, calls st' = calls st ++ [c] /\ is_register_read c = true.
Proof.
  intros Hoff.
  destruct (chip_read_byte_in register st) as (a & Va & E).
  unfold _get_register, bind. rewrite E.
  destruct (Z.ltb_spec (offset register) 0); [lia |].
  eexists. split; [reflexivity |]. cbn [world calls fst snd mem].
  split; [reflexivity |]. split; [reflexivity |].
  eexists. split; reflexivity.
Qed.

Lemma chip_set_register (register : Register) (value : Z)
      (st : State (Chip * C)) :
  0 <= offset register ->
  exists a a' d',
    byte_val a = Z.lor (Z.land (addr register) _0X3F) _0X40 /\
    byte_val a' = Z.land (addr register) _0X3F /\
    byte_val d' =
      Z.lor (Z.land (byte_val (mem (fst (world st)) (Z.land (addr register) 0x3F)))
                    (Z.lnot (mask register)))
            (Z.land (Z.shiftl value (offset register)) _0XFF) /\
    _set_register (chip_env clock) register value st =
      (Ok tt,
       mkState
         (mkChip (set_mem (mem (fst (world st))) (Z.land (addr register) 0x3F) d')
                 None,
          snd (world st))
         a' d'
         (calls st ++
            [Session [DevWrite a;
                      DevReadinto
                        (mem (fst (world st)) (Z.land (addr register) 0x3F))];
             Session [DevWrite a'; DevWrite d']])).
Proof.
  intros Hoff.
  destruct (set_register_spec (chip_env clock) register value st Hoff)
    as (a & d & w' & a' & d' & Va & Er & Va' & Vd' & E).
  cbn [dev_readinto dev_write dev_enter dev_exit chip_env fst snd
       chip_readinto chip_write chip_select command mem] in *.
  rewrite Va, read_command_address in Er. injection Er as <- <-.
  cbn [fst snd mem command] in E.
  rewrite Va', write_command_bit, write_command_address in E.
  exists a, a', d'. repeat (split; [assumption |]). exact E.
Qed.

End StubChip.

(** ** C1: bits outside the field *)




(** ** C2: round trip through a field *)

(** On the stub chip a representable value written to a field is the value
    read from it next. *)
Lemma chip_round_trip {C : Type} (clock : C -> Q * C) (register : Register)
      (w value : Z) (st : State (Chip * C)) :
  is_field register w = true ->
  0 <= value < 2 ^ w ->
  exists st1 st2,
    _set_register (chip_env clock) register value st = (Ok tt, st1) /\
    _get_register (chip_env clock) register st1 = (Ok value, st2).
Proof.
  intros Hf Hv.
  pose proof (is_field_inv register w Hf) as (Hoff & _).
  destruct (chip_set_register clock register value st Hoff)
    as (a & a' & d' & _ & _ & Vd' & Es).
  set (A := Z.land (addr register) 0x3F) in *.
  set (st1 := mkState
                (mkChip (set_mem (mem (fst (world st))) A d') None, snd (world st))
                a' d' _) in Es.
  destruct (chip_get_register clock register st1 Hoff) as (st2 & Eg & _).
  exists st1, st2. split; [assumption |]. rewrite Eg. f_equal. f_equal.
  subst st1. cbn [world fst mem]. fold A.
  unfold set_mem. rewrite Z.eqb_refl, Vd'.
  now apply merged_byte_field with (w := w).
Qed.

(** C2.  For every register field of width [w] and every value [v] with
    [0 <= v < 2^w], against the stub chip that echoes writes,
    [_set_register] followed by [_get_register] returns [v], whatever the
    chip held before. *)
Theorem get_register_after_set_register :
  forall (C : Type) (clock : C -> Q * C) (register : Register) (w value : Z)
         (st : State (Chip * C)),
    is_field register w = true ->
    0 <= value < 2 ^ w ->
    fst ((_set_register (chip_env clock) register value
            ;;; _get_register (chip_env clock) register) st)
    = Ok value.
Proof.
  intros C clock register w value st Hf Hv.
  destruct (chip_round_trip clock register w value st Hf Hv)
    as (st1 & st2 & Es & Eg).
  unfold bind. rewrite Es, Eg. reflexivity.
Qed.

Lemma get_register_after_set_register_witness :
  fst ((_set_register (chip_env (ticking_clock 0)) _nf_lev 5
          ;;; _get_register (chip_env (ticking_clock 0)) _nf_lev)
         (init_state (mkChip (set_mem blank_mem 1 "255"%byte) None, 0%Q)))
  = Ok 5.
Proof.
  apply (get_register_after_set_register Q (ticking_clock 0) _nf_lev 3 5
           (init_state (mkChip (set_mem blank_mem 1 "255"%byte) None, 0%Q)));
    [reflexivity | lia].
Defined.

(** The test suite's cases for the two accessors, on the stub chip: the
    register of the tests is address 1, offset 4, mask 0x70. *)
Example get_register_tests :
  map (fun b =>
         fst (_get_register (chip_env (ticking_clock 0))
                (mkRegister 0x01 0x04 0x70)
                (init_state (mkChip (set_mem blank_mem 1 b) None, 0%Q))))
      ["255"%byte; "000"%byte; "085"%byte]
  = [Ok 0x07; Ok 0x00; Ok 0x05].
Proof. reflexivity. Qed.

Example set_register_tests :
  map (fun '(b, v) =>
         byte_val
           (mem (fst (world (snd (_set_register (chip_env (ticking_clock 0))
                                    (mkRegister 0x01 0x04 0x70) v
                                    (init_state
                                       (mkChip (set_mem blank_mem 1 b) None,
                                        0%Q))))))
                1))
      [("255"%byte, 0x00); ("000"%byte, 0x07); ("085"%byte, 0x05)]
  = [0x8F; 0x70; 0x55].
Proof. reflexivity. Qed.

(** ** C7: the watchdog setter validates before it touches the bus *)

Lemma value_in_range_accepts (value lo hi : Z) :
  lo <= value <= hi -> _value_is_in_range value lo hi = Ok value.
Proof.
  intros Hv. unfold _value_is_in_range.
  destruct (Z.leb_spec lo value), (Z.leb_spec value hi); simpl; lia || reflexivity.
Qed.

(** C7.  The watchdog setter accepts every value from 0 to 10, 0 and 10
    included: it reads the byte at address 1 and writes it back with the low
    four bits replaced by the value.  Any other value, -1 and 11 included,
    raises [ValueError] and leaves the state as it was: no call reaches the
    bus. *)
Theorem watchdog_setter_validates_first :
  forall (W : Type) (env : Env W) (value : Z) (st : State W),
    (0 <= value <= 10 ->
     exists a d a' d' st',
       watchdog_setter env value st = (Ok tt, st') /\
       calls st' = calls st ++ [Session [DevWrite a; DevReadinto d];
                                Session [DevWrite a'; DevWrite d']] /\
       byte_val a = 0x41 /\ byte_val a' = 0x01 /\
       Z.land (byte_val d') 0x0F = value /\
       Z.land (byte_val d') (Z.lnot 0x0F) = Z.land (byte_val d) (Z.lnot 0x0F)) /\
    (value < 0 \/ 10 < value ->
     watchdog_setter env value st =
       (Raise (ValueError "Value must be in the range 0 to 10 inclusive."), st) /\
     filter is_bus_call (calls (snd (watchdog_setter env value st)))
       = filter is_bus_call (calls st)).
Proof.
  intros W env value st. split.
  - intros Hv. unfold watchdog_setter, bind, lift.
    rewrite value_in_range_accepts by (unfold _0X00, _0X0A; lia).
    destruct (set_register_spec env _wdth value st)
      as (a & d & w' & a' & d' & Va & _ & Va' & Vd' & E);
      [unfold _wdth, _0X00; simpl; lia |].
    exists a, d, a', d'. eexists. split; [exact E |].
    cbn [calls]. split; [reflexivity |].
    split; [rewrite Va; reflexivity |]. split; [rewrite Va'; reflexivity |].
    assert (Hf : is_field _wdth 4 = true) by reflexivity.
    assert (Hv4 : 0 <= value < 2 ^ 4) by (change (2 ^ 4) with 16; lia).
    rewrite Vd'. split.
    + pose proof (merged_byte_field _wdth 4 value (byte_val d) Hf Hv4) as Hm.
      cbn [offset _wdth] in Hm. unfold _0X00 in Hm at 2.
      rewrite Z.shiftr_0_r in Hm. exact Hm.
    + exact (merged_byte_outside _wdth 4 value (byte_val d) Hf Hv4).
  - intros Hv.
    assert (E : watchdog_setter env value st =
                (Raise (ValueError "Value must be in the range 0 to 10 inclusive."),
                 st)).
    { unfold watchdog_setter, bind, lift, _value_is_in_range, _0X00, _0X0A.
      destruct (Z.leb_spec 0 value), (Z.leb_spec value 10); simpl;
        try lia; reflexivity. }
    split; [exact E |]. rewrite E. reflexivity.
Qed.

Lemma watchdog_setter_validates_first_witness :
  (exists a d a' d' st',
      watchdog_setter (chip_env (ticking_clock 0)) 10
        (init_state (mkChip (set_mem blank_mem 1 "255"%byte) None, 0%Q))
      = (Ok tt, st') /\
      calls st' = [] ++ [Session [DevWrite a; DevReadinto d];
                         Session [DevWrite a'; DevWrite d']] /\
      byte_val a = 0x41 /\ byte_val a' = 0x01 /\
      Z.land (byte_val d') 0x0F = 10 /\
      Z.land (byte_val d') (Z.lnot 0x0F) = Z.land (byte_val d) (Z.lnot 0x0F)) /\
  (watchdog_setter (chip_env (ticking_clock 0)) 11
     (init_state (mkChip (set_mem blank_mem 1 "255"%byte) None, 0%Q))
   = (Raise (ValueError "Value must be in the range 0 to 10 inclusive."),
      init_state (mkChip (set_mem blank_mem 1 "255"%byte) None, 0%Q)) /\
   filter is_bus_call
     (calls (snd (watchdog_setter (chip_env (ticking_clock 0)) 11
                    (init_state
                       (mkChip (set_mem blank_mem 1 "255"%byte) None, 0%Q)))))
   = filter is_bus_call []).
Proof.
  split.
  - apply (proj1 (watchdog_setter_validates_first _ (chip_env (ticking_clock 0))
                    10 (init_state
                          (mkChip (set_mem blank_mem 1 "255"%byte) None, 0%Q)))).
    lia.
  - apply (proj2 (watchdog_setter_validates_first _ (chip_env (ticking_clock 0))
                    11 (init_state
                          (mkChip (set_mem blank_mem 1 "255"%byte) None, 0%Q)))).
    lia.
Defined.

(** The test suite's cases for the two validation helpers. *)
Example value_is_in_range_tests :
  map (fun v => _value_is_in_range v 0 8) [0; 5; 8] = [Ok 0; Ok 5; Ok 8] /\
  map (fun v => _value_is_in_range v 0 8) [-1; 9]
  = [Raise (ValueError "Value must be in the range 0 to 8 inclusive.");
     Raise (ValueError "Value must be in the range 0 to 8 inclusive.")].
Proof. repeat split. Qed.

Example reg_value_from_choices_tests :
  map (fun v => _reg_value_from_choices v [2; 3; 5]) [2; 3; 5; 1]
  = [Ok 0; Ok 1; Ok 2; Raise (ValueError "Select a value from 2, 3, 5")].
Proof. reflexivity. Qed.

(** ** C9: enumerated selections *)

Lemma index_none (value : Z) (choices : list Z) :
  ~ In value choices -> index value choices = None.
Proof.
  induction choices as [| x rest IH]; intros Hin; [reflexivity |].
  cbn [index]. destruct (Z.eqb_spec x value) as [-> | Hne].
  - exfalso. apply Hin. now left.
  - rewrite IH; [reflexivity |]. intros H. apply Hin. now right.
Qed.

Lemma index_nth (choices : list Z) :
  NoDup choices ->
  forall (i : nat) (value : Z),
    nth_error choices i = Some value ->
    index value choices = Some (Z.of_nat i).
Proof.
  induction 1 as [| x rest Hx Hnd IH]; intros i value Hnth.
  - destruct i; discriminate.
  - destruct i as [| i]; cbn [nth_error] in Hnth.
    + injection Hnth as ->. cbn [index]. now rewrite Z.eqb_refl.
    + cbn [index]. destruct (Z.eqb_spec x value) as [-> | Hne].
      * exfalso. apply Hx. eapply nth_error_In. eassumption.
      * rewrite (IH i value Hnth). cbn [option_map]. f_equal. lia.
Qed.

Lemma tuple_getitem_nth (t : list Z) (i : Z) :
  0 <= i < Z.of_nat (List.length t) ->
  tuple_getitem t i = Ok (nth (Z.to_nat i) t 0).
Proof.
  intros Hi. unfold tuple_getitem.
  destruct (Z.ltb_spec i 0); [lia |].
  destruct (Z.leb_spec 0 i), (Z.ltb_spec i (Z.of_nat (List.length t)));
    simpl; lia || reflexivity.
Qed.

(** A two bit field read from a byte is an index from 0 to 3. *)
Lemma two_bit_field_range (b off : Z) :
  0 <= off -> off + 2 <= 8 ->
  0 <= Z.shiftr (Z.land b (field_mask off 2)) off < 4.
Proof.
  intros Hoff Hfit.
  assert (Hz : Z.land (Z.shiftr (Z.land b (field_mask off 2)) off) (Z.ones 2)
               = Z.shiftr (Z.land b (field_mask off 2)) off).
  { apply Z.bits_inj'. intros i Hi.
    rewrite Z.land_spec, Z.shiftr_spec, Z.land_spec by assumption.
    rewrite field_mask_spec, Z.testbit_ones_nonneg by lia.
    destruct (Z.leb_spec off (i + off)), (Z.ltb_spec (i + off) (off + 2)),
      (Z.ltb_spec i 2); simpl; try lia;
      rewrite ?andb_true_r, ?andb_false_r; reflexivity. }
  apply (land_ones_fix _ 2) in Hz; [| lia]. change (2 ^ 2) with 4 in Hz. lia.
Qed.

Lemma no_dup_choices : NoDup _LIGHTNING_COUNT /\ NoDup _FREQ_DIVISOR.
Proof.
  split; repeat constructor; simpl; unfold _0X01, _0X05, _0X09, _0X10,
    _0X20, _0X40, _0X80; lia.
Qed.

Lemma selects_by_index_gen {W : Type} (env : Env W) (choices : list Z)
      (register : Register) (message : string) :
  NoDup choices -> List.length choices = 4%nat ->
  is_field register 2 = true ->
  message = ("Select a value from " ++ String.concat ", " (map str choices))%string ->
  selects_by_index env choices register
    (i <- _get_register env register ;; lift (tuple_getitem choices i))
    (fun value => i <- lift (_reg_value_from_choices value choices) ;;
                  _set_register env register i)
    message.
Proof.
  intros Hnd Hlen Hf -> st.
  pose proof (is_field_inv register 2 Hf) as (Hoff & _ & Hfit & Hm).
  split; [| split].
  - intros i value Hnth. unfold bind at 1, lift, _reg_value_from_choices.
    now rewrite (index_nth choices Hnd i value Hnth).
  - intros value Hin. unfold bind, lift, _reg_value_from_choices.
    now rewrite (index_none value choices Hin).
  - destruct (get_register_spec env register st Hoff)
      as (a & d & w' & _ & _ & E).
    pose proof (two_bit_field_range (byte_val d) (offset register) Hoff Hfit)
      as Hr.
    rewrite <- Hm in Hr.
    exists a, d. eexists. unfold bind at 1. rewrite E. unfold lift.
    rewrite tuple_getitem_nth by (rewrite Hlen; simpl; lia).
    split; [reflexivity |]. split; [reflexivity | assumption].
Qed.

Lemma selection_round_trips_gen {C : Type} (clock : C -> Q * C)
      (choices : list Z) (register : Register) :
  NoDup choices -> List.length choices = 4%nat ->
  is_field register 2 = true ->
  selection_round_trips clock choices register
    (i <- _get_register (chip_env clock) register ;;
     lift (tuple_getitem choices i))
    (fun value => i <- lift (_reg_value_from_choices value choices) ;;
                  _set_register (chip_env clock) register i).
Proof.
  intros Hnd Hlen Hf st i value Hnth.
  assert (Hi : (i < 4)%nat).
  { rewrite <- Hlen. apply nth_error_Some. congruence. }
  destruct (chip_round_trip clock register 2 (Z.of_nat i) st Hf)
    as (st1 & st2 & Es & Eg); [change (2 ^ 2) with 4; lia |].
  exists st1, st2, st2. split; [| split; [exact Eg |]].
  - unfold bind at 1, lift, _reg_value_from_choices.
    rewrite (index_nth choices Hnd i value Hnth). exact Es.
  - unfold bind at 1. rewrite Eg. unfold lift.
    rewrite tuple_getitem_nth by (rewrite Hlen; simpl; lia).
    rewrite Nat2Z.id. f_equal. f_equal.
    apply nth_error_nth. exact Hnth.
Qed.

(** C9.  The strike count threshold setter stores the position of its value
    in (1, 5, 9, 16) in the two bit field at address 2 (5 is stored as 1) and
    the getter maps the stored index back to the value; a value outside the
    tuple (3, say) raises [ValueError] with the bus untouched.  The frequency
    divisor does the same with (16, 32, 64, 128) and the field at address 3.
    On the stub chip a selected value is read back as written. *)
Theorem enumerated_selection_by_index :
  _LIGHTNING_COUNT = [1; 5; 9; 16] /\ _FREQ_DIVISOR = [16; 32; 64; 128] /\
  (forall (W : Type) (env : Env W),
      selects_by_index env [1; 5; 9; 16] _min_num_ligh
        (strike_count_threshold env) (strike_count_threshold_setter env)
        "Select a value from 1, 5, 9, 16" /\
      selects_by_index env [16; 32; 64; 128] _lco_fdiv
        (freq_divisor env) (freq_divisor_setter env)
        "Select a value from 16, 32, 64, 128") /\
  (forall (C : Type) (clock : C -> Q * C),
      selection_round_trips clock [1; 5; 9; 16] _min_num_ligh
        (strike_count_threshold (chip_env clock))
        (strike_count_threshold_setter (chip_env clock)) /\
      selection_round_trips clock [16; 32; 64; 128] _lco_fdiv
        (freq_divisor (chip_env clock))
        (freq_divisor_setter (chip_env clock))).
Proof.
  destruct no_dup_choices as [Hl Hf].
  split; [reflexivity |]. split; [reflexivity |]. split.
  - intros W env. split.
    + apply (selects_by_index_gen env _LIGHTNING_COUNT _min_num_ligh);
        [assumption | reflexivity | reflexivity | reflexivity].
    + apply (selects_by_index_gen env _FREQ_DIVISOR _lco_fdiv);
        [assumption | reflexivity | reflexivity | reflexivity].
  - intros C clock. split.
    + apply (selection_round_trips_gen clock _LIGHTNING_COUNT _min_num_ligh);
        [assumption | reflexivity | reflexivity].
    + apply (selection_round_trips_gen clock _FREQ_DIVISOR _lco_fdiv);
        [assumption | reflexivity | reflexivity].
Qed.

(** The cases of the specification and of the test suite: 5 is stored as
    index 1 and read back as 5; 3 is refused. *)
Example strike_count_threshold_five :
  let env := chip_env (ticking_clock 0) in
  let st := init_state (mkChip (set_mem blank_mem 2 "255"%byte) None, 0%Q) in
  fst ((strike_count_threshold_setter env 5 ;;; _get_register env _min_num_ligh) st)
    = Ok 1 /\
  fst ((strike_count_threshold_setter env 5 ;;; strike_count_threshold env) st)
    = Ok 5 /\
  strike_count_threshold_setter env 3 st
    = (Raise (ValueError "Select a value from 1, 5, 9, 16"), st).
Proof. repeat split. Qed.

Lemma enumerated_selection_by_index_witness :
  exists st1 st2 st3,
    strike_count_threshold_setter (chip_env (ticking_clock 0)) 5
      (init_state (mkChip blank_mem None, 0%Q)) = (Ok tt, st1) /\
    _get_register (chip_env (ticking_clock 0)) _min_num_ligh st1
      = (Ok (Z.of_nat 1), st2) /\
    strike_count_threshold (chip_env (ticking_clock 0)) st1 = (Ok 5, st3).
Proof.
  destruct enumerated_selection_by_index as (_ & _ & _ & H).
  destruct (H Q (ticking_clock 0)) as [Hs _].
  apply (Hs (init_state (mkChip blank_mem None, 0%Q)) 1%nat 5). reflexivity.
Defined.

(** ** Single bit flags *)

(** A one bit field is truthy exactly when its bit is set in the byte. *)
Lemma flag_bit7 (d : byte) :
  (Z.shiftr (Z.land (byte_val d) _0X80) _0X07 =? 0)
  = negb (Z.testbit (byte_val d) 7).
Proof. destruct d; reflexivity. Qed.

Lemma flag_bit6 (d : byte) :
  (Z.shiftr (Z.land (byte_val d) _0X40) _0X06 =? 0)
  = negb (Z.testbit (byte_val d) 6).
Proof. destruct d; reflexivity. Qed.

Lemma flag_bit0 (d : byte) :
  (Z.shiftr (Z.land (byte_val d) _0X01) _0X00 =? 0)
  = negb (Z.testbit (byte_val d) 0).
Proof. destruct d; reflexivity. Qed.

(** ** C10: leaving power-down *)

Section PowerDown.
Context {W : Type} (env : Env W).

Lemma power_down_spec (st : State W) :
  exists a d w',
    byte_val a = 0x40 /\
    dev_readinto env (dev_write env a (dev_enter env (world st))) = (d, w') /\
    power_down env st =
      (Ok (Z.testbit (byte_val d) 0),
       mkState (dev_exit env w') a d
         (calls st ++ [Session [DevWrite a; DevReadinto d]])).
Proof.
  destruct (get_register_spec env _pwd st) as (a & d & w' & Va & Er & E);
    [unfold _pwd, _0X00; simpl; lia |].
  exists a, d, w'. split; [rewrite Va; reflexivity |]. split; [assumption |].
  unfold power_down, bind. rewrite E. unfold ret. cbn [mask offset _pwd].
  rewrite flag_bit0, negb_involutive. reflexivity.
Qed.

End PowerDown.

(** C10.  Setting [power_down] to [False] while the power-down bit reads
    clear performs one register read and nothing else, whatever the fuel: no
    register write, no clock reading, no calibration.  So a run of the setter
    with [False] whose calls include a register write, a clock reading or a
    sleep found the power-down bit set.  Setting [power_down] to [True]
    always reads the byte at address 0 and writes it back with bit 0 set and
    the other bits as read. *)
Theorem power_down_setter_calibrates_only_from_power_down :
  forall (W : Type) (env : Env W) (fuel : nat) (st : State W),
    (fst (power_down env st) = Ok false ->
     exists c st',
       power_down_setter env fuel false st = Some (Ok tt, st') /\
       calls st' = calls st ++ [c] /\
       flag_read 0x00 0 c = Some false) /\
    (forall r st',
        power_down_setter env fuel false st = Some (r, st') ->
        existsb (fun c => negb (is_register_read c))
                (skipn (List.length (calls st)) (calls st')) = true ->
        fst (power_down env st) = Ok true) /\
    (exists a d a' d' st',
        power_down_setter env fuel true st = Some (Ok tt, st') /\
        calls st' = calls st ++ [Session [DevWrite a; DevReadinto d];
                                 Session [DevWrite a'; DevWrite d']] /\
        byte_val a = 0x40 /\ byte_val a' = 0x00 /\
        Z.testbit (byte_val d') 0 = true /\
        Z.land (byte_val d') (Z.lnot 0x01) = Z.land (byte_val d) (Z.lnot 0x01)).
Proof.
  intros W env fuel st.
  destruct (power_down_spec env st) as (a & d & w' & Va & Er & E).
  assert (Hclear :
            fst (power_down env st) = Ok false ->
            exists c st',
              power_down_setter env fuel false st = Some (Ok tt, st') /\
              calls st' = calls st ++ [c] /\
              flag_read 0x00 0 c = Some false).
  { intros Hb. rewrite E in Hb. cbn [fst] in Hb.
    assert (Hb' : Z.testbit (byte_val d) 0 = false)
      by (injection Hb as Hb; exact Hb).
    exists (Session [DevWrite a; DevReadinto d]). eexists.
    unfold power_down_setter. rewrite E, Hb'.
    split; [reflexivity |]. split; [reflexivity |].
    cbn [flag_read]. rewrite Va, Hb'. reflexivity. }
  split; [exact Hclear |]. split.
  - intros r st' Hrun Hsome.
    destruct (Z.testbit (byte_val d) 0) eqn:Hb;
      [rewrite E; reflexivity |].
    exfalso.
    destruct Hclear as (c & st1 & Hrun1 & Hcalls & Hflag);
      [rewrite E; reflexivity |].
    rewrite Hrun1 in Hrun. injection Hrun as _ <-.
    rewrite Hcalls, skipn_app, skipn_all, Nat.sub_diag in Hsome.
    cbn [skipn app existsb] in Hsome.
    destruct c as [[| [b1 | b1] [| [b2 | b2] [| x l]]] | t | t];
      cbn in Hflag; try discriminate Hflag.
    cbn in Hsome. discriminate Hsome.
  - destruct (set_register_spec env _pwd 0x01 st)
      as (a0 & d0 & w0 & a' & d' & Va0 & Er0 & Va' & Vd' & Es);
      [unfold _pwd, _0X00; simpl; lia |].
    exists a0, d0, a', d'. eexists. unfold power_down_setter.
    split; [rewrite Es; reflexivity |]. cbn [calls].
    split; [reflexivity |]. split; [rewrite Va0; reflexivity |].
    split; [rewrite Va'; reflexivity |]. rewrite Vd'. clear.
    split; destruct d0; reflexivity.
Qed.

Lemma power_down_setter_calibrates_only_from_power_down_witness :
  exists c st',
    power_down_setter (chip_env (ticking_clock 0)) 0 false
      (init_state (mkChip blank_mem None, 0%Q)) = Some (Ok tt, st') /\
    calls st' = [] ++ [c] /\
    flag_read 0x00 0 c = Some false.
Proof.
  apply (proj1 (power_down_setter_calibrates_only_from_power_down
                  _ (chip_env (ticking_clock 0)) 0
                  (init_state (mkChip blank_mem None, 0%Q)))).
  reflexivity.
Defined.

(** ** The calls of a calibration *)

Lemma flag_read_session (a d : byte) (A bit : Z) :
  byte_val a = Z.lor 0x40 A ->
  flag_read A bit (Session [DevWrite a; DevReadinto d])
  = Some (Z.testbit (byte_val d) bit).
Proof.
  intros Va. cbn [flag_read]. now rewrite Va, Z.eqb_refl.
Qed.

Lemma flag_read_is_read (A bit : Z) (c : Call) (b : bool) :
  flag_read A bit c = Some b ->
  is_register_read c = true /\ is_register_write c = false /\
  is_clock_reading c = false.
Proof.
  destruct c as [[| [b1 | b1] [| [b2 | b2] [| x l]]] | t | t];
    cbn; intros H; try discriminate H; auto.
Qed.

Lemma poll_not_done_reads (p : list Call) :
  poll_not_done p ->
  Forall (fun c => is_register_write c = false /\ is_clock_reading c = false) p.
Proof.
  intros [c H | c c' H H'];
    repeat constructor;
    try (apply (flag_read_is_read _ _ _ _ H));
    try (apply (flag_read_is_read _ _ _ _ H')).
Qed.

Lemma poll_done_reads (p : list Call) :
  poll_done p ->
  Forall (fun c => is_register_write c = false /\ is_clock_reading c = false) p.
Proof.
  intros [c c' H H'];
    repeat constructor;
    try (apply (flag_read_is_read _ _ _ _ H));
    try (apply (flag_read_is_read _ _ _ _ H')).
Qed.

Lemma verdict_reads (rest : list Call) (r : Res unit) :
  verdict_trace rest r ->
  Forall (fun c => is_register_write c = false /\ is_clock_reading c = false)
    rest.
Proof.
  intros [c H | c c' H H' | c c' H H'];
    repeat constructor;
    try (apply (flag_read_is_read _ _ _ _ H));
    try (apply (flag_read_is_read _ _ _ _ H')).
Qed.

Lemma wait_trace_no_write (start : Q) (tr : list Call) (b : bool) :
  wait_trace start tr b -> Forall (fun c => is_register_write c = false) tr.
Proof.
  induction 1 as [p Hp | p t Hp Ht | p t tr b Hp Ht Htr IH].
  - eapply Forall_impl; [| apply poll_done_reads; eassumption].
    intros c [Hc _]. exact Hc.
  - apply Forall_app. split.
    + eapply Forall_impl; [| apply poll_not_done_reads; eassumption].
      intros c [Hc _]. exact Hc.
    + repeat constructor.
  - apply Forall_app. split.
    + eapply Forall_impl; [| apply poll_not_done_reads; eassumption].
      intros c [Hc _]. exact Hc.
    + constructor; [reflexivity | assumption].
Qed.

Lemma filter_none {A : Type} (f : A -> bool) (l : list A) :
  Forall (fun x => f x = false) l -> filter f l = [].
Proof.
  induction 1 as [| x l Hx Hl IH]; [reflexivity |].
  cbn [filter]. now rewrite Hx.
Qed.

Lemma is_write_of_write (A data : Z) (c : Call) :
  is_register_write c = false -> is_write_of A data c = false.
Proof.
  destruct c as [[| [b1 | b1] [| [b2 | b2] [| x l]]] | t | t];
    cbn; intros H; try discriminate H; reflexivity.
Qed.

(** In a calibration the only register write is the one of the magic value:
    it happens once. *)
Lemma calibration_trace_one_write (tr : list Call) (r : Res unit) :
  calibration_trace tr r ->
  magic_writes tr = 1%nat /\
  List.length (filter is_register_write tr) = 1%nat.
Proof.
  assert (Hnone : forall l,
             Forall (fun c => is_register_write c = false) l ->
             filter (is_write_of 0x3D 0x96) l = [] /\
             filter is_register_write l = []).
  { intros l Hl. split; apply filter_none; [| assumption].
    eapply Forall_impl; [| exact Hl]. intros c. apply is_write_of_write. }
  intros [a d a' d' start w Va Va' Vd' Hw
         | a d a' d' start w rest r' Va Va' Vd' Hw Hv];
    unfold magic_writes; cbn [filter is_write_of is_register_write];
    rewrite Va', Vd'; cbn [Z.eqb Pos.eqb andb].
  - destruct (Hnone w (wait_trace_no_write _ _ _ Hw)) as [-> ->].
    split; reflexivity.
  - assert (Hall : Forall (fun c => is_register_write c = false) (w ++ rest)).
    { apply Forall_app. split; [eapply wait_trace_no_write; eassumption |].
      eapply Forall_impl; [| eapply verdict_reads; eassumption].
      intros c [Hc _]. exact Hc. }
    destruct (Hnone _ Hall) as [-> ->]. split; reflexivity.
Qed.

Lemma calibration_trace_outcome (tr : list Call) (r : Res unit) :
  calibration_trace tr r ->
  r = Ok tt \/ r = Raise timed_out \/ r = Raise calibration_error.
Proof.
  intros [a d a' d' start w Va Va' Vd' Hw
         | a d a' d' start w rest r' Va Va' Vd' Hw Hv]; [auto |].
  destruct Hv; auto.
Qed.


(** ** Calibration on any bus *)

Section Calibration.
Context {W : Type} (env : Env W).

Lemma monotonic_spec (st : State W) :
  exists t w',
    time_monotonic env (world st) = (t, w') /\
    monotonic env st =
      (Ok t,
       mkState w' (_ADDR_BUFFER st) (_DATA_BUFFER st)
         (calls st ++ [MonotonicCall t])).
Proof.
  unfold monotonic. destruct (time_monotonic env (world st)) as [t w'].
  exists t, w'. split; reflexivity.
Qed.

(** Reading one of the four calibration flags. *)
Lemma get_flag_spec (register : Register) (st : State W) :
  In register [_trco_calib_done; _srco_calib_done;
               _trco_calib_nok; _srco_calib_nok] ->
  exists a d w',
    dev_readinto env (dev_write env a (dev_enter env (world st))) = (d, w') /\
    _get_register env register st =
      (Ok (Z.shiftr (Z.land (byte_val d) (mask register)) (offset register)),
       mkState (dev_exit env w') a d
         (calls st ++ [Session [DevWrite a; DevReadinto d]])) /\
    ((Z.shiftr (Z.land (byte_val d) (mask register)) (offset register) =? 0)
     = negb (Z.testbit (byte_val d) (offset register))) /\
    flag_read (addr register) (offset register)
      (Session [DevWrite a; DevReadinto d])
    = Some (Z.testbit (byte_val d) (offset register)).
Proof.
  intros Hin.
  assert (Hoff : 0 <= offset register).
  { destruct Hin as [<- | [<- | [<- | [<- | []]]]]; simpl;
      unfold _0X06, _0X07; lia. }
  destruct (get_register_spec env register st Hoff)
    as (a & d & w' & Va & Er & E).
  exists a, d, w'. split; [assumption |]. split; [assumption |].
  destruct Hin as [<- | [<- | [<- | [<- | []]]]];
    (split; [first [apply flag_bit7 | apply flag_bit6]
            | apply flag_read_session; rewrite Va; reflexivity]).
Qed.

(** One evaluation of the loop condition: one or two flag reads. *)
Lemma calibration_done_spec (st : State W) :
  exists b st' p,
    calibration_done env st = (Ok b, st') /\
    calls st' = calls st ++ p /\
    (if b then poll_done p else poll_not_done p).
Proof.
  destruct (get_flag_spec _trco_calib_done st)
    as (a & d & w' & _ & E & Hz & Hf); [simpl; auto |].
  unfold calibration_done, bind. rewrite E, Hz.
  destruct (Z.testbit (byte_val d) (offset _trco_calib_done)) eqn:Hbit;
    cbn [negb].
  - set (st1 := mkState (dev_exit env w') a d _).
    destruct (get_flag_spec _srco_calib_done st1)
      as (a2 & d2 & w2 & _ & E2 & Hz2 & Hf2); [simpl; auto |].
    rewrite E2. unfold ret. rewrite Hz2, negb_involutive.
    eexists. eexists.
    exists [Session [DevWrite a; DevReadinto d];
            Session [DevWrite a2; DevReadinto d2]].
    split; [reflexivity |]. subst st1. cbn [calls].
    split; [now rewrite <- app_assoc |].
    destruct (Z.testbit (byte_val d2) (offset _srco_calib_done)) eqn:Hbit2.
    + now constructor.
    + now apply pnd_srco.
  - unfold ret. eexists. eexists. exists [Session [DevWrite a; DevReadinto d]].
    split; [reflexivity |]. split; [reflexivity |]. now apply pnd_trco.
Qed.

(** The final check: one or two flag reads. *)
Lemma calibration_failed_spec (st : State W) :
  exists b st' rest,
    calibration_failed env st = (Ok b, st') /\
    calls st' = calls st ++ rest /\
    verdict_trace rest (if b then Raise calibration_error else Ok tt).
Proof.
  destruct (get_flag_spec _trco_calib_nok st)
    as (a & d & w' & _ & E & Hz & Hf); [simpl; auto |].
  unfold calibration_failed, bind. rewrite E, Hz, negb_involutive.
  destruct (Z.testbit (byte_val d) (offset _trco_calib_nok)) eqn:Hbit.
  - unfold ret. eexists. eexists. exists [Session [DevWrite a; DevReadinto d]].
    split; [reflexivity |]. split; [reflexivity |]. now apply vt_trco.
  - set (st1 := mkState (dev_exit env w') a d _).
    destruct (get_flag_spec _srco_calib_nok st1)
      as (a2 & d2 & w2 & _ & E2 & Hz2 & Hf2); [simpl; auto |].
    rewrite E2. unfold ret. rewrite Hz2, negb_involutive.
    eexists. eexists.
    exists [Session [DevWrite a; DevReadinto d];
            Session [DevWrite a2; DevReadinto d2]].
    split; [reflexivity |]. subst st1. cbn [calls].
    split; [now rewrite <- app_assoc |].
    destruct (Z.testbit (byte_val d2) (offset _srco_calib_nok)) eqn:Hbit2.
    + now apply vt_srco.
    + now apply vt_ok.
Qed.

(** The calls of a poll loop that has ended. *)
Lemma wait_for_calibration_trace (fuel : nat) (start : Q) :
  forall (st : State W) (r : Res unit) (st' : State W),
    wait_for_calibration env fuel start st = Some (r, st') ->
    exists tr,
      calls st' = calls st ++ tr /\
      wait_trace start tr (is_timed_out r) /\
      (r = Ok tt \/ r = Raise timed_out).
Proof.
  induction fuel as [| fuel IH]; intros st r st' Hrun; [discriminate |].
  cbn [wait_for_calibration] in Hrun.
  destruct (calibration_done_spec st) as (b & st1 & p & E & Hcalls & Hp).
  rewrite E in Hrun. destruct b.
  - injection Hrun as <- <-. exists p. split; [assumption |].
    split; [now apply wt_done | now left].
  - destruct (monotonic_spec st1) as (t & w' & _ & Em).
    rewrite Em in Hrun.
    set (st2 := mkState w' _ _ _) in *.
    destruct (Qle_bool (float_sub t start) 1) eqn:Hle; cbn [negb] in Hrun.
    + apply IH in Hrun as (tr & Hcalls' & Htr & Hr).
      exists (p ++ MonotonicCall t :: tr). split.
      * rewrite Hcalls'. subst st2. cbn [calls]. rewrite Hcalls.
        rewrite <- !app_assoc. reflexivity.
      * split; [| assumption].
        apply wt_again; [assumption | now apply Qle_bool_iff | assumption].
    + injection Hrun as <- <-. exists (p ++ [MonotonicCall t]). split.
      * subst st2. cbn [calls]. rewrite Hcalls. now rewrite <- app_assoc.
      * split; [| now right]. apply wt_timeout; [assumption |].
        apply Qnot_le_lt. intros Hq. apply Qle_bool_iff in Hq. congruence.
Qed.

(** The trigger: a read of address 0x3D and the write of 0x96 to it. *)
Lemma trigger_spec (st : State W) :
  exists a d a' d' st',
    _set_register env _calib_rco 0x96 st = (Ok tt, st') /\
    calls st' = calls st ++ [Session [DevWrite a; DevReadinto d];
                             Session [DevWrite a'; DevWrite d']] /\
    byte_val a = 0x7D /\ byte_val a' = 0x3D /\ byte_val d' = 0x96.
Proof.
  destruct (set_register_spec env _calib_rco 0x96 st)
    as (a & d & w' & a' & d' & Va & _ & Va' & Vd' & E);
    [unfold _calib_rco, _0X00; simpl; lia |].
  exists a, d, a', d'. eexists. split; [exact E |]. cbn [calls].
  split; [reflexivity |]. split; [rewrite Va; reflexivity |].
  split; [rewrite Va'; reflexivity |]. rewrite Vd'. clear.
  destruct d; reflexivity.
Qed.

(** Every calibration that returns made the calls of a [calibration_trace]. *)
Lemma calibrate_clocks_trace (fuel : nat) (st : State W) (r : Res unit)
      (st' : State W) :
  _calibrate_clocks env fuel st = Some (r, st') ->
  exists tr, calls st' = calls st ++ tr /\ calibration_trace tr r.
Proof.
  intros Hrun. unfold _calibrate_clocks in Hrun.
  destruct (trigger_spec st) as (a & d & a' & d' & st1 & E & Hc1 & Va & Va' & Vd').
  unfold bind at 1 in Hrun. rewrite E in Hrun.
  destruct (monotonic_spec st1) as (start & w' & _ & Em).
  rewrite Em in Hrun. set (st2 := mkState w' _ _ _) in *.
  destruct (wait_for_calibration env fuel start st2) as [[r2 st3] |] eqn:Ew;
    [| discriminate].
  apply wait_for_calibration_trace in Ew as (tr & Hc3 & Htr & Hr2).
  assert (Hc2 : calls st3 =
                calls st ++ Session [DevWrite a; DevReadinto d]
                  :: Session [DevWrite a'; DevWrite d']
                  :: MonotonicCall start :: tr).
  { rewrite Hc3. subst st2. cbn [calls]. rewrite Hc1.
    rewrite <- !app_assoc. reflexivity. }
  destruct Hr2 as [-> | ->].
  - destruct (calibration_failed_spec st3) as (b & st4 & rest & Ef & Hc4 & Hv).
    unfold bind in Hrun. rewrite Ef in Hrun.
    exists (Session [DevWrite a; DevReadinto d]
              :: Session [DevWrite a'; DevWrite d']
              :: MonotonicCall start :: tr ++ rest).
    destruct b; unfold raise, ret in Hrun; injection Hrun as <- <-;
      (split; [rewrite Hc4, Hc2, <- app_assoc; reflexivity |]);
      now apply ct_finished.
  - injection Hrun as <- <-. eexists. split; [exact Hc2 |].
    now apply ct_timed_out.
Qed.

(** More fuel does not change the result of a loop that has ended. *)
Lemma wait_for_calibration_more_fuel (fuel : nat) (start : Q) :
  forall (st : State W) (res : Res unit * State W) (extra : nat),
    wait_for_calibration env fuel start st = Some res ->
    wait_for_calibration env (fuel + extra) start st = Some res.
Proof.
  induction fuel as [| fuel IH]; intros st res extra Hrun; [discriminate |].
  cbn [wait_for_calibration Nat.add] in *.
  destruct (calibration_done env st) as [[[|] | e] st1]; try assumption.
  destruct (monotonic env st1) as [[t | e] st2]; try assumption.
  destruct (negb (Qle_bool (float_sub t start) 1)); [assumption |].
  now apply IH.
Qed.


End Calibration.

(** ** Calibration on a simulated bus and clock *)

Section Simulated.
Context {B C : Type} (bus : Bus B) (clock : C -> Q * C).

(** The register accessors leave the clock alone. *)
Lemma simulated_get_register (register : Register) (st : State (B * C)) :
  0 <= offset register ->
  exists v st',
    _get_register (simulated bus clock) register st = (Ok v, st') /\
    snd (world st') = snd (world st).
Proof.
  intros Hoff.
  destruct (get_register_spec (simulated bus clock) register st Hoff)
    as (a & d & w' & _ & Er & E).
  eexists. eexists. split; [exact E |].
  cbn [dev_readinto simulated] in Er. injection Er as _ <-. reflexivity.
Qed.

Lemma simulated_trigger (st : State (B * C)) :
  exists st',
    _set_register (simulated bus clock) _calib_rco 0x96 st = (Ok tt, st') /\
    snd (world st') = snd (world st).
Proof.
  destruct (set_register_spec (simulated bus clock) _calib_rco 0x96 st)
    as (a & d & w' & a' & d' & _ & Er & _ & _ & E);
    [unfold _calib_rco, _0X00; simpl; lia |].
  eexists. split; [exact E |].
  cbn [dev_readinto simulated] in Er. injection Er as _ <-. reflexivity.
Qed.

Lemma simulated_calibration_done (st : State (B * C)) :
  exists b st',
    calibration_done (simulated bus clock) st = (Ok b, st') /\
    snd (world st') = snd (world st).
Proof.
  unfold calibration_done, bind.
  destruct (simulated_get_register _trco_calib_done st)
    as (v & st1 & E & H1); [unfold _trco_calib_done, _0X07; simpl; lia |].
  rewrite E. destruct (v =? 0).
  - exists false, st1. split; [reflexivity | assumption].
  - destruct (simulated_get_register _srco_calib_done st1)
      as (v2 & st2 & E2 & H2); [unfold _srco_calib_done, _0X07; simpl; lia |].
    rewrite E2. eexists. exists st2. split; [reflexivity | congruence].
Qed.

(** A reading of the clock is the clock's next reading; the bus stays. *)
Lemma simulated_monotonic (st : State (B * C)) :
  exists st',
    monotonic (simulated bus clock) st
    = (Ok (fst (clock (snd (world st)))), st') /\
    snd (world st') = snd (clock (snd (world st))).
Proof.
  unfold monotonic. cbn [time_monotonic simulated].
  eexists. split; reflexivity.
Qed.

(** The loop ends within [S m] turns when the reading of its [S m]-th
    deadline check is past the deadline. *)
Lemma simulated_wait_expires (start : Q) (m : nat) :
  forall st : State (B * C),
    (1 < float_sub (nth_reading clock m (snd (world st))) start)%Q ->
    exists res,
      wait_for_calibration (simulated bus clock) (S m) start st = Some res.
Proof.
  induction m as [| m IH]; intros st Hlate;
    cbn [wait_for_calibration];
    destruct (simulated_calibration_done st) as (b & st1 & E & Hc);
    rewrite E;
    (destruct b; [eexists; reflexivity |]);
    destruct (simulated_monotonic st1) as (st2 & Em & Hc2);
    rewrite Em, Hc; cbn [nth_reading] in Hlate.
  - destruct (Qle_bool (float_sub (fst (clock (snd (world st)))) start) 1)
      eqn:Hle; cbn [negb]; [| eexists; reflexivity].
    exfalso. apply Qle_bool_iff in Hle.
    exact (Qlt_not_le _ _ Hlate Hle).
  - destruct (negb (Qle_bool (float_sub (fst (clock (snd (world st)))) start) 1));
      [eexists; reflexivity |].
    apply IH. rewrite Hc2, Hc. exact Hlate.
Qed.

(** [_calibrate_clocks] returns within [n] turns of its loop when the [n]-th
    reading of the clock after the start reading is past the deadline. *)
Lemma simulated_calibrate_clocks_returns (n : nat) (st : State (B * C)) :
  (1 < float_sub (nth_reading clock n (snd (world st)))
                 (nth_reading clock 0 (snd (world st))))%Q ->
  exists r st', _calibrate_clocks (simulated bus clock) n st = Some (r, st').
Proof.
  intros Hlate. destruct n as [| m].
  { exfalso. rewrite float_sub_diag in Hlate. discriminate. }
  unfold _calibrate_clocks.
  destruct (simulated_trigger st) as (st1 & E & Hc1).
  unfold bind at 1. rewrite E.
  destruct (simulated_monotonic st1) as (st2 & Em & Hc2).
  rewrite Em, Hc1.
  cbn [nth_reading] in Hlate.
  destruct (simulated_wait_expires (fst (clock (snd (world st)))) m st2)
    as ([r st3] & Ew); [rewrite Hc2, Hc1; exact Hlate |].
  rewrite Ew. destruct r as [[] | e].
  - match goal with
    | |- exists r st', Some ?x = _ => destruct x as [r4 st4]
    end.
    exists r4, st4. reflexivity.
  - exists (Raise e), st3. reflexivity.
Qed.


End Simulated.

(** ** Calibration against the stub chip *)

Section StubCalibration.
Context {C : Type} (clock : C -> Q * C).

Lemma chip_flag (register : Register) (st : State (Chip * C)) :
  In register [_trco_calib_done; _srco_calib_done;
               _trco_calib_nok; _srco_calib_nok] ->
  exists v st',
    _get_register (chip_env clock) register st = (Ok v, st') /\
    (v =? 0)
    = negb (Z.testbit (byte_val (mem (fst (world st)) (addr register)))
                      (offset register)) /\
    mem (fst (world st')) = mem (fst (world st)) /\
    snd (world st') = snd (world st).
Proof.
  intros Hin.
  assert (Hoff : 0 <= offset register).
  { destruct Hin as [<- | [<- | [<- | [<- | []]]]]; simpl;
      unfold _0X06, _0X07; lia. }
  destruct (chip_get_register clock register st Hoff)
    as (st' & E & Hmem & Hclk & _).
  eexists. exists st'. split; [exact E |].
  split; [| split; assumption].
  destruct Hin as [<- | [<- | [<- | [<- | []]]]];
    first [apply flag_bit7 | apply flag_bit6].
Qed.

Lemma chip_monotonic (st : State (Chip * C)) :
  exists t st',
    monotonic (chip_env clock) st = (Ok t, st') /\
    t = fst (clock (snd (world st))) /\
    mem (fst (world st')) = mem (fst (world st)) /\
    snd (world st') = snd (clock (snd (world st))).
Proof.
  unfold monotonic. cbn [time_monotonic chip_env].
  eexists. eexists. split; [reflexivity |]. cbn [world fst snd].
  repeat split.
Qed.

(** The flag reads of the stub chip, call by call. *)
Lemma chip_flag_call (register : Register) (st : State (Chip * C)) :
  In register [_trco_calib_done; _srco_calib_done;
               _trco_calib_nok; _srco_calib_nok] ->
  exists a v,
    byte_val a = Z.lor (addr register) 0x40 /\
    (v =? 0)
    = negb (Z.testbit (byte_val (mem (fst (world st)) (addr register)))
                      (offset register)) /\
    _get_register (chip_env clock) register st =
      (Ok v,
       mkState (mkChip (mem (fst (world st))) None, snd (world st)) a
         (mem (fst (world st)) (addr register))
         (calls st ++
            [Session [DevWrite a;
                      DevReadinto (mem (fst (world st)) (addr register))]])).
Proof.
  intros Hin.
  destruct (chip_read_byte_in clock register st) as (a & Va & E).
  exists a, (field_of (mem (fst (world st))) register).
  unfold _get_register, bind, field_of. rewrite E.
  destruct Hin as [<- | [<- | [<- | [<- | []]]]];
    (split; [rewrite Va; reflexivity |]);
    (split; [| reflexivity]);
    first [apply flag_bit7 | apply flag_bit6].
Qed.

(** Reading a field of the stub chip, with the call it makes. *)
Lemma chip_get_register_call (register : Register) (st : State (Chip * C)) :
  0 <= offset register ->
  exists a st',
    byte_val a = Z.lor (Z.land (addr register) 0x3F) 0x40 /\
    _get_register (chip_env clock) register st
    = (Ok (field_of (mem (fst (world st))) register), st') /\
    mem (fst (world st')) = mem (fst (world st)) /\
    snd (world st') = snd (world st) /\
    calls st' =
      calls st ++
        [Session [DevWrite a;
                  DevReadinto
                    (mem (fst (world st)) (Z.land (addr register) 0x3F))]].
Proof.
  intros Hoff.
  destruct (chip_read_byte_in clock register st) as (a & Va & E).
  exists a. eexists. split; [exact Va |].
  unfold _get_register, bind, field_of. rewrite E.
  destruct (Z.ltb_spec (offset register) 0); [lia |].
  split; [reflexivity |]. cbn [world calls fst snd mem]. repeat split.
Qed.

(** The calls of a calibration on a chip whose done flags are set: the
    trigger, the start reading, one evaluation of the loop condition (both
    done flags), and the final check, which reads SRCO's not-ok flag only
    when TRCO's is clear. *)
Lemma chip_calibration_calls (fuel : nat) (st : State (Chip * C)) :
  Z.testbit (byte_val (mem (fst (world st)) 0x3A)) 7 = true ->
  Z.testbit (byte_val (mem (fst (world st)) 0x3B)) 7 = true ->
  exists st',
    _calibrate_clocks (chip_env clock) (S fuel) st
    = Some (if Z.testbit (byte_val (mem (fst (world st)) 0x3A)) 6
               || Z.testbit (byte_val (mem (fst (world st)) 0x3B)) 6
            then Raise calibration_error else Ok tt, st') /\
    calls st' =
      calls st ++
        [Session [DevWrite x7d; DevReadinto (mem (fst (world st)) 0x3D)];
         Session [DevWrite x3d; DevWrite x96];
         MonotonicCall (fst (clock (snd (world st))));
         Session [DevWrite x7a; DevReadinto (mem (fst (world st)) 0x3A)];
         Session [DevWrite x7b; DevReadinto (mem (fst (world st)) 0x3B)];
         Session [DevWrite x7a; DevReadinto (mem (fst (world st)) 0x3A)]]
        ++ (if Z.testbit (byte_val (mem (fst (world st)) 0x3A)) 6 then []
            else [Session [DevWrite x7b;
                           DevReadinto (mem (fst (world st)) 0x3B)]]).
Proof.
  intros Hd1 Hd2.
  unfold _calibrate_clocks.
  destruct (chip_set_register clock _calib_rco 0x96 st)
    as (a & a' & d' & Va & Va' & Vd' & Es);
    [unfold _calib_rco, _0X00; simpl; lia |].
  assert (a = x7d) as -> by (apply byte_val_inj; rewrite Va; reflexivity).
  assert (a' = x3d) as -> by (apply byte_val_inj; rewrite Va'; reflexivity).
  assert (d' = x96) as ->.
  { apply byte_val_inj. rewrite Vd'. clear.
    destruct (mem (fst (world st)) (Z.land (addr _calib_rco) 63)); reflexivity. }
  change (Z.land (addr _calib_rco) 63) with 0x3D in Es.
  unfold bind at 1. rewrite Es.
  unfold monotonic at 1. cbn [time_monotonic chip_env world fst snd].
  cbn [_ADDR_BUFFER _DATA_BUFFER calls wait_for_calibration].
  set (m1 := set_mem (mem (fst (world st))) 61 x96).
  assert (H3A : m1 0x3A = mem (fst (world st)) 0x3A) by reflexivity.
  assert (H3B : m1 0x3B = mem (fst (world st)) 0x3B) by reflexivity.
  unfold calibration_done, calibration_failed, bind.
  match goal with
  | |- context [_get_register _ _trco_calib_done ?s] =>
      destruct (chip_flag_call _trco_calib_done s) as (a3 & v3 & Va3 & Hv3 & E3);
      [simpl; auto |]
  end.
  assert (a3 = x7a) as -> by (apply byte_val_inj; rewrite Va3; reflexivity).
  cbn [world fst snd mem calls addr offset _trco_calib_done] in E3, Hv3.
  unfold _0X3A, _0X07 in E3, Hv3. rewrite H3A in E3, Hv3.
  rewrite Hd1 in Hv3. cbn [negb] in Hv3.
  rewrite E3, Hv3.
  match goal with
  | |- context [_get_register _ _srco_calib_done ?s] =>
      destruct (chip_flag_call _srco_calib_done s) as (a4 & v4 & Va4 & Hv4 & E4);
      [simpl; auto |]
  end.
  assert (a4 = x7b) as -> by (apply byte_val_inj; rewrite Va4; reflexivity).
  cbn [world fst snd mem calls addr offset _srco_calib_done] in E4, Hv4.
  unfold _0X3B, _0X07 in E4, Hv4. rewrite H3B in E4, Hv4.
  rewrite Hd2 in Hv4. cbn [negb] in Hv4.
  rewrite E4. unfold ret. rewrite Hv4. cbn [negb].
  match goal with
  | |- context [_get_register _ _trco_calib_nok ?s] =>
      destruct (chip_flag_call _trco_calib_nok s) as (a5 & v5 & Va5 & Hv5 & E5);
      [simpl; auto |]
  end.
  assert (a5 = x7a) as -> by (apply byte_val_inj; rewrite Va5; reflexivity).
  cbn [world fst snd mem calls addr offset _trco_calib_nok] in E5, Hv5.
  unfold _0X3A, _0X06 in E5, Hv5. rewrite H3A in E5, Hv5.
  rewrite E5, Hv5.
  destruct (Z.testbit (byte_val (mem (fst (world st)) 58)) 6) eqn:Hn1;
    cbn [negb orb].
  - eexists. split; [reflexivity |]. cbn [calls].
    rewrite <- !app_assoc. reflexivity.
  - match goal with
    | |- context [_get_register _ _srco_calib_nok ?s] =>
        destruct (chip_flag_call _srco_calib_nok s)
          as (a6 & v6 & Va6 & Hv6 & E6); [simpl; auto |]
    end.
    assert (a6 = x7b) as -> by (apply byte_val_inj; rewrite Va6; reflexivity).
    cbn [world fst snd mem calls addr offset _srco_calib_nok] in E6, Hv6.
    unfold _0X3B, _0X06 in E6, Hv6. rewrite H3B in E6, Hv6.
    rewrite E6, Hv6.
    destruct (Z.testbit (byte_val (mem (fst (world st)) 59)) 6); cbn [negb];
      (eexists; split; [reflexivity |]); cbn [calls];
      rewrite <- !app_assoc; reflexivity.
Qed.

End StubCalibration.

(** With a clock that stands still and a TRCO done flag that stays clear the
    loop is still running whatever the fuel. *)
Lemma frozen_wait (t0 : Q) (fuel : nat) :
  forall st : State (Chip * unit),
    mem (fst (world st)) 0x3A = x00 ->
    wait_for_calibration (chip_env (frozen_clock t0)) fuel t0 st = None.
Proof.
  induction fuel as [| fuel IH]; intros st Hm; [reflexivity |].
  cbn [wait_for_calibration].
  destruct (chip_flag (frozen_clock t0) _trco_calib_done st)
    as (v & st1 & E & Hv & Hm1 & _); [simpl; auto |].
  cbn [addr offset _trco_calib_done] in Hv. unfold _0X3A in Hv.
  rewrite Hm in Hv. cbn in Hv.
  unfold calibration_done, bind. rewrite E, Hv. unfold ret.
  destruct (chip_monotonic (frozen_clock t0) st1)
    as (t & st2 & Em & Ht & Hm2 & _).
  rewrite Em. cbn [frozen_clock fst] in Ht. subst t.
  rewrite float_sub_diag. cbn [negb Qle_bool]. apply IH. now rewrite Hm2, Hm1.
Qed.

(** ** C4: one outcome, one trigger *)

(** C4, as stated, fails: with a simulated clock that stands still and done
    flags that never read set, the loop of [_calibrate_clocks] never ends, so
    no outcome is returned whatever the fuel. *)
Lemma calibrate_clocks_frozen_clock_never_returns :
  ~ exists (fuel : nat) (r : Res unit) (st' : State (Chip * unit)),
      _calibrate_clocks (chip_env (frozen_clock 1000)) fuel
        (init_state (mkChip blank_mem None, tt)) = Some (r, st').
Proof.
  intros (fuel & r & st' & Hrun).
  unfold _calibrate_clocks in Hrun.
  destruct ((_set_register (chip_env (frozen_clock 1000)) _calib_rco 0x96
               ;;; monotonic (chip_env (frozen_clock 1000)))
              (init_state (mkChip blank_mem None, tt)))
    as [[start | e] st1] eqn:Et; vm_compute in Et; [| discriminate].
  injection Et as <- <-.
  rewrite (frozen_wait 1000 fuel) in Hrun by reflexivity.
  discriminate.
Qed.

(** C4, amended.  On every bus and clock, a call of [_calibrate_clocks] that
    returns gives exactly one of three outcomes (normal return, the
    [TimeoutError], the [RuntimeError]) and has written 0x96 to the
    calibration start register exactly once.  It does return, within [n]
    turns of the loop, on every simulated bus and every simulated clock
    whose [n]-th reading after the start reading is more than one second
    past it, the elapsed time being the float difference of the two
    readings. *)
Theorem calibrate_clocks_one_outcome_one_trigger :
  (forall (W : Type) (env : Env W),
      (Ok tt <> Raise timed_out /\ Ok tt <> Raise calibration_error /\
       @Raise unit timed_out <> Raise calibration_error) /\
      (forall (fuel : nat) (st : State W) (r : Res unit) (st' : State W),
          _calibrate_clocks env fuel st = Some (r, st') ->
          (r = Ok tt \/ r = Raise timed_out \/ r = Raise calibration_error) /\
          exists tr, calls st' = calls st ++ tr /\ magic_writes tr = 1%nat)) /\
  (forall (B C : Type) (bus : Bus B) (clock : C -> Q * C) (n : nat)
          (st : State (B * C)),
      (1 < float_sub (nth_reading clock n (snd (world st)))
                     (nth_reading clock 0 (snd (world st))))%Q ->
      exists r st' tr,
        _calibrate_clocks (simulated bus clock) n st = Some (r, st') /\
        (r = Ok tt \/ r = Raise timed_out \/ r = Raise calibration_error) /\
        calls st' = calls st ++ tr /\ magic_writes tr = 1%nat).
Proof.
  assert (Hret : forall (W : Type) (env : Env W) fuel st r st',
             _calibrate_clocks env fuel st = Some (r, st') ->
             (r = Ok tt \/ r = Raise timed_out \/ r = Raise calibration_error) /\
             exists tr, calls st' = calls st ++ tr /\ magic_writes tr = 1%nat).
  { intros W env fuel st r st' Hrun.
    apply calibrate_clocks_trace in Hrun as (tr & Hcalls & Htr).
    split; [eapply calibration_trace_outcome; eassumption |].
    exists tr. split; [assumption |].
    now apply (calibration_trace_one_write tr r). }
  split.
  - intros W env. split; [repeat split; discriminate |]. apply Hret.
  - intros B C bus clock n st Hlate.
    destruct (simulated_calibrate_clocks_returns bus clock n st Hlate)
      as (r & st' & Hrun).
    destruct (Hret _ _ n st r st' Hrun) as (Hr & tr & Hcalls & Hone).
    exists r, st', tr. auto.
Qed.

Lemma calibrate_clocks_one_outcome_one_trigger_witness :
  exists r st' tr,
    _calibrate_clocks (simulated chip_bus (ticking_clock (2 # 5))) 3
      (init_state (mkChip blank_mem None, 1000%Q)) = Some (r, st') /\
    (r = Ok tt \/ r = Raise timed_out \/ r = Raise calibration_error) /\
    calls st' = calls (init_state (mkChip blank_mem None, 1000%Q)) ++ tr /\
    magic_writes tr = 1%nat.
Proof.
  apply (proj2 calibrate_clocks_one_outcome_one_trigger
           Chip Q chip_bus (ticking_clock (2 # 5)) 3%nat
           (init_state (mkChip blank_mem None, 1000%Q))).
  vm_compute. reflexivity.
Defined.

(** The test suite's run that waits for calibration: the done flags read
    0, 0, 0 for TRCO, then 1 for TRCO and 1 for SRCO, and the not-ok flags
    read 0; the first byte of the script answers the trigger's read. *)
Example calibrate_clocks_waits_for_done :
  option_map
    (fun res => (fst res, map (flag_read 0x3A 7) (calls (snd res)),
                 map (flag_read 0x3B 7) (calls (snd res)),
                 map (flag_read 0x3A 6) (calls (snd res)),
                 map (flag_read 0x3B 6) (calls (snd res)),
                 magic_writes (calls (snd res))))
    (_calibrate_clocks (script_env 0) 4
       (init_state ["000"; "000"; "000"; "000"; "128"; "128"; "000"; "000"]%byte))
  = Some (Ok tt,
          [None; None; None; Some false; None; Some false; None; Some false;
           None; Some true; None; Some false; None],
          [None; None; None; None; None; None; None; None;
           None; None; Some true; None; Some false],
          [None; None; None; Some false; None; Some false; None; Some false;
           None; Some false; None; Some false; None],
          [None; None; None; None; None; None; None; None;
           None; None; Some false; None; Some false],
          1%nat).
Proof. reflexivity. Qed.

(** ** C5: a failed calibration *)




(** With TRCO's not-ok flag set the final check is one read: SRCO's not-ok
    flag, set as well here, is not looked at. *)
Example calibration_failure_short_circuit :
  option_map (fun res => (fst res, calls (snd res)))
    (_calibrate_clocks (chip_env (frozen_clock 0)) 1
       (init_state
          (mkChip (set_mem (set_mem blank_mem 0x3A "192"%byte) 0x3B "192"%byte)
                  None, tt)))
  = Some (Raise (RuntimeError "AS3935 RCO calibration failed."),
          [Session [DevWrite x7d; DevReadinto x00];
           Session [DevWrite x3d; DevWrite x96];
           MonotonicCall 0;
           Session [DevWrite x7a; DevReadinto xc0];
           Session [DevWrite x7b; DevReadinto xc0];
           Session [DevWrite x7a; DevReadinto xc0]]).
Proof. vm_compute. reflexivity. Qed.

(** ** C6: the deadline *)




(** 2.0 minus the float just below 1.0 is 1.0 in floats: a check that reads
    2.0 after a start at that float does not raise, although more than one
    second has passed; the next check, at 2.5, does. *)
Example calibrate_clocks_rounded_deadline :
  let st := init_state (mkChip blank_mem None,
                        [(9007199254740991 # 9007199254740992)%Q; 2%Q;
                         (5 # 2)%Q]) in
  _calibrate_clocks (chip_env scripted_clock) 1 st = None /\
  option_map fst (_calibrate_clocks (chip_env scripted_clock) 2 st)
  = Some (Raise (TimeoutError "RCO calibration timed out.")).
Proof. split; vm_compute; reflexivity. Qed.

(** The test suite's timeout: the clock reads 1000 at the start, then 1001
    (exactly one second: the loop goes on) and 1001.01 (the loop raises). *)
Example calibrate_clocks_timeout_test :
  let st := init_state (mkChip blank_mem None,
                        [1000%Q; 1001%Q; (100101 # 100)%Q]) in
  _calibrate_clocks (chip_env scripted_clock) 1 st = None /\
  option_map fst (_calibrate_clocks (chip_env scripted_clock) 2 st)
  = Some (Raise (TimeoutError "RCO calibration timed out.")).
Proof. split; reflexivity. Qed.

(** The test suite's run that leaves power-down: with the power-down bit
    set and both oscillators calibrated, the setter clears the bit,
    calibrates, and toggles the display flags around a 2 ms sleep. *)
Example power_down_setter_from_power_down :
  let chip := set_mem (set_mem (set_mem blank_mem 0x00 "001"%byte)
                         0x3A "128"%byte) 0x3B "128"%byte in
  option_map
    (fun res => (fst res,
                 List.length (filter is_register_write (calls (snd res))),
                 magic_writes (calls (snd res)),
                 filter (fun c => negb (is_bus_call c)) (calls (snd res)),
                 byte_val (mem (fst (world (snd res))) 0x00)))
    (power_down_setter (chip_env (frozen_clock 0)) 1 false
       (init_state (mkChip chip None, tt)))
  = Some (Ok tt, 4%nat, 1%nat,
          [MonotonicCall 0; SleepCall (2 # 1000)], 0).
Proof. reflexivity. Qed.

(** * Further properties of the driver *)

(** ** Fields that share a byte *)

Lemma field_value_range (b off w : Z) :
  0 <= off -> 0 <= w ->
  0 <= Z.shiftr (Z.land b (field_mask off w)) off < 2 ^ w.
Proof.
  intros Hoff Hw. apply land_ones_fix; [assumption |].
  apply Z.bits_inj'. intros i Hi.
  rewrite Z.land_spec, Z.shiftr_spec, Z.land_spec by assumption.
  rewrite field_mask_spec, Z.testbit_ones_nonneg by lia.
  destruct (Z.leb_spec off (i + off)), (Z.ltb_spec (i + off) (off + w)),
    (Z.ltb_spec i w); simpl; try lia;
    rewrite ?andb_true_r, ?andb_false_r; reflexivity.
Qed.

Lemma disjoint_mask_kept (m m2 : Z) :
  Z.land m m2 = 0 -> Z.land (Z.lnot m) m2 = m2.
Proof.
  intros Hd. apply Z.bits_inj'. intros i Hi.
  pose proof (f_equal (fun x => Z.testbit x i) Hd) as Hb. cbv beta in Hb.
  rewrite Z.land_spec, Z.bits_0 in Hb.
  rewrite Z.land_spec, Z.lnot_spec by assumption.
  destruct (Z.testbit m i), (Z.testbit m2 i); simpl in *; congruence.
Qed.

(** Writing a representable value into a field leaves the bits of a disjoint
    mask as they were. *)
Lemma merged_byte_other_field (register : Register) (w v byte mask2 : Z) :
  is_field register w = true -> 0 <= v < 2 ^ w ->
  Z.land (mask register) mask2 = 0 ->
  Z.land
    (Z.lor (Z.land byte (Z.lnot (mask register)))
           (Z.land (Z.shiftl v (offset register)) _0XFF))
    mask2
  = Z.land byte mask2.
Proof.
  intros Hf Hv Hd.
  rewrite <- (disjoint_mask_kept (mask register) mask2 Hd) at 1.
  rewrite Z.land_assoc, (merged_byte_outside register w v byte Hf Hv).
  rewrite <- Z.land_assoc. now rewrite disjoint_mask_kept.
Qed.

Section StubFields.
Context {C : Type} (clock : C -> Q * C).

(** Reading a field of the stub chip: its value in memory, memory and clock
    untouched, one read transaction. *)
Lemma chip_get_field (register : Register) (st : State (Chip * C)) :
  0 <= offset register ->
  exists st',
    _get_register (chip_env clock) register st
    = (Ok (field_of (mem (fst (world st))) register), st') /\
    mem (fst (world st')) = mem (fst (world st)) /\
    snd (world st') = snd (world st) /\
    exists c, calls st' = calls st ++ [c] /\ is_register_read c = true.
Proof.
  intros Hoff. exact (chip_get_register clock register st Hoff).
Qed.

(** Writing any value: the byte at the register's address becomes the merged
    byte, no other address changes, one read and one write transaction. *)
Lemma chip_set_byte (register : Register) (value : Z) (st : State (Chip * C)) :
  0 <= offset register ->
  exists st' d',
    _set_register (chip_env clock) register value st = (Ok tt, st') /\
    byte_val d' =
      Z.lor (Z.land (byte_val (mem (fst (world st)) (Z.land (addr register) 0x3F)))
                    (Z.lnot (mask register)))
            (Z.land (Z.shiftl value (offset register)) _0XFF) /\
    mem (fst (world st'))
    = set_mem (mem (fst (world st))) (Z.land (addr register) 0x3F) d' /\
    snd (world st') = snd (world st) /\
    exists c1 c2,
      calls st' = calls st ++ [c1; c2] /\
      is_register_read c1 = true /\ is_register_write c2 = true.
Proof.
  intros Hoff.
  destruct (chip_set_register clock register value st Hoff)
    as (a & a' & d' & _ & _ & Vd' & Es).
  eexists. exists d'. split; [exact Es |]. split; [exact Vd' |].
  cbn [world fst snd mem calls]. split; [reflexivity |].
  split; [reflexivity |]. eexists. eexists. split; [reflexivity |].
  split; reflexivity.
Qed.

(** Writing a representable value into a field: the field holds the value,
    every field at another address or under a disjoint mask keeps its value. *)
Lemma chip_set_field (register : Register) (w value : Z)
      (st : State (Chip * C)) :
  is_field register w = true -> 0 <= value < 2 ^ w ->
  exists st',
    _set_register (chip_env clock) register value st = (Ok tt, st') /\
    field_of (mem (fst (world st'))) register = value /\
    (forall other : Register,
        Z.land (addr other) 0x3F <> Z.land (addr register) 0x3F \/
        Z.land (mask register) (mask other) = 0 ->
        field_of (mem (fst (world st'))) other
        = field_of (mem (fst (world st))) other) /\
    (forall a, a <> Z.land (addr register) 0x3F ->
               mem (fst (world st')) a = mem (fst (world st)) a) /\
    snd (world st') = snd (world st) /\
    exists c1 c2,
      calls st' = calls st ++ [c1; c2] /\
      is_register_read c1 = true /\ is_register_write c2 = true.
Proof.
  intros Hf Hv.
  pose proof (is_field_inv register w Hf) as (Hoff & _).
  destruct (chip_set_byte register value st Hoff)
    as (st' & d' & Es & Vd' & Hmem & Hclk & Hcalls).
  exists st'. split; [exact Es |].
  assert (Hother : forall a, a <> Z.land (addr register) 0x3F ->
                             mem (fst (world st')) a = mem (fst (world st)) a).
  { intros a Ha. rewrite Hmem. unfold set_mem.
    destruct (Z.eqb_spec a (Z.land (addr register) 63));
      [contradiction | reflexivity]. }
  split; [| split; [| split; [exact Hother | split; assumption]]].
  - unfold field_of. rewrite Hmem. unfold set_mem. rewrite Z.eqb_refl, Vd'.
    now apply merged_byte_field with (w := w).
  - intros other [Hne | Hdis]; unfold field_of.
    + now rewrite Hother.
    + destruct (Z.eq_dec (Z.land (addr other) 63) (Z.land (addr register) 63))
        as [Heq | Hne]; [| now rewrite Hother].
      rewrite Heq, Hmem. unfold set_mem. rewrite Z.eqb_refl, Vd'.
      now rewrite (merged_byte_other_field register w value _ _ Hf Hv Hdis).
Qed.

End StubFields.

(** ** X1 to X3: co-resident fields, other addresses, order of writes *)

(** X1.  On the stub chip, writing a representable value to a field leaves
    every field of the same byte whose mask is disjoint from it as it was:
    [_get_register] of the other field returns after the write what it
    returned before. *)
Theorem set_register_keeps_coresident_field :
  forall (C : Type) (clock : C -> Q * C) (register other : Register)
         (w value : Z) (st : State (Chip * C)),
    is_field register w = true ->
    0 <= value < 2 ^ w ->
    0 <= offset other ->
    Z.land (mask register) (mask other) = 0 ->
    fst ((_set_register (chip_env clock) register value
            ;;; _get_register (chip_env clock) other) st)
    = fst (_get_register (chip_env clock) other st).
Proof.
  intros C clock register other w value st Hf Hv Hoff Hdis.
  destruct (chip_set_field clock register w value st Hf Hv)
    as (st1 & Es & _ & Hkeep & _).
  destruct (chip_get_field clock other st1 Hoff) as (st2 & Eg & _).
  destruct (chip_get_field clock other st Hoff) as (st3 & Eg0 & _).
  unfold bind. rewrite Es, Eg, Eg0. cbn [fst]. f_equal.
  apply Hkeep. now right.
Qed.

Lemma set_register_keeps_coresident_field_witness :
  fst ((_set_register (chip_env (ticking_clock 0)) _wdth 9
          ;;; _get_register (chip_env (ticking_clock 0)) _nf_lev)
         (init_state (mkChip (set_mem blank_mem 1 "085"%byte) None, 0%Q)))
  = fst (_get_register (chip_env (ticking_clock 0)) _nf_lev
           (init_state (mkChip (set_mem blank_mem 1 "085"%byte) None, 0%Q))).
Proof.
  apply (set_register_keeps_coresident_field Q (ticking_clock 0) _wdth _nf_lev
           4 9 (init_state (mkChip (set_mem blank_mem 1 "085"%byte) None, 0%Q)));
    [reflexivity | lia | unfold _nf_lev, _0X04; simpl; lia | reflexivity].
Defined.

(** X2.  On the stub chip [_set_register], for a register whose offset is a
    bit position of a byte (0 to 7), changes no byte but the one at its
    address (taken modulo 64), whatever the value written, even one too
    large for the field, and it does not touch the clock. *)
Theorem set_register_keeps_other_addresses :
  forall (C : Type) (clock : C -> Q * C) (register : Register) (value : Z)
         (st : State (Chip * C)),
    0 <= offset register <= 7 ->
    exists st',
      _set_register (chip_env clock) register value st = (Ok tt, st') /\
      (forall a, a <> Z.land (addr register) 0x3F ->
                 mem (fst (world st')) a = mem (fst (world st)) a) /\
      snd (world st') = snd (world st).
Proof.
  intros C clock register value st [Hoff _].
  destruct (chip_set_byte clock register value st Hoff)
    as (st' & d' & Es & _ & Hmem & Hclk & _).
  exists st'. split; [exact Es |]. split; [| exact Hclk].
  intros a Ha. rewrite Hmem. unfold set_mem.
  destruct (Z.eqb_spec a (Z.land (addr register) 63));
    [contradiction | reflexivity].
Qed.

Lemma set_register_keeps_other_addresses_witness :
  exists st',
    _set_register (chip_env (ticking_clock 0)) _wdth 300
      (init_state (mkChip blank_mem None, 0%Q)) = (Ok tt, st') /\
    (forall a, a <> Z.land (addr _wdth) 0x3F ->
               mem (fst (world st')) a
               = mem (fst (world (init_state (mkChip blank_mem None, 0%Q)))) a) /\
    snd (world st') = snd (world (init_state (mkChip blank_mem None, 0%Q))).
Proof.
  apply (set_register_keeps_other_addresses Q (ticking_clock 0) _wdth 300
           (init_state (mkChip blank_mem None, 0%Q))).
  unfold _wdth, _0X00. simpl. lia.
Defined.

Lemma merged_commute (b m1 m2 s1 s2 : Z) :
  Z.land s1 m1 = s1 -> Z.land s2 m2 = s2 -> Z.land m1 m2 = 0 ->
  Z.lor (Z.land (Z.lor (Z.land b (Z.lnot m1)) s1) (Z.lnot m2)) s2
  = Z.lor (Z.land (Z.lor (Z.land b (Z.lnot m2)) s2) (Z.lnot m1)) s1.
Proof.
  intros H1 H2 Hd. apply Z.bits_inj'. intros i Hi.
  pose proof (f_equal (fun x => Z.testbit x i) H1) as B1.
  pose proof (f_equal (fun x => Z.testbit x i) H2) as B2.
  pose proof (f_equal (fun x => Z.testbit x i) Hd) as Bd.
  cbv beta in B1, B2, Bd.
  rewrite Z.land_spec in B1, B2, Bd. rewrite Z.bits_0 in Bd.
  rewrite !Z.lor_spec, !Z.land_spec, !Z.lor_spec, !Z.land_spec,
    !Z.lnot_spec by assumption.
  destruct (Z.testbit b i), (Z.testbit m1 i), (Z.testbit m2 i),
    (Z.testbit s1 i), (Z.testbit s2 i); simpl in *; congruence.
Qed.

Lemma shifted_value_under_mask (register : Register) (w v : Z) :
  is_field register w = true -> 0 <= v < 2 ^ w ->
  Z.land (Z.land (Z.shiftl v (offset register)) _0XFF) (mask register)
  = Z.land (Z.shiftl v (offset register)) _0XFF.
Proof.
  intros Hf Hv. apply is_field_inv in Hf as (Hoff & Hw & Hfit & Hm).
  rewrite shifted_in_byte with (w := w) by lia.
  rewrite Hm. apply shifted_under_mask; lia.
Qed.

(** X3.  On the stub chip two fields can be written in either order: for
    representable values and fields at different addresses or under disjoint
    masks, both orders succeed and leave the same memory. *)
Theorem set_register_fields_commute :
  forall (C : Type) (clock : C -> Q * C) (r1 r2 : Register)
         (w1 w2 v1 v2 : Z) (st : State (Chip * C)),
    is_field r1 w1 = true -> 0 <= v1 < 2 ^ w1 ->
    is_field r2 w2 = true -> 0 <= v2 < 2 ^ w2 ->
    Z.land (addr r1) 0x3F <> Z.land (addr r2) 0x3F \/
    Z.land (mask r1) (mask r2) = 0 ->
    exists stA stB,
      (_set_register (chip_env clock) r1 v1
         ;;; _set_register (chip_env clock) r2 v2) st = (Ok tt, stA) /\
      (_set_register (chip_env clock) r2 v2
         ;;; _set_register (chip_env clock) r1 v1) st = (Ok tt, stB) /\
      forall a, mem (fst (world stA)) a = mem (fst (world stB)) a.
Proof.
  intros C clock r1 r2 w1 w2 v1 v2 st Hf1 Hv1 Hf2 Hv2 Hsep.
  pose proof (is_field_inv r1 w1 Hf1) as (Hoff1 & _).
  pose proof (is_field_inv r2 w2 Hf2) as (Hoff2 & _).
  destruct (chip_set_byte clock r1 v1 st Hoff1)
    as (s1 & d1 & E1 & V1 & M1 & _).
  destruct (chip_set_byte clock r2 v2 s1 Hoff2)
    as (sA & d2 & E2 & V2 & M2 & _).
  destruct (chip_set_byte clock r2 v2 st Hoff2)
    as (t1 & e2 & F2 & U2 & N2 & _).
  destruct (chip_set_byte clock r1 v1 t1 Hoff1)
    as (sB & e1 & F1 & U1 & N1 & _).
  exists sA, sB. unfold bind. rewrite E1, E2, F2, F1.
  split; [reflexivity |]. split; [reflexivity |].
  set (A1 := Z.land (addr r1) 63) in *. set (A2 := Z.land (addr r2) 63) in *.
  rewrite M1 in V2, M2. rewrite N2 in U1, N1. rewrite M2, N1.
  destruct (Z.eq_dec A1 A2) as [Heq | Hne].
  - destruct Hsep as [Hne | Hdis]; [contradiction |].
    rewrite <- Heq in *. unfold set_mem in V2, U1.
    rewrite Z.eqb_refl in V2, U1. rewrite V1 in V2. rewrite U2 in U1.
    assert (Hd : d2 = e1).
    { apply byte_val_inj. rewrite V2, U1.
      apply merged_commute;
        [now apply shifted_value_under_mask with (w := w1)
        | now apply shifted_value_under_mask with (w := w2)
        | assumption]. }
    intros a. unfold set_mem. rewrite Hd.
    destruct (a =? A1); reflexivity.
  - unfold set_mem in V2, U1.
    destruct (Z.eqb_spec A2 A1) as [Hx | _]; [congruence |].
    destruct (Z.eqb_spec A1 A2) as [Hx | _]; [congruence |].
    assert (Hd1 : d1 = e1) by (apply byte_val_inj; congruence).
    assert (Hd2 : d2 = e2) by (apply byte_val_inj; congruence).
    intros a. unfold set_mem. rewrite Hd1, Hd2.
    destruct (Z.eqb_spec a A2), (Z.eqb_spec a A1); try reflexivity.
    congruence.
Qed.

Lemma set_register_fields_commute_witness :
  exists stA stB,
    (_set_register (chip_env (ticking_clock 0)) _wdth 9
       ;;; _set_register (chip_env (ticking_clock 0)) _nf_lev 5)
      (init_state (mkChip blank_mem None, 0%Q)) = (Ok tt, stA) /\
    (_set_register (chip_env (ticking_clock 0)) _nf_lev 5
       ;;; _set_register (chip_env (ticking_clock 0)) _wdth 9)
      (init_state (mkChip blank_mem None, 0%Q)) = (Ok tt, stB) /\
    forall a, mem (fst (world stA)) a = mem (fst (world stB)) a.
Proof.
  apply (set_register_fields_commute Q (ticking_clock 0) _wdth _nf_lev 4 3 9 5
           (init_state (mkChip blank_mem None, 0%Q)));
    [reflexivity | lia | reflexivity | lia | right; reflexivity].
Defined.

(** ** X4: what [_get_register] returns *)

(** X4.  On every bus, [_get_register] of a field of width [w] returns a
    value from 0 to [2^w - 1], whatever byte the bus answers; it makes one
    read transaction and no write. *)
Theorem get_register_bounded :
  forall (W : Type) (env : Env W) (register : Register) (w : Z)
         (st : State W),
    is_field register w = true ->
    exists v a d st',
      _get_register env register st = (Ok v, st') /\
      0 <= v < 2 ^ w /\
      v = Z.shiftr (Z.land (byte_val d) (mask register)) (offset register) /\
      calls st' = calls st ++ [Session [DevWrite a; DevReadinto d]].
Proof.
  intros W env register w st Hf.
  pose proof (is_field_inv register w Hf) as (Hoff & Hw & _ & Hm).
  destruct (get_register_spec env register st Hoff)
    as (a & d & w' & _ & _ & E).
  eexists. exists a, d. eexists. split; [exact E |].
  split; [| split; reflexivity].
  rewrite Hm. apply field_value_range; lia.
Qed.

Lemma get_register_bounded_witness :
  exists v a d st',
    _get_register (chip_env (ticking_clock 0)) _nf_lev
      (init_state (mkChip (set_mem blank_mem 1 "255"%byte) None, 0%Q))
    = (Ok v, st') /\
    0 <= v < 2 ^ 3 /\
    v = Z.shiftr (Z.land (byte_val d) (mask _nf_lev)) (offset _nf_lev) /\
    calls st' = [] ++ [Session [DevWrite a; DevReadinto d]].
Proof.
  apply (get_register_bounded _ (chip_env (ticking_clock 0)) _nf_lev 3
           (init_state (mkChip (set_mem blank_mem 1 "255"%byte) None, 0%Q))).
  reflexivity.
Defined.

(** ** The properties against the stub chip *)

Section StubProperties.
Context {C : Type} (clock : C -> Q * C).

Lemma chip_indoor (st : State (Chip * C)) :
  exists st',
    indoor (chip_env clock) st
    = (Ok (field_of (mem (fst (world st))) _afe_gb =? 0x12), st') /\
    mem (fst (world st')) = mem (fst (world st)).
Proof.
  destruct (chip_get_field clock _afe_gb st) as (st' & E & Hm & _);
    [unfold _afe_gb, _0X01; simpl; lia |].
  exists st'. split; [| exact Hm]. unfold indoor, bind. rewrite E.
  unfold _0X12, ret.
  destruct (field_of (mem (fst (world st))) _afe_gb =? 18); reflexivity.
Qed.

Lemma chip_outdoor (st : State (Chip * C)) :
  exists st',
    outdoor (chip_env clock) st
    = (Ok (negb (field_of (mem (fst (world st))) _afe_gb =? 0x12)), st') /\
    mem (fst (world st')) = mem (fst (world st)).
Proof.
  destruct (chip_indoor st) as (st' & E & Hm).
  exists st'. split; [| exact Hm]. unfold outdoor, bind. now rewrite E.
Qed.

Lemma chip_power_down (st : State (Chip * C)) :
  exists st',
    power_down (chip_env clock) st
    = (Ok (negb (field_of (mem (fst (world st))) _pwd =? 0)), st') /\
    mem (fst (world st')) = mem (fst (world st)) /\
    snd (world st') = snd (world st) /\
    exists c, calls st' = calls st ++ [c] /\ is_register_read c = true.
Proof.
  destruct (chip_get_field clock _pwd st) as (st' & E & Hm);
    [unfold _pwd, _0X00; simpl; lia |].
  exists st'. split; [| exact Hm]. unfold power_down, bind. now rewrite E.
Qed.

Lemma chip_indoor_setter (value : bool) (st : State (Chip * C)) :
  exists st',
    indoor_setter (chip_env clock) value st = (Ok tt, st') /\
    field_of (mem (fst (world st'))) _afe_gb = (if value then 0x12 else 0x0E) /\
    field_of (mem (fst (world st'))) _pwd = field_of (mem (fst (world st))) _pwd.
Proof.
  unfold indoor_setter.
  destruct value;
    [destruct (chip_set_field clock _afe_gb 5 _0X12 st)
        as (st' & E & Hv & Hkeep & _)
    | destruct (chip_set_field clock _afe_gb 5 _0X0E st)
        as (st' & E & Hv & Hkeep & _)];
    try reflexivity; try (unfold _0X12, _0X0E; change (2 ^ 5) with 32; lia);
    exists st'; (split; [exact E |]); (split; [exact Hv |]);
    apply Hkeep; right; reflexivity.
Qed.

End StubProperties.

(** ** X5: indoor and outdoor mode *)

(** X5.  On the stub chip, after [indoor = b] the getter [indoor] returns [b]
    and [outdoor] returns its negation; after [outdoor = b] the getter
    [outdoor] returns [b] and [indoor] its negation; neither setter changes
    what [power_down] reads, although the two settings share a byte. *)
Theorem indoor_outdoor_round_trip :
  forall (C : Type) (clock : C -> Q * C) (b : bool) (st : State (Chip * C)),
    let env := chip_env clock in
    fst ((indoor_setter env b ;;; indoor env) st) = Ok b /\
    fst ((indoor_setter env b ;;; outdoor env) st) = Ok (negb b) /\
    fst ((outdoor_setter env b ;;; outdoor env) st) = Ok b /\
    fst ((outdoor_setter env b ;;; indoor env) st) = Ok (negb b) /\
    fst ((indoor_setter env b ;;; power_down env) st) = fst (power_down env st) /\
    fst ((outdoor_setter env b ;;; power_down env) st) = fst (power_down env st).
Proof.
  intros C clock b st env. subst env.
  assert (Hset : forall v,
             fst ((indoor_setter (chip_env clock) v ;;; indoor (chip_env clock)) st)
             = Ok v /\
             fst ((indoor_setter (chip_env clock) v ;;; outdoor (chip_env clock)) st)
             = Ok (negb v) /\
             fst ((indoor_setter (chip_env clock) v ;;; power_down (chip_env clock)) st)
             = fst (power_down (chip_env clock) st)).
  { intros v.
    destruct (chip_indoor_setter clock v st) as (st1 & Es & Hv & Hp).
    destruct (chip_indoor clock st1) as (st2 & Ei & _).
    destruct (chip_outdoor clock st1) as (st3 & Eo & _).
    destruct (chip_power_down clock st1) as (st4 & Ep & _).
    destruct (chip_power_down clock st) as (st5 & Ep0 & _).
    unfold bind. rewrite Es, Ei, Eo, Ep, Ep0, Hv, Hp. cbn [fst].
    destruct v; repeat split; reflexivity. }
  unfold outdoor_setter.
  destruct (Hset b) as (H1 & H2 & H3).
  destruct (Hset (negb b)) as (H4 & H5 & H6).
  rewrite negb_involutive in H5. repeat split; assumption.
Qed.

(** ** X6 and X7: watchdog and noise floor *)

(** X6.  On the stub chip a watchdog threshold from 0 to 10 is read back as
    written, and writing it does not change the noise floor limit, which
    lives in the same byte. *)
Theorem watchdog_round_trip :
  forall (C : Type) (clock : C -> Q * C) (value : Z) (st : State (Chip * C)),
    0 <= value <= 10 ->
    let env := chip_env clock in
    fst ((watchdog_setter env value ;;; watchdog env) st) = Ok value /\
    fst ((watchdog_setter env value ;;; noise_floor_limit env) st)
    = fst (noise_floor_limit env st).
Proof.
  intros C clock value st Hv env. subst env.
  destruct (chip_set_field clock _wdth 4 value st)
    as (st1 & Es & Hval & Hkeep & _);
    [reflexivity | change (2 ^ 4) with 16; lia |].
  destruct (chip_get_field clock _wdth st1) as (st2 & Eg & _);
    [unfold _wdth, _0X00; simpl; lia |].
  destruct (chip_get_field clock _nf_lev st1) as (st3 & En & _);
    [unfold _nf_lev, _0X04; simpl; lia |].
  destruct (chip_get_field clock _nf_lev st) as (st4 & En0 & _);
    [unfold _nf_lev, _0X04; simpl; lia |].
  unfold watchdog_setter, watchdog, noise_floor_limit, bind, lift.
  rewrite value_in_range_accepts by (unfold _0X00, _0X0A; lia).
  rewrite Es, Eg, En, En0, Hval. cbn [fst]. split; [reflexivity |].
  f_equal. apply Hkeep. right. reflexivity.
Qed.

Lemma watchdog_round_trip_witness :
  fst ((watchdog_setter (chip_env (ticking_clock 0)) 10
          ;;; watchdog (chip_env (ticking_clock 0)))
         (init_state (mkChip (set_mem blank_mem 1 "255"%byte) None, 0%Q)))
  = Ok 10 /\
  fst ((watchdog_setter (chip_env (ticking_clock 0)) 10
          ;;; noise_floor_limit (chip_env (ticking_clock 0)))
         (init_state (mkChip (set_mem blank_mem 1 "255"%byte) None, 0%Q)))
  = fst (noise_floor_limit (chip_env (ticking_clock 0))
           (init_state (mkChip (set_mem blank_mem 1 "255"%byte) None, 0%Q))).
Proof.
  apply (watchdog_round_trip Q (ticking_clock 0) 10
           (init_state (mkChip (set_mem blank_mem 1 "255"%byte) None, 0%Q))).
  lia.
Defined.

(** X7.  The noise floor limit setter accepts the values 0 to 7: on the stub
    chip the value is read back as written and the watchdog threshold is
    unchanged.  On every bus any other value raises [ValueError] and leaves
    the state, and so the record of bus calls, as it was. *)
Theorem noise_floor_limit_validates_and_round_trips :
  (forall (W : Type) (env : Env W) (value : Z) (st : State W),
      value < 0 \/ 7 < value ->
      noise_floor_limit_setter env value st
      = (Raise (ValueError "Value must be in the range 0 to 7 inclusive."), st)) /\
  (forall (C : Type) (clock : C -> Q * C) (value : Z) (st : State (Chip * C)),
      0 <= value <= 7 ->
      fst ((noise_floor_limit_setter (chip_env clock) value
              ;;; noise_floor_limit (chip_env clock)) st) = Ok value /\
      fst ((noise_floor_limit_setter (chip_env clock) value
              ;;; watchdog (chip_env clock)) st)
      = fst (watchdog (chip_env clock) st)).
Proof.
  split.
  - intros W env value st Hv.
    unfold noise_floor_limit_setter, bind, lift, _value_is_in_range, _0X00, _0X07.
    destruct (Z.leb_spec 0 value), (Z.leb_spec value 7); simpl;
      try lia; reflexivity.
  - intros C clock value st Hv.
    destruct (chip_set_field clock _nf_lev 3 value st)
      as (st1 & Es & Hval & Hkeep & _);
      [reflexivity | change (2 ^ 3) with 8; lia |].
    destruct (chip_get_field clock _nf_lev st1) as (st2 & Eg & _);
      [unfold _nf_lev, _0X04; simpl; lia |].
    destruct (chip_get_field clock _wdth st1) as (st3 & En & _);
      [unfold _wdth, _0X00; simpl; lia |].
    destruct (chip_get_field clock _wdth st) as (st4 & En0 & _);
      [unfold _wdth, _0X00; simpl; lia |].
    unfold noise_floor_limit_setter, watchdog, noise_floor_limit, bind, lift.
    rewrite value_in_range_accepts by (unfold _0X00, _0X07; lia).
    rewrite Es, Eg, En, En0, Hval. cbn [fst]. split; [reflexivity |].
    f_equal. apply Hkeep. right. reflexivity.
Qed.

Lemma noise_floor_limit_validates_and_round_trips_witness :
  noise_floor_limit_setter (chip_env (ticking_clock 0)) 8
    (init_state (mkChip blank_mem None, 0%Q))
  = (Raise (ValueError "Value must be in the range 0 to 7 inclusive."),
     init_state (mkChip blank_mem None, 0%Q)) /\
  fst ((noise_floor_limit_setter (chip_env (ticking_clock 0)) 7
          ;;; noise_floor_limit (chip_env (ticking_clock 0)))
         (init_state (mkChip blank_mem None, 0%Q))) = Ok 7.
Proof.
  split.
  - apply (proj1 noise_floor_limit_validates_and_round_trips). lia.
  - apply (proj2 noise_floor_limit_validates_and_round_trips
             Q (ticking_clock 0) 7 (init_state (mkChip blank_mem None, 0%Q))).
    lia.
Defined.

(** ** X8: the spike threshold setter *)

(** X8.  The spike threshold setter asserts its range before it validates
    it: on every bus a value outside 0 to 11 ends the call with an
    [AssertionError] before anything else runs, so the [ValueError] of
    [_value_is_in_range] is never raised by this setter; a value from 0 to 11
    is written with [_set_register].  On the stub chip the value is read back
    as written and the strike count threshold, in the same byte, is
    unchanged. *)
Theorem spike_threshold_setter_asserts_range :
  (forall (W : Type) (env : Env W) (value : Z) (st : State W),
      (value < 0 \/ 11 < value ->
       spike_threshold_setter env value st = AssertionError) /\
      (0 <= value <= 11 ->
       spike_threshold_setter env value st
       = Passed (_set_register env _srej value st)) /\
      (forall res, spike_threshold_setter env value st = Passed res ->
                   fst res = Ok tt)) /\
  (forall (C : Type) (clock : C -> Q * C) (value : Z) (st : State (Chip * C)),
      0 <= value <= 11 ->
      exists st1,
        spike_threshold_setter (chip_env clock) value st = Passed (Ok tt, st1) /\
        fst (spike_threshold (chip_env clock) st1) = Ok value /\
        fst (strike_count_threshold (chip_env clock) st1)
        = fst (strike_count_threshold (chip_env clock) st)).
Proof.
  assert (Hin : forall (W : Type) (env : Env W) value (st : State W),
             0 <= value <= 11 ->
             spike_threshold_setter env value st
             = Passed (_set_register env _srej value st)).
  { intros W env value st Hv. unfold spike_threshold_setter, _0X00, _0X0B.
    destruct (Z.leb_spec 0 value), (Z.leb_spec value 11); simpl; try lia.
    unfold bind, lift.
    now rewrite value_in_range_accepts by (unfold _0X00, _0X0B; lia). }
  split.
  - intros W env value st. split; [| split; [now apply Hin |]].
    + intros Hv. unfold spike_threshold_setter, _0X00, _0X0B.
      destruct (Z.leb_spec 0 value), (Z.leb_spec value 11); simpl;
        try lia; reflexivity.
    + intros res Hres.
      destruct (Z_le_dec 0 value) as [Hlo | Hlo];
        [destruct (Z_le_dec value 11) as [Hhi | Hhi] |].
      * rewrite Hin in Hres by lia. injection Hres as <-.
        destruct (set_register_spec env _srej value st)
          as (a & d & w' & a' & d' & _ & _ & _ & _ & E);
          [unfold _srej, _0X00; simpl; lia |].
        now rewrite E.
      * exfalso. unfold spike_threshold_setter, _0X00, _0X0B in Hres.
        destruct (Z.leb_spec 0 value), (Z.leb_spec value 11); simpl in Hres;
          try lia; discriminate.
      * exfalso. unfold spike_threshold_setter, _0X00, _0X0B in Hres.
        destruct (Z.leb_spec 0 value), (Z.leb_spec value 11); simpl in Hres;
          try lia; discriminate.
  - intros C clock value st Hv.
    destruct (chip_set_field clock _srej 4 value st)
      as (st1 & Es & Hval & Hkeep & _);
      [reflexivity | change (2 ^ 4) with 16; lia |].
    exists st1. rewrite Hin by assumption. rewrite Es.
    split; [reflexivity |].
    destruct (chip_get_field clock _srej st1) as (st2 & Eg & _);
      [unfold _srej, _0X00; simpl; lia |].
    destruct (chip_get_field clock _min_num_ligh st1) as (st3 & En & _);
      [unfold _min_num_ligh, _0X04; simpl; lia |].
    destruct (chip_get_field clock _min_num_ligh st) as (st4 & En0 & _);
      [unfold _min_num_ligh, _0X04; simpl; lia |].
    unfold spike_threshold, strike_count_threshold, bind, lift.
    rewrite Eg, En, En0, Hval. cbn [fst]. split; [reflexivity |].
    rewrite (Hkeep _min_num_ligh) by (right; reflexivity). reflexivity.
Qed.

Lemma spike_threshold_setter_asserts_range_witness :
  spike_threshold_setter (chip_env (ticking_clock 0)) 12
    (init_state (mkChip blank_mem None, 0%Q)) = AssertionError /\
  exists st1,
    spike_threshold_setter (chip_env (ticking_clock 0)) 11
      (init_state (mkChip blank_mem None, 0%Q)) = Passed (Ok tt, st1) /\
    fst (spike_threshold (chip_env (ticking_clock 0)) st1) = Ok 11 /\
    fst (strike_count_threshold (chip_env (ticking_clock 0)) st1)
    = fst (strike_count_threshold (chip_env (ticking_clock 0))
             (init_state (mkChip blank_mem None, 0%Q))).
Proof.
  split.
  - apply (proj1 (proj1 spike_threshold_setter_asserts_range
                    _ (chip_env (ticking_clock 0)) 12
                    (init_state (mkChip blank_mem None, 0%Q)))).
    lia.
  - apply (proj2 spike_threshold_setter_asserts_range
             Q (ticking_clock 0) 11 (init_state (mkChip blank_mem None, 0%Q))).
    lia.
Defined.

(** ** X9: strike energy *)

Lemma lor_shifted (h l n : Z) :
  0 <= n -> 0 <= l < 2 ^ n -> Z.lor (Z.shiftl h n) l = h * 2 ^ n + l.
Proof.
  intros Hn Hl.
  assert (Hd : Z.land (Z.shiftl h n) l = 0).
  { apply Z.bits_inj'. intros i Hi.
    rewrite Z.land_spec, Z.shiftl_spec, Z.bits_0 by assumption.
    destruct (Z.lt_ge_cases i n) as [Hlt | Hge].
    - rewrite Z.testbit_neg_r by lia. reflexivity.
    - rewrite (testbit_high l n i) by assumption. apply andb_false_r. }
  rewrite <- Z.lxor_lor, <- Z.add_nocarry_lxor by assumption.
  now rewrite Z.shiftl_mul_pow2.
Qed.

(** The three bytes combined by [energy]. *)
Lemma energy_value (b1 b2 b3 : Z) :
  0 <= b1 < 256 -> 0 <= b2 < 256 -> 0 <= b3 < 256 ->
  Z.land
    (Z.lor (Z.lor (Z.shiftl (Z.shiftr (Z.land b1 _0X1F) _0X00) 16)
                  (Z.shiftl (Z.shiftr (Z.land b2 _0XFF) _0X00) 8))
           (Z.shiftr (Z.land b3 _0XFF) _0X00))
    0x3FFFFF
  = (b1 mod 32) * 65536 + b2 * 256 + b3.
Proof.
  intros H1 H2 H3. unfold _0X00. rewrite !Z.shiftr_0_r.
  change _0X1F with (Z.ones 5). change _0XFF with (Z.ones 8).
  rewrite (Z.land_ones b1 5) by lia.
  rewrite (proj1 (land_ones_fix b2 8 ltac:(lia))) by (change (2 ^ 8) with 256; lia).
  rewrite (proj1 (land_ones_fix b3 8 ltac:(lia))) by (change (2 ^ 8) with 256; lia).
  change (2 ^ 5) with 32.
  pose proof (Z.mod_pos_bound b1 32 ltac:(lia)) as Hm.
  rewrite <- Z.lor_assoc.
  rewrite (lor_shifted b2 b3 8) by (change (2 ^ 8) with 256; lia).
  change (2 ^ 8) with 256.
  rewrite (lor_shifted (b1 mod 32) (b2 * 256 + b3) 16)
    by (change (2 ^ 16) with 65536; lia).
  change (2 ^ 16) with 65536. change 0x3FFFFF with (Z.ones 22).
  rewrite (proj1 (land_ones_fix _ 22 ltac:(lia)));
    [lia | change (2 ^ 22) with 4194304; lia].
Qed.

(** X9.  On every bus [energy] reads addresses 6, 5 and 4, in this order and
    nothing else, and returns [(b6 mod 32) * 65536 + b5 * 256 + b4] for the
    three bytes read: a number from 0 to [2^21 - 1], so the final mask
    0x3FFFFF never removes a bit. *)
Theorem energy_is_21_bit_combination :
  forall (W : Type) (env : Env W) (st : State W),
    exists a1 d1 a2 d2 a3 d3 st',
      energy env st
      = (Ok ((byte_val d1 mod 32) * 65536 + byte_val d2 * 256 + byte_val d3),
         st') /\
      calls st' = calls st ++ [Session [DevWrite a1; DevReadinto d1];
                               Session [DevWrite a2; DevReadinto d2];
                               Session [DevWrite a3; DevReadinto d3]] /\
      byte_val a1 = 0x46 /\ byte_val a2 = 0x45 /\ byte_val a3 = 0x44 /\
      0 <= (byte_val d1 mod 32) * 65536 + byte_val d2 * 256 + byte_val d3
        < 2 ^ 21.
Proof.
  intros W env st.
  destruct (get_register_spec env _s_lig_mm st)
    as (a1 & d1 & w1 & Va1 & _ & E1); [unfold _s_lig_mm, _0X00; simpl; lia |].
  set (st1 := mkState (dev_exit env w1) a1 d1 _) in E1.
  destruct (get_register_spec env _s_lig_m st1)
    as (a2 & d2 & w2 & Va2 & _ & E2); [unfold _s_lig_m, _0X00; simpl; lia |].
  set (st2 := mkState (dev_exit env w2) a2 d2 _) in E2.
  destruct (get_register_spec env _s_lig_l st2)
    as (a3 & d3 & w3 & Va3 & _ & E3); [unfold _s_lig_l, _0X00; simpl; lia |].
  exists a1, d1, a2, d2, a3, d3. eexists.
  unfold energy, bind. rewrite E1, E2, E3. unfold ret.
  cbn [mask offset _s_lig_mm _s_lig_m _s_lig_l].
  pose proof (byte_val_range d1) as R1. pose proof (byte_val_range d2) as R2.
  pose proof (byte_val_range d3) as R3.
  rewrite energy_value by assumption.
  split; [reflexivity |]. subst st2 st1. cbn [calls].
  split; [rewrite <- !app_assoc; reflexivity |].
  split; [rewrite Va1; reflexivity |]. split; [rewrite Va2; reflexivity |].
  split; [rewrite Va3; reflexivity |].
  pose proof (Z.mod_pos_bound (byte_val d1) 32 ltac:(lia)) as Hm.
  change (2 ^ 21) with 2097152. lia.
Qed.

(** The test suite's case: the registers read 0x06, 0x55, 0x44. *)
Example energy_test :
  fst (energy (chip_env (ticking_clock 0))
         (init_state
            (mkChip (set_mem (set_mem (set_mem blank_mem 6 "006"%byte)
                                5 "085"%byte) 4 "068"%byte) None, 0%Q)))
  = Ok 0x065544.
Proof. reflexivity. Qed.

(** ** X10 and X11: distance and interrupt status *)

(** X10.  On every bus [distance] makes one read of address 7 and decodes the
    low six bits [raw] of the byte read: 63 gives [None], 1 gives 0, any
    other value is returned as it is.  So the result is [None] exactly when
    [raw] is 63, a distance is between 0 and 62 and is never 1, and 0 is
    returned for [raw] 0 as well as for [raw] 1. *)
Theorem distance_decoding :
  forall (W : Type) (env : Env W) (st : State W),
    exists a d r st',
      distance env st = (Ok r, st') /\
      calls st' = calls st ++ [Session [DevWrite a; DevReadinto d]] /\
      byte_val a = 0x47 /\
      (r = None <-> byte_val d mod 64 = 63) /\
      (r = Some 0 <-> byte_val d mod 64 = 0 \/ byte_val d mod 64 = 1) /\
      (forall k, r = Some k ->
                 0 <= k <= 62 /\ k <> 1 /\
                 (k = byte_val d mod 64 \/ byte_val d mod 64 = 1)).
Proof.
  intros W env st.
  destruct (get_register_spec env _distance st)
    as (a & d & w' & Va & _ & E); [unfold _distance, _0X00; simpl; lia |].
  exists a, d. unfold distance, bind. rewrite E.
  cbn [mask offset _distance]. unfold _0X00. rewrite Z.shiftr_0_r.
  change _0X3F with (Z.ones 6). rewrite Z.land_ones by lia.
  change (2 ^ 6) with 64.
  pose proof (Z.mod_pos_bound (byte_val d) 64 ltac:(lia)) as Hr.
  set (raw := byte_val d mod 64) in *. unfold ret.
  destruct (Z.eqb_spec raw 63) as [H63 | H63];
    [| destruct (Z.eqb_spec raw 1) as [H1 | H1]];
    eexists; eexists; (split; [reflexivity |]); cbn [calls];
    (split; [reflexivity |]); (split; [rewrite Va; reflexivity |]).
  - split; [tauto |]. split.
    + split; [discriminate | lia].
    + intros k Hk. discriminate.
  - split; [split; [discriminate | lia] |]. split.
    + split; [auto | reflexivity].
    + intros k Hk. injection Hk as <-. lia.
  - split; [split; [discriminate | lia] |]. split.
    + split; [intros Hk; injection Hk as Hk; lia |].
      intros [H0 | H0]; [now rewrite H0 | contradiction].
    + intros k Hk. injection Hk as <-. lia.
Qed.

(** The test suite's cases for [distance]. *)
Example distance_tests :
  map (fun b => fst (distance (chip_env (ticking_clock 0))
                       (init_state (mkChip (set_mem blank_mem 7 b) None, 0%Q))))
      ["001"; "017"; "063"]%byte
  = [Ok (Some 0); Ok (Some 17); Ok None].
Proof. reflexivity. Qed.

(** X11.  On every bus [interrupt_status] first sleeps 0.0002 s and only then
    reads address 3; it returns the low four bits of the byte read and
    writes nothing. *)
Theorem interrupt_status_sleeps_then_reads :
  forall (W : Type) (env : Env W) (st : State W),
    exists a d w' st',
      dev_readinto env
        (dev_write env a
           (dev_enter env (time_sleep env (2 # 10000) (world st)))) = (d, w') /\
      interrupt_status env st = (Ok (byte_val d mod 16), st') /\
      world st' = dev_exit env w' /\
      calls st' = calls st ++ [SleepCall (2 # 10000);
                               Session [DevWrite a; DevReadinto d]] /\
      byte_val a = 0x43.
Proof.
  intros W env st.
  set (st0 := mkState (time_sleep env (2 # 10000) (world st))
                (_ADDR_BUFFER st) (_DATA_BUFFER st)
                (calls st ++ [SleepCall (2 # 10000)])).
  destruct (get_register_spec env _int st0)
    as (a & d & w' & Va & Er & E); [unfold _int, _0X00; simpl; lia |].
  exists a, d, w'. eexists. split; [exact Er |].
  unfold interrupt_status, bind, sleep. fold st0. rewrite E.
  cbn [mask offset _int]. unfold _0X00. rewrite Z.shiftr_0_r.
  change _0X0F with (Z.ones 4). rewrite Z.land_ones by lia.
  change (2 ^ 4) with 16. split; [reflexivity |]. cbn [world calls].
  split; [reflexivity |]. subst st0. cbn [calls].
  split; [now rewrite <- app_assoc | rewrite Va; reflexivity].
Qed.

(** ** X12 to X15: the remaining settings against the stub chip *)

(** X12.  On the stub chip the disturber mask is read back as written, and
    writing it does not change the frequency divisor, which lives in the
    same byte. *)
Theorem disturber_mask_round_trip :
  forall (C : Type) (clock : C -> Q * C) (b : bool) (st : State (Chip * C)),
    let env := chip_env clock in
    fst ((disturber_mask_setter env b ;;; disturber_mask env) st) = Ok b /\
    fst ((disturber_mask_setter env b ;;; freq_divisor env) st)
    = fst (freq_divisor env st).
Proof.
  intros C clock b st env. subst env.
  destruct (chip_set_field clock _mask_dist 1 (Z.b2z b) st)
    as (st1 & Es & Hval & Hkeep & _);
    [reflexivity | destruct b; simpl; lia |].
  destruct (chip_get_field clock _mask_dist st1) as (st2 & Eg & _);
    [unfold _mask_dist, _0X05; simpl; lia |].
  destruct (chip_get_field clock _lco_fdiv st1) as (st3 & En & _);
    [unfold _lco_fdiv, _0X06; simpl; lia |].
  destruct (chip_get_field clock _lco_fdiv st) as (st4 & En0 & _);
    [unfold _lco_fdiv, _0X06; simpl; lia |].
  unfold disturber_mask_setter, disturber_mask, freq_divisor, bind, lift.
  rewrite Es, Eg, En, En0, Hval. cbn [fst]. split.
  - destruct b; reflexivity.
  - rewrite (Hkeep _lco_fdiv) by (right; reflexivity). reflexivity.
Qed.

Lemma pulse_high (d : byte) :
  Z.lor (Z.land (byte_val d) (Z.lnot (mask _cl_stat)))
        (Z.land (Z.shiftl 0x01 (offset _cl_stat)) _0XFF)
  = Z.lor (byte_val d) 0x40.
Proof. destruct d; reflexivity. Qed.

Lemma pulse_low (d : byte) :
  Z.lor (Z.land (byte_val d) (Z.lnot (mask _cl_stat)))
        (Z.land (Z.shiftl 0x00 (offset _cl_stat)) _0XFF)
  = Z.land (byte_val d) (Z.lnot 0x40).
Proof. destruct d; reflexivity. Qed.

Lemma pulse_again (d : byte) :
  Z.lor (Z.land (Z.lor (byte_val d) 0x40) (Z.lnot 0x40)) 0x40
  = Z.lor (byte_val d) 0x40 /\
  Z.land (Z.lor (byte_val d) 0x40) (Z.lnot 0x40)
  = Z.land (byte_val d) (Z.lnot 0x40) /\
  Z.lor (Z.land (byte_val d) (Z.lnot 0x40)) 0x40 = Z.lor (byte_val d) 0x40.
Proof. destruct d; repeat split. Qed.

(** X13.  On the stub chip [clear_stats] makes three read-modify-writes of
    address 2 that set, clear and set bit 6: the bytes written are
    [b | 0x40], [b & ~0x40] and [b | 0x40] for the byte [b] held before, so
    the call ends with bit 6 set, the other bits of the byte (spike and
    strike count thresholds) as they were, and every other address
    unchanged. *)
Theorem clear_stats_pulses_bit_six :
  forall (C : Type) (clock : C -> Q * C) (st : State (Chip * C)),
    exists st' x1 x2 x3,
      clear_stats (chip_env clock) st = (Ok tt, st') /\
      map byte_val [x1; x2; x3]
      = [Z.lor (byte_val (mem (fst (world st)) 2)) 0x40;
         Z.land (byte_val (mem (fst (world st)) 2)) (Z.lnot 0x40);
         Z.lor (byte_val (mem (fst (world st)) 2)) 0x40] /\
      (exists a a',
          byte_val a = 0x42 /\ byte_val a' = 0x02 /\
          calls st' = calls st ++
            [Session [DevWrite a; DevReadinto (mem (fst (world st)) 2)];
             Session [DevWrite a'; DevWrite x1];
             Session [DevWrite a; DevReadinto x1];
             Session [DevWrite a'; DevWrite x2];
             Session [DevWrite a; DevReadinto x2];
             Session [DevWrite a'; DevWrite x3]]) /\
      mem (fst (world st')) 2 = x3 /\
      (forall a, a <> 2 -> mem (fst (world st')) a = mem (fst (world st)) a).
Proof.
  intros C clock st.
  assert (Hoff : 0 <= offset _cl_stat) by (unfold _cl_stat, _0X06; simpl; lia).
  destruct (chip_set_register clock _cl_stat 0x01 st Hoff)
    as (a1 & a1' & x1 & Va1 & Va1' & V1 & E1).
  set (st1 := mkState _ a1' x1 _) in E1.
  destruct (chip_set_register clock _cl_stat 0x00 st1 Hoff)
    as (a2 & a2' & x2 & Va2 & Va2' & V2 & E2).
  set (st2 := mkState _ a2' x2 _) in E2.
  destruct (chip_set_register clock _cl_stat 0x01 st2 Hoff)
    as (a3 & a3' & x3 & Va3 & Va3' & V3 & E3).
  assert (Ha2 : a2 = a1) by (apply byte_val_inj; congruence).
  assert (Ha3 : a3 = a1) by (apply byte_val_inj; congruence).
  assert (Ha2' : a2' = a1') by (apply byte_val_inj; congruence).
  assert (Ha3' : a3' = a1') by (apply byte_val_inj; congruence).
  subst a2 a3 a2' a3'.
  change (Z.land (addr _cl_stat) 63) with 2 in *.
  subst st2. cbn [world fst snd mem calls] in V3, E3.
  subst st1. cbn [world fst snd mem calls] in V2, E2, V3, E3.
  unfold set_mem in V2, V3. cbn [Z.eqb Pos.eqb] in V2, V3.
  rewrite pulse_high in V1. rewrite pulse_low in V2. rewrite pulse_high in V3.
  destruct (pulse_again (mem (fst (world st)) 2)) as (P1 & P2 & P3).
  rewrite V1, P2 in V2.
  assert (V3' : byte_val x3 = Z.lor (byte_val (mem (fst (world st)) 2)) 64).
  { rewrite V3, V2. exact P3. }
  eexists. exists x1, x2, x3. unfold clear_stats, bind. rewrite E1, E2, E3.
  split; [reflexivity |]. cbn [map]. rewrite V1, V2, V3'.
  split; [reflexivity |]. split.
  - exists a1, a1'. split; [rewrite Va1; reflexivity |].
    split; [rewrite Va1'; reflexivity |]. cbn [calls].
    rewrite <- !app_assoc. reflexivity.
  - cbn [world fst mem]. unfold set_mem. split; [reflexivity |].
    intros a Ha. destruct (Z.eqb_spec a 2); [contradiction | reflexivity].
Qed.

Section StubDisplay.
Context {C : Type} (clock : C -> Q * C).

(** What the three display flag getters and [tuning_capacitance] read. *)
Lemma chip_display_getters (st : State (Chip * C)) :
  fst (output_antenna_freq (chip_env clock) st)
  = Ok (field_of (mem (fst (world st))) _disp_flags =? 4) /\
  fst (output_srco (chip_env clock) st)
  = Ok (field_of (mem (fst (world st))) _disp_flags =? 2) /\
  fst (output_trco (chip_env clock) st)
  = Ok (field_of (mem (fst (world st))) _disp_flags =? 1) /\
  fst (tuning_capacitance (chip_env clock) st)
  = Ok (field_of (mem (fst (world st))) _tun_cap * 8).
Proof.
  destruct (chip_get_field clock _disp_flags st) as (st1 & E1 & _);
    [unfold _disp_flags; simpl; lia |].
  destruct (chip_get_field clock _tun_cap st) as (st2 & E2 & _);
    [unfold _tun_cap, _0X00; simpl; lia |].
  unfold output_antenna_freq, output_srco, output_trco, tuning_capacitance, bind.
  rewrite E1, E2. repeat split.
Qed.

(** Writing the whole display flag field. *)
Lemma chip_display_set (value : Z) (st : State (Chip * C)) :
  0 <= value < 8 ->
  exists st',
    _set_register (chip_env clock) _disp_flags value st = (Ok tt, st') /\
    field_of (mem (fst (world st'))) _disp_flags = value /\
    field_of (mem (fst (world st'))) _tun_cap
    = field_of (mem (fst (world st))) _tun_cap.
Proof.
  intros Hv.
  destruct (chip_set_field clock _disp_flags 3 value st)
    as (st' & Es & Hval & Hkeep & _);
    [reflexivity | change (2 ^ 3) with 8; lia |].
  exists st'. split; [exact Es |]. split; [exact Hval |].
  apply Hkeep. right. reflexivity.
Qed.

End StubDisplay.

(** X14.  The three display flags share one three bit field that every
    setter writes whole.  On the stub chip, after one of the setters is
    given [b], its own getter returns [b] and the other two return [False]:
    enabling one output disables the others, and setting any of them to
    [False] disables all three.  The tuning capacitance, in the same byte,
    is unchanged. *)
Theorem display_flag_setters_are_exclusive :
  forall (C : Type) (clock : C -> Q * C) (b : bool) (st : State (Chip * C)),
    let env := chip_env clock in
    let flags := fun st1 =>
      (fst (output_antenna_freq env st1), fst (output_srco env st1),
       fst (output_trco env st1), fst (tuning_capacitance env st1)) in
    exists s1 s2 s3,
      output_antenna_freq_setter env b st = (Ok tt, s1) /\
      flags s1 = (Ok b, Ok false, Ok false, fst (tuning_capacitance env st)) /\
      output_srco_setter env b st = (Ok tt, s2) /\
      flags s2 = (Ok false, Ok b, Ok false, fst (tuning_capacitance env st)) /\
      output_trco_setter env b st = (Ok tt, s3) /\
      flags s3 = (Ok false, Ok false, Ok b, fst (tuning_capacitance env st)).
Proof.
  intros C clock b st env flags. subst env flags. cbv beta.
  destruct (chip_display_getters clock st) as (_ & _ & _ & T0).
  destruct (chip_display_set clock (Z.shiftl (Z.b2z b) 2) st)
    as (s1 & E1 & V1 & K1); [destruct b; simpl; lia |].
  destruct (chip_display_set clock (Z.shiftl (Z.b2z b) 1) st)
    as (s2 & E2 & V2 & K2); [destruct b; simpl; lia |].
  destruct (chip_display_set clock (Z.b2z b) st)
    as (s3 & E3 & V3 & K3); [destruct b; simpl; lia |].
  exists s1, s2, s3.
  destruct (chip_display_getters clock s1) as (A1 & S1 & T1 & C1).
  destruct (chip_display_getters clock s2) as (A2 & S2 & T2 & C2).
  destruct (chip_display_getters clock s3) as (A3 & S3 & T3 & C3).
  unfold output_antenna_freq_setter, output_srco_setter, output_trco_setter.
  rewrite A1, S1, T1, C1, A2, S2, T2, C2, A3, S3, T3, C3, T0.
  rewrite V1, V2, V3, K1, K2, K3.
  repeat (split; [first [assumption | destruct b; reflexivity] |]).
  destruct b; reflexivity.
Qed.

(** X15.  The tuning capacitance setter accepts 0 to 120 and stores the value
    divided by 8, rounded down: on the stub chip the getter then returns the
    largest multiple of 8 not above the value written (the value itself when
    it is a multiple of 8), and the display flags are unchanged.  On every
    bus any other value raises [ValueError] and leaves the state as it
    was. *)
Theorem tuning_capacitance_rounds_down :
  (forall (W : Type) (env : Env W) (value : Z) (st : State W),
      value < 0 \/ 120 < value ->
      tuning_capacitance_setter env value st
      = (Raise (ValueError "Value must be in the range 0 to 120 inclusive."),
         st)) /\
  (forall (C : Type) (clock : C -> Q * C) (value : Z) (st : State (Chip * C)),
      0 <= value <= 120 ->
      exists st1,
        tuning_capacitance_setter (chip_env clock) value st = (Ok tt, st1) /\
        fst (tuning_capacitance (chip_env clock) st1) = Ok (value - value mod 8) /\
        value - 8 < value - value mod 8 <= value /\
        fst (output_antenna_freq (chip_env clock) st1)
        = fst (output_antenna_freq (chip_env clock) st) /\
        fst (output_srco (chip_env clock) st1)
        = fst (output_srco (chip_env clock) st) /\
        fst (output_trco (chip_env clock) st1)
        = fst (output_trco (chip_env clock) st)).
Proof.
  split.
  - intros W env value st Hv.
    unfold tuning_capacitance_setter, bind, lift, _value_is_in_range, _0X00.
    destruct (Z.leb_spec 0 value), (Z.leb_spec value 120); simpl;
      try lia; reflexivity.
  - intros C clock value st Hv.
    pose proof (Z.mod_pos_bound value 8 ltac:(lia)) as Hmod.
    pose proof (Z.div_mod value 8 ltac:(lia)) as Hdiv.
    destruct (chip_set_field clock _tun_cap 4 (value / 8) st)
      as (st1 & Es & Hval & Hkeep & _);
      [reflexivity | change (2 ^ 4) with 16; lia |].
    exists st1.
    destruct (chip_display_getters clock st1) as (A1 & S1 & T1 & C1).
    destruct (chip_display_getters clock st) as (A0 & S0 & T0 & C0).
    unfold tuning_capacitance_setter, bind, lift.
    rewrite value_in_range_accepts by (unfold _0X00; lia).
    split; [exact Es |].
    rewrite A1, S1, T1, C1, A0, S0, T0, Hval.
    rewrite (Hkeep _disp_flags) by (right; reflexivity).
    split; [f_equal; lia |]. split; [lia |]. repeat split.
Qed.

Lemma tuning_capacitance_rounds_down_witness :
  tuning_capacitance_setter (chip_env (ticking_clock 0)) 121
    (init_state (mkChip blank_mem None, 0%Q))
  = (Raise (ValueError "Value must be in the range 0 to 120 inclusive."),
     init_state (mkChip blank_mem None, 0%Q)) /\
  exists st1,
    tuning_capacitance_setter (chip_env (ticking_clock 0)) 9
      (init_state (mkChip blank_mem None, 0%Q)) = (Ok tt, st1) /\
    fst (tuning_capacitance (chip_env (ticking_clock 0)) st1) = Ok (9 - 9 mod 8).
Proof.
  split.
  - apply (proj1 tuning_capacitance_rounds_down). lia.
  - destruct (proj2 tuning_capacitance_rounds_down Q (ticking_clock 0) 9
                (init_state (mkChip blank_mem None, 0%Q)))
      as (st1 & Es & Hg & _); [lia |].
    exists st1. split; assumption.
Defined.

(** ** X16: the interrupt pin *)

(** X16.  On every bus [interrupt_set] makes one read of address 8.  When any
    of bits 7 to 5 of the byte read is set it returns [None] and the pin is
    not read: the world is the one the bus left.  Otherwise it returns the
    level of the pin, read after the register.  So on the stub chip, right
    after one of the three display flag setters is given [True] the result
    is [None], and right after it is given [False] the result is the level
    of the pin. *)
Theorem interrupt_set_reads_pin_only_without_display_flags :
  (forall (W : Type) (env : Env W) (pin_value : W -> bool * W) (st : State W),
      exists a d w',
        byte_val a = 0x48 /\
        dev_readinto env (dev_write env a (dev_enter env (world st))) = (d, w') /\
        interrupt_set env pin_value st
        = (if Z.land (byte_val d) 0xE0 =? 0
           then (Ok (Some (fst (pin_value (dev_exit env w')))),
                 mkState (snd (pin_value (dev_exit env w'))) a d
                   (calls st ++ [Session [DevWrite a; DevReadinto d]]))
           else (Ok None,
                 mkState (dev_exit env w') a d
                   (calls st ++ [Session [DevWrite a; DevReadinto d]])))) /\
  (forall (C : Type) (clock : C -> Q * C) (pin_value : Chip * C -> bool * (Chip * C))
          (setter : bool -> M (Chip * C) unit) (b : bool) (st : State (Chip * C)),
      In setter [output_antenna_freq_setter (chip_env clock);
                 output_srco_setter (chip_env clock);
                 output_trco_setter (chip_env clock)] ->
      exists st1,
        setter b st = (Ok tt, st1) /\
        fst (interrupt_set (chip_env clock) pin_value st1)
        = Ok (if b then None
              else Some (fst (pin_value (mkChip (mem (fst (world st1))) None,
                                         snd (world st1)))))).
Proof.
  split.
  - intros W env pin_value st.
    destruct (get_register_spec env _disp_flags st)
      as (a & d & w' & Va & Er & E); [unfold _disp_flags; simpl; lia |].
    exists a, d, w'. split; [rewrite Va; reflexivity |]. split; [exact Er |].
    unfold interrupt_set, bind. rewrite E. cbn [mask offset _disp_flags].
    assert (Hz : (Z.shiftr (Z.land (byte_val d) _0XE0) 5 =? 0)
                 = (Z.land (byte_val d) 224 =? 0))
      by (clear; destruct d; reflexivity).
    rewrite Hz. destruct (Z.land (byte_val d) 224 =? 0); cbn [negb].
    + cbn [world _ADDR_BUFFER _DATA_BUFFER calls].
      destruct (pin_value (dev_exit env w')) as [level w2]. reflexivity.
    + reflexivity.
  - intros C clock pin_value setter b st Hin.
    assert (Hset : exists st1,
               setter b st = (Ok tt, st1) /\
               (field_of (mem (fst (world st1))) _disp_flags =? 0) = negb b).
    { destruct Hin as [<- | [<- | [<- | []]]];
        [destruct (chip_display_set clock (Z.shiftl (Z.b2z b) 2) st)
            as (s1 & E1 & V1 & _)
        | destruct (chip_display_set clock (Z.shiftl (Z.b2z b) 1) st)
            as (s1 & E1 & V1 & _)
        | destruct (chip_display_set clock (Z.b2z b) st)
            as (s1 & E1 & V1 & _)];
        try (destruct b; simpl; lia);
        exists s1; (split; [exact E1 |]); rewrite V1; destruct b; reflexivity. }
    destruct Hset as (st1 & Es & Hflags).
    exists st1. split; [exact Es |].
    destruct (chip_read_byte_in clock _disp_flags st1) as (a & _ & Er).
    unfold interrupt_set, bind, _get_register, bind. rewrite Er.
    destruct (Z.ltb_spec (offset _disp_flags) 0) as [Hneg | _];
      [unfold _disp_flags in Hneg; simpl in Hneg; lia |].
    unfold ret. unfold field_of in Hflags. rewrite Hflags.
    rewrite negb_involutive. destruct b.
    + reflexivity.
    + cbn [world _ADDR_BUFFER _DATA_BUFFER calls fst snd].
      destruct (pin_value _) as [level w2]. reflexivity.
Qed.

Lemma interrupt_set_reads_pin_only_without_display_flags_witness :
  exists st1,
    output_srco_setter (chip_env (ticking_clock 0)) true
      (init_state (mkChip blank_mem None, 0%Q)) = (Ok tt, st1) /\
    fst (interrupt_set (chip_env (ticking_clock 0)) (fun w => (true, w)) st1)
    = Ok None.
Proof.
  apply (proj2 interrupt_set_reads_pin_only_without_display_flags
           Q (ticking_clock 0) (fun w => (true, w))
           (output_srco_setter (chip_env (ticking_clock 0))) true
           (init_state (mkChip blank_mem None, 0%Q))).
  right. left. reflexivity.
Defined.

(** ** Calibration and waking up against the stub chip *)

Lemma sleep_calls_app (l1 l2 : list Call) :
  sleep_calls (l1 ++ l2) = sleep_calls l1 ++ sleep_calls l2.
Proof. unfold sleep_calls. apply flat_map_app. Qed.

Lemma sleep_calls_none (l : list Call) :
  Forall (fun c => is_bus_call c = true \/ is_clock_reading c = true) l ->
  sleep_calls l = [].
Proof.
  induction 1 as [| c l Hc Hl IH]; [reflexivity |].
  change (c :: l) with ([c] ++ l). rewrite sleep_calls_app, IH.
  destruct c; destruct Hc as [Hc | Hc]; try discriminate Hc;
    reflexivity.
Qed.

Lemma flag_read_is_bus_call (A bit : Z) (c : Call) (b : bool) :
  flag_read A bit c = Some b -> is_bus_call c = true.
Proof. destruct c; cbn; intros H; try discriminate H; reflexivity. Qed.

Lemma flag_read_quiet (A bit : Z) (c : Call) (b : bool) :
  flag_read A bit c = Some b ->
  is_bus_call c = true \/ is_clock_reading c = true.
Proof. intros H. left. eapply flag_read_is_bus_call. eassumption. Qed.

(** A calibration never sleeps. *)
Lemma calibration_trace_no_sleep (tr : list Call) (r : Res unit) :
  calibration_trace tr r -> sleep_calls tr = [].
Proof.
  assert (Hnd : forall p, poll_not_done p ->
             Forall (fun c => is_bus_call c = true \/ is_clock_reading c = true) p).
  { intros p [c H | c c' H H'];
      repeat (constructor; [eapply flag_read_quiet; eassumption |]);
      constructor. }
  assert (Hw : forall start w b, wait_trace start w b ->
             Forall (fun c => is_bus_call c = true \/ is_clock_reading c = true) w).
  { induction 1 as [p Hp | p t Hp Ht | p t w b Hp Ht Hwt IH].
    - destruct Hp as [c c' H H'].
      repeat (constructor; [eapply flag_read_quiet; eassumption |]);
        constructor.
    - apply Forall_app. split; [now apply Hnd |].
      constructor; [now right | constructor].
    - apply Forall_app. split; [now apply Hnd |].
      constructor; [now right | assumption]. }
  intros Htr. apply sleep_calls_none.
  destruct Htr as [a d a' d' start w Va Va' Vd' Hwt
                  | a d a' d' start w rest r Va Va' Vd' Hwt Hv].
  - constructor; [now left |]. constructor; [now left |].
    constructor; [now right |]. eapply Hw. eassumption.
  - constructor; [now left |]. constructor; [now left |].
    constructor; [now right |].
    apply Forall_app. split; [eapply Hw; eassumption |].
    destruct Hv as [c H | c c' H H' | c c' H H'];
      repeat (constructor; [eapply flag_read_quiet; eassumption |]);
      constructor.
Qed.

Section StubWake.
Context {C : Type} (clock : C -> Q * C).

Lemma chip_calibration_done_value (st : State (Chip * C)) :
  exists st',
    calibration_done (chip_env clock) st
    = (Ok (Z.testbit (byte_val (mem (fst (world st)) 0x3A)) 7
           && Z.testbit (byte_val (mem (fst (world st)) 0x3B)) 7), st') /\
    mem (fst (world st')) = mem (fst (world st)).
Proof.
  destruct (chip_flag clock _trco_calib_done st)
    as (v1 & st1 & E1 & Hv1 & Hm1 & _); [simpl; auto |].
  destruct (chip_flag clock _srco_calib_done st1)
    as (v2 & st2 & E2 & Hv2 & Hm2 & _); [simpl; auto |].
  cbn [addr offset _trco_calib_done _srco_calib_done] in Hv1, Hv2.
  rewrite Hm1 in Hv2. unfold _0X3A, _0X3B, _0X07 in *.
  unfold calibration_done, bind. rewrite E1, Hv1.
  destruct (Z.testbit (byte_val (mem (fst (world st)) 58)) 7); cbn [negb andb].
  - rewrite E2. unfold ret. rewrite Hv2, negb_involutive.
    exists st2. split; [reflexivity | congruence].
  - unfold ret. exists st1. split; [reflexivity | assumption].
Qed.

Lemma chip_calibration_failed_value (st : State (Chip * C)) :
  exists st',
    calibration_failed (chip_env clock) st
    = (Ok (Z.testbit (byte_val (mem (fst (world st)) 0x3A)) 6
           || Z.testbit (byte_val (mem (fst (world st)) 0x3B)) 6), st') /\
    mem (fst (world st')) = mem (fst (world st)).
Proof.
  destruct (chip_flag clock _trco_calib_nok st)
    as (v1 & st1 & E1 & Hv1 & Hm1 & _); [simpl; auto |].
  destruct (chip_flag clock _srco_calib_nok st1)
    as (v2 & st2 & E2 & Hv2 & Hm2 & _); [simpl; auto |].
  cbn [addr offset _trco_calib_nok _srco_calib_nok] in Hv1, Hv2.
  rewrite Hm1 in Hv2. unfold _0X3A, _0X3B, _0X06 in *.
  unfold calibration_failed, bind. rewrite E1, Hv1, negb_involutive.
  destruct (Z.testbit (byte_val (mem (fst (world st)) 58)) 6); cbn [orb].
  - unfold ret. exists st1. split; [reflexivity | assumption].
  - rewrite E2. unfold ret. rewrite Hv2, negb_involutive.
    exists st2. split; [reflexivity | congruence].
Qed.

(** The poll loop does not change the chip's memory. *)
Lemma chip_wait_frame (fuel : nat) (start : Q) :
  forall (st : State (Chip * C)) (r : Res unit) (st' : State (Chip * C)),
    wait_for_calibration (chip_env clock) fuel start st = Some (r, st') ->
    mem (fst (world st')) = mem (fst (world st)).
Proof.
  induction fuel as [| fuel IH]; intros st r st' Hrun; [discriminate |].
  cbn [wait_for_calibration] in Hrun.
  destruct (chip_calibration_done_value st) as (st1 & E & Hm1).
  rewrite E in Hrun.
  destruct (_ && _).
  - injection Hrun as _ <-. assumption.
  - destruct (chip_monotonic clock st1) as (t & st2 & Em & _ & Hm2 & _).
    rewrite Em in Hrun.
    destruct (negb (Qle_bool (float_sub t start) 1)).
    + injection Hrun as _ <-. congruence.
    + apply IH in Hrun. congruence.
Qed.

(** A calibration changes no byte of the chip but the one at 0x3D. *)
Lemma chip_calibrate_frame (fuel : nat) (st : State (Chip * C))
      (r : Res unit) (st' : State (Chip * C)) :
  _calibrate_clocks (chip_env clock) fuel st = Some (r, st') ->
  forall a, a <> 0x3D -> mem (fst (world st')) a = mem (fst (world st)) a.
Proof.
  intros Hrun a Ha. unfold _calibrate_clocks in Hrun.
  destruct (chip_set_byte clock _calib_rco 0x96 st)
    as (st1 & d' & Es & _ & Hm1 & _); [unfold _calib_rco, _0X00; simpl; lia |].
  unfold bind at 1 in Hrun. rewrite Es in Hrun.
  destruct (chip_monotonic clock st1) as (start & st2 & Em & _ & Hm2 & _).
  rewrite Em in Hrun.
  assert (Hm : mem (fst (world st2)) a = mem (fst (world st)) a).
  { rewrite Hm2, Hm1. unfold set_mem.
    change (Z.land (addr _calib_rco) 63) with 0x3D.
    destruct (Z.eqb_spec a 0x3D); [contradiction | reflexivity]. }
  destruct (wait_for_calibration (chip_env clock) fuel start st2)
    as [[r2 st3] |] eqn:Ew; [| discriminate].
  apply chip_wait_frame in Ew.
  destruct r2 as [[] | e].
  - destruct (chip_calibration_failed_value st3) as (st4 & Ef & Hm4).
    unfold bind in Hrun. rewrite Ef in Hrun.
    destruct (_ || _); unfold raise, ret in Hrun; injection Hrun as _ <-;
      congruence.
  - injection Hrun as _ <-. congruence.
Qed.

(** With both done flags set the first evaluation of the loop condition ends
    the loop, whatever the clock reads, and the not-ok flags decide. *)
Lemma chip_calibrate_when_done (fuel : nat) (st : State (Chip * C)) :
  Z.testbit (byte_val (mem (fst (world st)) 0x3A)) 7 = true ->
  Z.testbit (byte_val (mem (fst (world st)) 0x3B)) 7 = true ->
  exists st',
    _calibrate_clocks (chip_env clock) (S fuel) st
    = Some (if Z.testbit (byte_val (mem (fst (world st)) 0x3A)) 6
               || Z.testbit (byte_val (mem (fst (world st)) 0x3B)) 6
            then Raise calibration_error else Ok tt, st').
Proof.
  intros Hd1 Hd2. unfold _calibrate_clocks.
  destruct (chip_set_byte clock _calib_rco 0x96 st)
    as (st1 & d' & Es & _ & Hm1 & _); [unfold _calib_rco, _0X00; simpl; lia |].
  unfold bind at 1. rewrite Es.
  destruct (chip_monotonic clock st1) as (start & st2 & Em & _ & Hm2 & _).
  rewrite Em. cbn [wait_for_calibration].
  assert (Hm : forall a, a <> 0x3D ->
                         mem (fst (world st2)) a = mem (fst (world st)) a).
  { intros a Ha. rewrite Hm2, Hm1. unfold set_mem.
    change (Z.land (addr _calib_rco) 63) with 0x3D.
    destruct (Z.eqb_spec a 0x3D); [contradiction | reflexivity]. }
  destruct (chip_calibration_done_value st2) as (st3 & Ed & Hm3).
  rewrite Ed, !Hm, Hd1, Hd2 by lia. cbn [andb].
  destruct (chip_calibration_failed_value st3) as (st4 & Ef & Hm4).
  unfold bind. rewrite Ef, Hm3, !Hm by lia.
  destruct (Z.testbit (byte_val (mem (fst (world st)) 58)) 6
            || Z.testbit (byte_val (mem (fst (world st)) 59)) 6);
    eexists; reflexivity.
Qed.

End StubWake.

(** ** X17: a calibration that is already done *)

(** X17.  On a stub chip whose two done flags read set and whose two not-ok
    flags read clear, [_calibrate_clocks] returns normally at the first
    evaluation of the loop condition, whatever the clock reads (a deadline
    already past when the loop is entered does not matter, the done flags
    are looked at first); the magic value is written once, the call never
    sleeps and no byte of the chip changes but the one at address 0x3D. *)
Theorem calibration_succeeds_when_done_and_ok :
  forall (C : Type) (clock : C -> Q * C) (fuel : nat) (st : State (Chip * C)),
    Z.testbit (byte_val (mem (fst (world st)) 0x3A)) 7 = true ->
    Z.testbit (byte_val (mem (fst (world st)) 0x3B)) 7 = true ->
    Z.testbit (byte_val (mem (fst (world st)) 0x3A)) 6 = false ->
    Z.testbit (byte_val (mem (fst (world st)) 0x3B)) 6 = false ->
    exists st' tr,
      _calibrate_clocks (chip_env clock) (S fuel) st = Some (Ok tt, st') /\
      calls st' = calls st ++ tr /\
      magic_writes tr = 1%nat /\ sleep_calls tr = [] /\
      (forall a, a <> 0x3D -> mem (fst (world st')) a = mem (fst (world st)) a).
Proof.
  intros C clock fuel st Hd1 Hd2 Hn1 Hn2.
  destruct (chip_calibrate_when_done clock fuel st Hd1 Hd2) as (st' & Hrun).
  rewrite Hn1, Hn2 in Hrun. cbn [orb] in Hrun.
  destruct (calibrate_clocks_trace _ _ _ _ _ Hrun) as (tr & Hcalls & Htr).
  exists st', tr. split; [exact Hrun |]. split; [exact Hcalls |].
  split; [now apply (calibration_trace_one_write tr (Ok tt)) |].
  split; [now apply (calibration_trace_no_sleep tr (Ok tt)) |].
  now apply (chip_calibrate_frame clock (S fuel) st (Ok tt) st').
Qed.

Lemma calibration_succeeds_when_done_and_ok_witness :
  exists st' tr,
    _calibrate_clocks (chip_env (ticking_clock 5)) 1
      (init_state
         (mkChip (set_mem (set_mem blank_mem 0x3A "128"%byte) 0x3B "128"%byte)
                 None, 0%Q))
    = Some (Ok tt, st') /\
    calls st' = [] ++ tr /\
    magic_writes tr = 1%nat /\ sleep_calls tr = [] /\
    (forall a, a <> 0x3D ->
               mem (fst (world st')) a
               = set_mem (set_mem blank_mem 0x3A "128"%byte) 0x3B "128"%byte a).
Proof.
  apply (calibration_succeeds_when_done_and_ok Q (ticking_clock 5) 0
           (init_state
              (mkChip (set_mem (set_mem blank_mem 0x3A "128"%byte) 0x3B "128"%byte)
                      None, 0%Q)));
    reflexivity.
Defined.

(** ** X18 and X19: leaving power-down *)

Lemma register_call_is_bus_call (c : Call) :
  is_register_read c = true \/ is_register_write c = true ->
  is_bus_call c = true.
Proof.
  destruct c; cbn; intros [H | H]; try discriminate H; reflexivity.
Qed.

Lemma field_of_frame (m m' : Z -> byte) (register : Register) :
  m' (Z.land (addr register) 0x3F) = m (Z.land (addr register) 0x3F) ->
  field_of m' register = field_of m register.
Proof. intros H. unfold field_of. now rewrite H. Qed.

Lemma power_down_bit (m : Z -> byte) :
  (field_of m _pwd =? 0) = negb (Z.testbit (byte_val (m 0)) 0).
Proof. unfold field_of. cbn [addr mask offset _pwd]. apply flag_bit0. Qed.

Section StubWakeUp.
Context {C : Type} (clock : C -> Q * C).

(** From power-down, with both done flags set: the setter reads the
    power-down bit, clears it and calibrates; then either the calibration
    error ends the call, or the display flags are toggled. *)
Lemma chip_wake_prefix (fuel : nat) (st : State (Chip * C)) :
  Z.testbit (byte_val (mem (fst (world st)) 0x00)) 0 = true ->
  Z.testbit (byte_val (mem (fst (world st)) 0x3A)) 7 = true ->
  Z.testbit (byte_val (mem (fst (world st)) 0x3B)) 7 = true ->
  exists st3 tr,
    power_down_setter (chip_env clock) (S fuel) false st
    = (if Z.testbit (byte_val (mem (fst (world st)) 0x3A)) 6
          || Z.testbit (byte_val (mem (fst (world st)) 0x3B)) 6
       then Some (Raise calibration_error, st3)
       else Some ((_set_register (chip_env clock) _disp_flags 0x02 ;;;
                   sleep (chip_env clock) (2 # 1000) ;;;
                   _set_register (chip_env clock) _disp_flags 0x00) st3)) /\
    calls st3 = calls st ++ tr /\ sleep_calls tr = [] /\
    field_of (mem (fst (world st3))) _pwd = 0 /\
    (forall a, a <> 0x00 -> a <> 0x3D ->
               mem (fst (world st3)) a = mem (fst (world st)) a) /\
    field_of (mem (fst (world st3))) _afe_gb
    = field_of (mem (fst (world st))) _afe_gb.
Proof.
  intros Hp Hd1 Hd2.
  destruct (chip_power_down clock st) as (st1 & E1 & Hm1 & _ & c0 & Hc1 & Hr0).
  rewrite power_down_bit, Hp in E1. cbn [negb] in E1.
  destruct (chip_set_field clock _pwd 1 0 st1)
    as (st2 & E2 & Hv2 & Hk2 & Hf2 & _ & c1 & c2 & Hc2 & Hr1 & Hw2);
    [reflexivity | simpl; lia |].
  change (Z.land (addr _pwd) 63) with 0 in Hf2.
  assert (Hm2 : forall a, a <> 0 ->
                          mem (fst (world st2)) a = mem (fst (world st)) a).
  { intros a Ha. rewrite Hf2 by assumption. now rewrite Hm1. }
  destruct (chip_calibrate_when_done clock fuel st2) as (st3 & E3);
    [rewrite Hm2 by lia; assumption | rewrite Hm2 by lia; assumption |].
  rewrite !Hm2 in E3 by lia.
  pose proof (chip_calibrate_frame clock (S fuel) st2 _ st3 E3) as Hm3.
  destruct (calibrate_clocks_trace _ _ _ _ _ E3) as (tr3 & Hc3 & Htr3).
  exists st3, ([c0] ++ [c1; c2] ++ tr3).
  split; [| split; [| split; [| split; [| split]]]].
  - unfold power_down_setter. rewrite E1, E2, E3.
    destruct (Z.testbit (byte_val (mem (fst (world st)) 58)) 6
              || Z.testbit (byte_val (mem (fst (world st)) 59)) 6);
      reflexivity.
  - rewrite Hc3, Hc2, Hc1, <- !app_assoc. reflexivity.
  - rewrite !sleep_calls_app.
    rewrite (calibration_trace_no_sleep tr3 _ Htr3).
    rewrite (sleep_calls_none [c0]), (sleep_calls_none [c1; c2]);
      [reflexivity | |];
      repeat (constructor;
              [left; apply register_call_is_bus_call; auto |]);
      constructor.
  - rewrite <- Hv2. apply field_of_frame.
    change (Z.land (addr _pwd) 63) with 0. apply Hm3. lia.
  - intros a H0 H61. rewrite Hm3 by assumption. now apply Hm2.
  - transitivity (field_of (mem (fst (world st2))) _afe_gb).
    + apply field_of_frame. change (Z.land (addr _afe_gb) 63) with 0.
      apply Hm3. lia.
    + rewrite (Hk2 _afe_gb) by (right; reflexivity). now rewrite Hm1.
Qed.

End StubWakeUp.

Lemma display_bytes (b : byte) :
  Z.lor (Z.land (byte_val b) (Z.lnot (mask _disp_flags)))
        (Z.land (Z.shiftl 2 (offset _disp_flags)) _0XFF)
  = Z.lor (Z.land (byte_val b) 0x1F) 0x40 /\
  Z.lor (Z.land (Z.lor (Z.land (byte_val b) 0x1F) 0x40)
                (Z.lnot (mask _disp_flags)))
        (Z.land (Z.shiftl 0 (offset _disp_flags)) _0XFF)
  = Z.land (byte_val b) 0x1F /\
  Z.lor (Z.land (byte_val b) (Z.lnot (mask _pwd)))
        (Z.land (Z.shiftl 0 (offset _pwd)) _0XFF)
  = Z.land (byte_val b) 0xFE.
Proof. destruct b; repeat split. Qed.

Section StubWakeCalls.
Context {C : Type} (clock : C -> Q * C).

(** The calls of a wake-up whose calibration succeeds, one by one. *)
Lemma chip_wake_calls (fuel : nat) (st : State (Chip * C)) :
  Z.testbit (byte_val (mem (fst (world st)) 0x00)) 0 = true ->
  Z.testbit (byte_val (mem (fst (world st)) 0x3A)) 7 = true ->
  Z.testbit (byte_val (mem (fst (world st)) 0x3B)) 7 = true ->
  Z.testbit (byte_val (mem (fst (world st)) 0x3A)) 6 = false ->
  Z.testbit (byte_val (mem (fst (world st)) 0x3B)) 6 = false ->
  exists st' y0 x1 x2,
    power_down_setter (chip_env clock) (S fuel) false st = Some (Ok tt, st') /\
    byte_val y0 = Z.land (byte_val (mem (fst (world st)) 0x00)) 0xFE /\
    byte_val x1 = Z.lor (Z.land (byte_val (mem (fst (world st)) 0x08)) 0x1F) 0x40 /\
    byte_val x2 = Z.land (byte_val (mem (fst (world st)) 0x08)) 0x1F /\
    calls st' =
      calls st ++
        [Session [DevWrite x40; DevReadinto (mem (fst (world st)) 0x00)];
         Session [DevWrite x40; DevReadinto (mem (fst (world st)) 0x00)];
         Session [DevWrite x00; DevWrite y0];
         Session [DevWrite x7d; DevReadinto (mem (fst (world st)) 0x3D)];
         Session [DevWrite x3d; DevWrite x96];
         MonotonicCall (fst (clock (snd (world st))));
         Session [DevWrite x7a; DevReadinto (mem (fst (world st)) 0x3A)];
         Session [DevWrite x7b; DevReadinto (mem (fst (world st)) 0x3B)];
         Session [DevWrite x7a; DevReadinto (mem (fst (world st)) 0x3A)];
         Session [DevWrite x7b; DevReadinto (mem (fst (world st)) 0x3B)];
         Session [DevWrite x48; DevReadinto (mem (fst (world st)) 0x08)];
         Session [DevWrite x08; DevWrite x1];
         SleepCall (2 # 1000);
         Session [DevWrite x48; DevReadinto x1];
         Session [DevWrite x08; DevWrite x2]].
Proof.
  intros Hp Hd1 Hd2 Hn1 Hn2.
  unfold power_down_setter, power_down.
  destruct (chip_get_register_call clock _pwd st)
    as (a0 & st1 & Va0 & E1 & Hm1 & Hk1 & Hc1);
    [unfold _pwd, _0X00; simpl; lia |].
  assert (a0 = x40) as -> by (apply byte_val_inj; rewrite Va0; reflexivity).
  change (Z.land (addr _pwd) 63) with 0 in Hc1.
  unfold bind at 1. rewrite E1. unfold ret.
  rewrite power_down_bit, Hp. cbn [negb].
  destruct (chip_set_register clock _pwd 0 st1)
    as (a1 & a1' & y0 & Va1 & Va1' & Vy0 & E2);
    [unfold _pwd, _0X00; simpl; lia |].
  assert (a1 = x40) as -> by (apply byte_val_inj; rewrite Va1; reflexivity).
  assert (a1' = x00) as -> by (apply byte_val_inj; rewrite Va1'; reflexivity).
  change (Z.land (addr _pwd) 63) with 0 in E2, Vy0.
  rewrite Hm1 in E2, Vy0. rewrite Hk1, Hc1 in E2.
  rewrite (proj2 (proj2 (display_bytes _))) in Vy0.
  rewrite E2.
  set (st2 := mkState _ x00 y0 _).
  assert (Hm2 : forall a, a <> 0 ->
                          mem (fst (world st2)) a = mem (fst (world st)) a).
  { intros a Ha. subst st2. cbn [world fst mem]. unfold set_mem.
    destruct (Z.eqb_spec a 0); [contradiction | reflexivity]. }
  destruct (chip_calibration_calls clock fuel st2) as (st3 & E3 & Hc3);
    [rewrite Hm2 by lia; assumption | rewrite Hm2 by lia; assumption |].
  repeat (rewrite Hm2 in E3 by lia). repeat (rewrite Hm2 in Hc3 by lia).
  change (snd (world st2)) with (snd (world st)) in Hc3.
  rewrite Hn1, Hn2 in E3. rewrite Hn1 in Hc3. cbn [orb] in E3.
  pose proof (chip_calibrate_frame clock (S fuel) st2 _ st3 E3) as Hm3.
  rewrite E3.
  destruct (chip_set_register clock _disp_flags 0x02 st3)
    as (a4 & a4' & x1 & Va4 & Va4' & Vx1 & E4);
    [unfold _disp_flags; simpl; lia |].
  assert (a4 = x48) as -> by (apply byte_val_inj; rewrite Va4; reflexivity).
  assert (a4' = x08) as -> by (apply byte_val_inj; rewrite Va4'; reflexivity).
  change (Z.land (addr _disp_flags) 63) with 8 in E4, Vx1.
  rewrite Hm3, Hm2 in E4, Vx1 by lia.
  rewrite (proj1 (display_bytes _)) in Vx1.
  unfold bind. rewrite E4. unfold sleep.
  cbn [time_sleep chip_env world _ADDR_BUFFER _DATA_BUFFER calls].
  match goal with
  | |- context [_set_register _ _disp_flags 0 ?s] =>
      destruct (chip_set_register clock _disp_flags 0x00 s)
        as (a6 & a6' & x2 & Va6 & Va6' & Vx2 & E6);
      [unfold _disp_flags; simpl; lia |]
  end.
  assert (a6 = x48) as -> by (apply byte_val_inj; rewrite Va6; reflexivity).
  assert (a6' = x08) as -> by (apply byte_val_inj; rewrite Va6'; reflexivity).
  cbn [world fst snd mem calls] in E6, Vx2.
  change (Z.land (addr _disp_flags) 63) with 8 in E6, Vx2.
  unfold set_mem at 1 in Vx2. rewrite Z.eqb_refl in Vx2.
  rewrite Vx1, (proj1 (proj2 (display_bytes _))) in Vx2.
  rewrite E6.
  eexists. exists y0, x1, x2. split; [reflexivity |].
  repeat (split; [assumption |]).
  cbn [calls]. rewrite Hc3. subst st2. cbn [calls].
  rewrite <- !app_assoc. reflexivity.
Qed.

End StubWakeCalls.

(** X18.  On a stub chip in power-down whose calibration fails (both done
    flags set, a not-ok flag set), [power_down = False] raises the
    calibration's [RuntimeError]; by then the power-down bit has been
    cleared, so the chip is left powered up, the display flags toggle has
    not run (no sleep, the byte at address 8 as it was), and only the bytes
    at addresses 0 and 0x3D can have changed. *)
Theorem power_down_setter_propagates_calibration_failure :
  forall (C : Type) (clock : C -> Q * C) (fuel : nat) (st : State (Chip * C)),
    Z.testbit (byte_val (mem (fst (world st)) 0x00)) 0 = true ->
    Z.testbit (byte_val (mem (fst (world st)) 0x3A)) 7 = true ->
    Z.testbit (byte_val (mem (fst (world st)) 0x3B)) 7 = true ->
    Z.testbit (byte_val (mem (fst (world st)) 0x3A)) 6 = true \/
    Z.testbit (byte_val (mem (fst (world st)) 0x3B)) 6 = true ->
    exists st' tr,
      power_down_setter (chip_env clock) (S fuel) false st
      = Some (Raise (RuntimeError "AS3935 RCO calibration failed."), st') /\
      calls st' = calls st ++ tr /\ sleep_calls tr = [] /\
      fst (power_down (chip_env clock) st') = Ok false /\
      (forall a, a <> 0x00 -> a <> 0x3D ->
                 mem (fst (world st')) a = mem (fst (world st)) a).
Proof.
  intros C clock fuel st Hp Hd1 Hd2 Hnok.
  destruct (chip_wake_prefix clock fuel st Hp Hd1 Hd2)
    as (st3 & tr & E & Hc & Hs & Hv & Hm & _).
  assert (Hor : Z.testbit (byte_val (mem (fst (world st)) 58)) 6
                || Z.testbit (byte_val (mem (fst (world st)) 59)) 6 = true).
  { destruct Hnok as [H | H]; rewrite H; [reflexivity | apply orb_true_r]. }
  rewrite Hor in E.
  exists st3, tr. split; [exact E |]. split; [exact Hc |].
  split; [exact Hs |]. split; [| exact Hm].
  destruct (chip_power_down clock st3) as (st4 & E4 & _).
  rewrite E4, Hv. reflexivity.
Qed.

Lemma power_down_setter_propagates_calibration_failure_witness :
  exists st' tr,
    power_down_setter (chip_env (frozen_clock 0)) 1 false
      (init_state
         (mkChip (set_mem (set_mem (set_mem blank_mem 0x00 "001"%byte)
                             0x3A "192"%byte) 0x3B "128"%byte) None, tt))
    = Some (Raise (RuntimeError "AS3935 RCO calibration failed."), st') /\
    calls st' = [] ++ tr /\ sleep_calls tr = [] /\
    fst (power_down (chip_env (frozen_clock 0)) st') = Ok false /\
    (forall a, a <> 0x00 -> a <> 0x3D ->
               mem (fst (world st')) a
               = set_mem (set_mem (set_mem blank_mem 0x00 "001"%byte)
                            0x3A "192"%byte) 0x3B "128"%byte a).
Proof.
  apply (power_down_setter_propagates_calibration_failure unit (frozen_clock 0) 0
           (init_state
              (mkChip (set_mem (set_mem (set_mem blank_mem 0x00 "001"%byte)
                                  0x3A "192"%byte) 0x3B "128"%byte) None, tt)));
    try reflexivity.
  left. reflexivity.
Defined.

(** X19.  On a stub chip in power-down whose calibration succeeds (both done
    flags set, both not-ok flags clear), [power_down = False] returns
    normally, and its calls are, in this order: the read of the power-down
    bit; the read of address 0 and the write that clears bit 0 of it; the
    calibration (read of address 0x3D, write of 0x96 to it, the start
    reading of the clock, the reads of the two done flags and of the two
    not-ok flags); the read of address 8 and the write that sets its
    display flags (bits 7 to 5) to 2, its other bits as they were; one sleep
    of 2 ms; the read of address 8 and the write that clears its display
    flags.  So it sleeps exactly once, between the two display flag writes
    that end the call.  Afterwards [power_down] reads [False], the three
    display flags read [False], [indoor] and the tuning capacitance read
    what they read before, and only the bytes at addresses 0, 8 and 0x3D
    can have changed. *)
Theorem power_down_setter_wakes_and_calibrates :
  forall (C : Type) (clock : C -> Q * C) (fuel : nat) (st : State (Chip * C)),
    Z.testbit (byte_val (mem (fst (world st)) 0x00)) 0 = true ->
    Z.testbit (byte_val (mem (fst (world st)) 0x3A)) 7 = true ->
    Z.testbit (byte_val (mem (fst (world st)) 0x3B)) 7 = true ->
    Z.testbit (byte_val (mem (fst (world st)) 0x3A)) 6 = false ->
    Z.testbit (byte_val (mem (fst (world st)) 0x3B)) 6 = false ->
    let env := chip_env clock in
    let m := mem (fst (world st)) in
    exists st' y0 x1 x2,
      power_down_setter env (S fuel) false st = Some (Ok tt, st') /\
      byte_val y0 = Z.land (byte_val (m 0x00)) 0xFE /\
      byte_val x1 = Z.lor (Z.land (byte_val (m 0x08)) 0x1F) 0x40 /\
      byte_val x2 = Z.land (byte_val (m 0x08)) 0x1F /\
      calls st' =
        calls st ++
          [Session [DevWrite x40; DevReadinto (m 0x00)];
           Session [DevWrite x40; DevReadinto (m 0x00)];
           Session [DevWrite x00; DevWrite y0];
           Session [DevWrite x7d; DevReadinto (m 0x3D)];
           Session [DevWrite x3d; DevWrite x96];
           MonotonicCall (fst (clock (snd (world st))));
           Session [DevWrite x7a; DevReadinto (m 0x3A)];
           Session [DevWrite x7b; DevReadinto (m 0x3B)];
           Session [DevWrite x7a; DevReadinto (m 0x3A)];
           Session [DevWrite x7b; DevReadinto (m 0x3B)];
           Session [DevWrite x48; DevReadinto (m 0x08)];
           Session [DevWrite x08; DevWrite x1];
           SleepCall (2 # 1000);
           Session [DevWrite x48; DevReadinto x1];
           Session [DevWrite x08; DevWrite x2]] /\
      fst (power_down env st') = Ok false /\
      fst (output_antenna_freq env st') = Ok false /\
      fst (output_srco env st') = Ok false /\
      fst (output_trco env st') = Ok false /\
      fst (indoor env st') = fst (indoor env st) /\
      fst (tuning_capacitance env st') = fst (tuning_capacitance env st) /\
      (forall a, a <> 0x00 -> a <> 0x08 -> a <> 0x3D ->
                 mem (fst (world st')) a = mem (fst (world st)) a).
Proof.
  intros C clock fuel st Hp Hd1 Hd2 Hn1 Hn2 env m. subst env m.
  destruct (chip_wake_calls clock fuel st Hp Hd1 Hd2 Hn1 Hn2)
    as (st' & y0 & x1 & x2 & Hrun & Vy0 & Vx1 & Vx2 & Hcalls).
  exists st', y0, x1, x2.
  split; [exact Hrun |]. split; [exact Vy0 |]. split; [exact Vx1 |].
  split; [exact Vx2 |]. split; [exact Hcalls |].
  destruct (chip_wake_prefix clock fuel st Hp Hd1 Hd2)
    as (st3 & tr & E & Hc3 & Hs3 & Hv3 & Hm3 & Ha3).
  rewrite Hn1, Hn2 in E. cbn [orb] in E.
  destruct (chip_set_field clock _disp_flags 3 0x02 st3)
    as (st4 & E4 & Hv4 & Hk4 & Hf4 & _); [reflexivity | simpl; lia |].
  set (st5 := snd (sleep (chip_env clock) (2 # 1000) st4)).
  assert (E5 : sleep (chip_env clock) (2 # 1000) st4 = (Ok tt, st5))
    by reflexivity.
  assert (Hm5 : mem (fst (world st5)) = mem (fst (world st4))) by reflexivity.
  destruct (chip_set_field clock _disp_flags 3 0x00 st5)
    as (st6 & E6 & Hv6 & Hk6 & Hf6 & _); [reflexivity | simpl; lia |].
  change (Z.land (addr _disp_flags) 63) with 8 in Hf4, Hf6.
  assert (Hm6 : forall a, a <> 8 ->
                          mem (fst (world st6)) a = mem (fst (world st3)) a).
  { intros a Ha. rewrite Hf6, Hm5, Hf4 by assumption. reflexivity. }
  assert (Hst : st' = st6).
  { rewrite E in Hrun. unfold bind in Hrun. rewrite E4, E5, E6 in Hrun.
    injection Hrun as <-. reflexivity. }
  subst st'.
  destruct (chip_power_down clock st6) as (s7 & E7 & _).
  destruct (chip_display_getters clock st6) as (A6 & S6 & T6 & C6).
  destruct (chip_display_getters clock st) as (_ & _ & _ & C0).
  destruct (chip_indoor clock st6) as (s8 & E8 & _).
  destruct (chip_indoor clock st) as (s9 & E9 & _).
  assert (Hpwd : field_of (mem (fst (world st6))) _pwd = 0).
  { rewrite <- Hv3. apply field_of_frame.
    change (Z.land (addr _pwd) 63) with 0. apply Hm6. lia. }
  assert (Hafe : field_of (mem (fst (world st6))) _afe_gb
                 = field_of (mem (fst (world st))) _afe_gb).
  { rewrite <- Ha3. apply field_of_frame.
    change (Z.land (addr _afe_gb) 63) with 0. apply Hm6. lia. }
  assert (Hcap : field_of (mem (fst (world st6))) _tun_cap
                 = field_of (mem (fst (world st))) _tun_cap).
  { rewrite (Hk6 _tun_cap) by (right; reflexivity). rewrite Hm5.
    rewrite (Hk4 _tun_cap) by (right; reflexivity).
    apply field_of_frame. change (Z.land (addr _tun_cap) 63) with 8.
    apply Hm3; lia. }
  rewrite E7, A6, S6, T6, C6, E8, E9, C0, Hpwd, Hv6, Hafe, Hcap.
  repeat (split; [reflexivity |]).
  intros a H0 H8 H61. rewrite Hm6 by assumption. now apply Hm3.
Qed.

Lemma power_down_setter_wakes_and_calibrates_witness :
  exists st',
    power_down_setter (chip_env (ticking_clock 5)) 1 false
      (init_state
         (mkChip (set_mem (set_mem (set_mem (set_mem blank_mem 0x00 "037"%byte)
                                      0x08 "173"%byte)
                             0x3A "128"%byte) 0x3B "128"%byte) None, 7%Q))
    = Some (Ok tt, st') /\
    calls st' =
      [Session [DevWrite x40; DevReadinto "037"%byte];
       Session [DevWrite x40; DevReadinto "037"%byte];
       Session [DevWrite x00; DevWrite "036"%byte];
       Session [DevWrite x7d; DevReadinto x00];
       Session [DevWrite x3d; DevWrite x96];
       MonotonicCall 7;
       Session [DevWrite x7a; DevReadinto x80];
       Session [DevWrite x7b; DevReadinto x80];
       Session [DevWrite x7a; DevReadinto x80];
       Session [DevWrite x7b; DevReadinto x80];
       Session [DevWrite x48; DevReadinto "173"%byte];
       Session [DevWrite x08; DevWrite "077"%byte];
       SleepCall (2 # 1000);
       Session [DevWrite x48; DevReadinto "077"%byte];
       Session [DevWrite x08; DevWrite "013"%byte]] /\
    fst (power_down (chip_env (ticking_clock 5)) st') = Ok false.
Proof.
  destruct (power_down_setter_wakes_and_calibrates Q (ticking_clock 5) 0
              (init_state
                 (mkChip (set_mem (set_mem (set_mem (set_mem blank_mem
                                                       0x00 "037"%byte)
                                              0x08 "173"%byte)
                                     0x3A "128"%byte) 0x3B "128"%byte)
                         None, 7%Q)))
    as (st' & y0 & x1 & x2 & H1 & Vy0 & Vx1 & Vx2 & H2 & H3 & _);
    try reflexivity.
  exists st'. split; [exact H1 |]. split; [| exact H3].
  rewrite H2.
  rewrite (byte_val_inj y0 "036"%byte Vy0).
  rewrite (byte_val_inj x1 "077"%byte Vx1).
  rewrite (byte_val_inj x2 "013"%byte Vx2).
  reflexivity.
Defined.

(** ** X20 and X21: selecting by index, entering power-down *)

(** X20.  [_reg_value_from_choices] returns the position of the first element
    of [choices] equal to [value]: a result [i] is a valid index, the
    element at [i] is [value] and no earlier element is; it raises
    [ValueError] exactly when [value] is not in [choices] (in particular for
    empty [choices]). *)
Theorem reg_value_from_choices_first_index :
  forall (value : Z) (choices : list Z),
    match _reg_value_from_choices value choices with
    | Ok i =>
        0 <= i < Z.of_nat (List.length choices) /\
        nth_error choices (Z.to_nat i) = Some value /\
        forall j, (j < Z.to_nat i)%nat -> nth_error choices j <> Some value
    | Raise e =>
        ~ In value choices /\
        e = ValueError ("Select a value from "
                          ++ String.concat ", " (map str choices))%string
    end.
Proof.
  intros value choices. unfold _reg_value_from_choices.
  assert (H : match index value choices with
              | Some i =>
                  0 <= i < Z.of_nat (List.length choices) /\
                  nth_error choices (Z.to_nat i) = Some value /\
                  forall j, (j < Z.to_nat i)%nat ->
                            nth_error choices j <> Some value
              | None => ~ In value choices
              end).
  { induction choices as [| x rest IH]; [intros [] |].
    cbn [index]. destruct (Z.eqb_spec x value) as [-> | Hne].
    - cbn [List.length]. split; [lia |]. split; [reflexivity |].
      intros j Hj. simpl in Hj. lia.
    - destruct (index value rest) as [i |]; cbn [option_map].
      + destruct IH as (Hi & Hnth & Hfirst). cbn [List.length].
        split; [lia |].
        replace (Z.to_nat (Z.succ i)) with (S (Z.to_nat i)) by lia.
        split; [exact Hnth |].
        intros [| j] Hj; cbn [nth_error]; [congruence |].
        apply Hfirst. lia.
      + intros [Heq | Hin]; [congruence | contradiction]. }
  destruct (index value choices) as [i |]; [exact H |].
  split; [exact H | reflexivity].
Qed.

(** X21.  On the stub chip, after [power_down = True] the getter
    [power_down] returns [True] and [indoor] reads what it read before,
    although the two settings share a byte; no fuel is needed, nothing is
    calibrated and the clock is not read. *)
Theorem power_down_round_trip :
  forall (C : Type) (clock : C -> Q * C) (fuel : nat) (st : State (Chip * C)),
    let env := chip_env clock in
    exists st1 c1 c2,
      power_down_setter env fuel true st = Some (Ok tt, st1) /\
      calls st1 = calls st ++ [c1; c2] /\
      is_register_read c1 = true /\ is_register_write c2 = true /\
      fst (power_down env st1) = Ok true /\
      fst (indoor env st1) = fst (indoor env st) /\
      snd (world st1) = snd (world st).
Proof.
  intros C clock fuel st env. subst env.
  destruct (chip_set_field clock _pwd 1 0x01 st)
    as (st1 & E1 & Hv & Hk & _ & Hclk & c1 & c2 & Hc & Hr & Hw);
    [reflexivity | simpl; lia |].
  exists st1, c1, c2. unfold power_down_setter. rewrite E1.
  split; [reflexivity |]. split; [exact Hc |]. split; [exact Hr |].
  split; [exact Hw |].
  destruct (chip_power_down clock st1) as (s2 & E2 & _).
  destruct (chip_indoor clock st1) as (s3 & E3 & _).
  destruct (chip_indoor clock st) as (s4 & E4 & _).
  rewrite E2, E3, E4, Hv, (Hk _afe_gb) by (right; reflexivity).
  repeat split. exact Hclk.
Qed.

(** ** X22: waiting for the done flags *)

Section ScriptedBus.
Context {C : Type} (clock : C -> Q * C).

Lemma script_get (register : Register) (st : State (list byte * C))
      (b : byte) (w : list byte) :
  0 <= offset register ->
  fst (world st) = b :: w ->
  exists st' c,
    _get_register (simulated script_bus clock) register st
    = (Ok (Z.shiftr (Z.land (byte_val b) (mask register)) (offset register)),
       st') /\
    fst (world st') = w /\ snd (world st') = snd (world st) /\
    calls st' = calls st ++ [c] /\ is_register_read c = true.
Proof.
  intros Hoff Hw.
  destruct (get_register_spec (simulated script_bus clock) register st Hoff)
    as (a & d & w' & _ & Er & E).
  cbn [dev_readinto dev_write dev_enter dev_exit simulated script_bus
       bus_readinto bus_write bus_enter bus_exit fst snd] in Er, E.
  rewrite Hw in Er. cbn [fst snd] in Er. injection Er as <- <-.
  eexists. eexists. split; [exact E |]. cbn [world calls fst snd].
  split; [reflexivity |]. split; [reflexivity |]. split; reflexivity.
Qed.

Lemma script_monotonic (st : State (list byte * C)) :
  exists st',
    monotonic (simulated script_bus clock) st
    = (Ok (fst (clock (snd (world st)))), st') /\
    fst (world st') = fst (world st) /\
    snd (world st') = snd (clock (snd (world st))) /\
    calls st' = calls st ++ [MonotonicCall (fst (clock (snd (world st))))].
Proof.
  eexists. split; [reflexivity |]. repeat split.
Qed.

(** The evaluations that answer [polls] find TRCO not done and the clock
    within the deadline, the next finds both flags set: the loop makes one
    deadline check for each byte of [polls] and ends normally. *)
Lemma script_wait (start : Q) (d1 d2 : byte) (polls : list byte) :
  Z.testbit (byte_val d1) 7 = true ->
  Z.testbit (byte_val d2) 7 = true ->
  Forall (fun p => Z.testbit (byte_val p) 7 = false) polls ->
  forall (st : State (list byte * C)) (w : list byte),
    fst (world st) = polls ++ d1 :: d2 :: w ->
    (forall i, (i < List.length polls)%nat ->
               (float_sub (nth_reading clock i (snd (world st))) start <= 1)%Q) ->
    exists st' tr,
      wait_for_calibration (simulated script_bus clock)
        (S (List.length polls)) start st = Some (Ok tt, st') /\
      fst (world st') = w /\
      calls st' = calls st ++ tr /\
      List.length (filter is_clock_reading tr) = List.length polls /\
      Forall (fun c => is_register_write c = false) tr.
Proof.
  intros Hd1 Hd2 Hpolls.
  assert (Hoff : 0 <= offset _trco_calib_done /\ 0 <= offset _srco_calib_done)
    by (split; simpl; unfold _0X07; lia).
  destruct Hoff as [Ho1 Ho2].
  induction Hpolls as [| p polls Hp Hpolls IH]; intros st w Hw Hclock;
    cbn [List.length wait_for_calibration].
  - cbn [app] in Hw.
    destruct (script_get _trco_calib_done st _ _ Ho1 Hw)
      as (st1 & c1 & E1 & Hw1 & _ & Hc1 & Hr1).
    destruct (script_get _srco_calib_done st1 _ _ Ho2 Hw1)
      as (st2 & c2 & E2 & Hw2 & _ & Hc2 & Hr2).
    unfold calibration_done, bind. rewrite E1.
    cbn [mask offset _trco_calib_done]. rewrite (flag_bit7 d1), Hd1. cbn [negb].
    rewrite E2. unfold ret.
    cbn [mask offset _srco_calib_done]. rewrite (flag_bit7 d2), Hd2. cbn [negb].
    exists st2, [c1; c2]. split; [reflexivity |].
    split; [exact Hw2 |].
    split; [rewrite Hc2, Hc1, <- app_assoc; reflexivity |].
    destruct c1 as [[| [b1 | b1] [| [b2 | b2] [| x l]]] | t | t];
      try discriminate Hr1;
      destruct c2 as [[| [b3 | b3] [| [b4 | b4] [| y l']]] | t | t];
      try discriminate Hr2.
    split; [reflexivity | repeat constructor].
  - cbn [app] in Hw.
    destruct (script_get _trco_calib_done st _ _ Ho1 Hw)
      as (st1 & c1 & E1 & Hw1 & Hk1 & Hc1 & Hr1).
    unfold calibration_done, bind. rewrite E1.
    cbn [mask offset _trco_calib_done]. rewrite (flag_bit7 p), Hp. cbn [negb]. unfold ret.
    destruct (script_monotonic st1) as (st2 & Em & Hw2 & Hk2 & Hc2).
    rewrite Em, Hk1.
    assert (Hle : Qle_bool (float_sub (fst (clock (snd (world st)))) start) 1
                  = true).
    { apply Qle_bool_iff. apply (Hclock 0%nat). cbn [List.length]. lia. }
    rewrite Hle. cbn [negb].
    destruct (IH st2 w) as (st' & tr & Erun & Hw' & Hc' & Hn & Hnw).
    { rewrite Hw2. exact Hw1. }
    { intros i Hi. rewrite Hk2, Hk1. apply (Hclock (S i)).
      cbn [List.length]. lia. }
    exists st', (c1 :: MonotonicCall (fst (clock (snd (world st)))) :: tr).
    split; [exact Erun |]. split; [exact Hw' |].
    split; [rewrite Hc', Hc2, Hc1, Hk1, <- !app_assoc; reflexivity |].
    destruct c1 as [[| [b1 | b1] [| [b2 | b2] [| x l]]] | t | t];
      try discriminate Hr1.
    cbn [filter is_clock_reading List.length]. split; [now rewrite Hn |].
    repeat (constructor; [reflexivity |]). exact Hnw.
Qed.

End ScriptedBus.

(** X22.  Against a bus that answers the reads of the TRCO done flag with a
    clear flag [n] times (the bytes [polls]), then reads both done flags set
    and both not-ok flags clear, and a clock each of whose [n] deadline
    checks reads a time whose float difference from the start reading is at
    most one second, [_calibrate_clocks] returns normally after [n + 1]
    evaluations of the loop condition: it reads the clock [n + 1] times (the
    start time and [n] deadline checks), consumes exactly the scripted
    answers and writes the magic value once. *)
Theorem calibration_waits_for_done_flags :
  forall (C : Type) (clock : C -> Q * C) (b0 d1 d2 n1 n2 : byte)
         (polls rest : list byte) (st : State (list byte * C)),
    fst (world st) = b0 :: polls ++ d1 :: d2 :: n1 :: n2 :: rest ->
    Forall (fun p => Z.testbit (byte_val p) 7 = false) polls ->
    Z.testbit (byte_val d1) 7 = true ->
    Z.testbit (byte_val d2) 7 = true ->
    Z.testbit (byte_val n1) 6 = false ->
    Z.testbit (byte_val n2) 6 = false ->
    (forall i, (i < List.length polls)%nat ->
               (float_sub (nth_reading clock (S i) (snd (world st)))
                          (nth_reading clock 0 (snd (world st))) <= 1)%Q) ->
    exists st' tr,
      _calibrate_clocks (simulated script_bus clock) (S (List.length polls)) st
      = Some (Ok tt, st') /\
      fst (world st') = rest /\
      calls st' = calls st ++ tr /\
      List.length (filter is_clock_reading tr) = S (List.length polls) /\
      magic_writes tr = 1%nat.
Proof.
  intros C clock b0 d1 d2 n1 n2 polls rest st Hw Hpolls Hd1 Hd2 Hn1 Hn2 Hclock.
  destruct (set_register_spec (simulated script_bus clock) _calib_rco 0x96 st)
    as (a & d & w' & a' & d' & _ & Er & _ & _ & Es);
    [unfold _calib_rco, _0X00; simpl; lia |].
  cbn [dev_readinto dev_write dev_enter dev_exit simulated script_bus
       bus_readinto bus_write bus_enter bus_exit fst snd] in Er, Es.
  rewrite Hw in Er. cbn [fst snd] in Er. injection Er as <- <-.
  cbn [fst snd] in Es.
  set (st1 := mkState _ a' d' _) in Es.
  destruct (script_monotonic clock st1) as (st2 & Em & Hw2 & Hk2 & Hc2).
  change (snd (world st1)) with (snd (world st)) in Em, Hk2, Hc2.
  destruct (script_wait clock (fst (clock (snd (world st)))) d1 d2 polls
              Hd1 Hd2 Hpolls st2 (n1 :: n2 :: rest))
    as (st3 & tr & Ew & Hw3 & Hc3 & Hn & Hnw).
  { rewrite Hw2. reflexivity. }
  { intros i Hi. rewrite Hk2. exact (Hclock i Hi). }
  destruct (script_get clock _trco_calib_nok st3 _ _
              ltac:(simpl; unfold _0X06; lia) Hw3)
    as (st4 & c4 & E4 & Hw4 & _ & Hc4 & Hr4).
  destruct (script_get clock _srco_calib_nok st4 _ _
              ltac:(simpl; unfold _0X06; lia) Hw4)
    as (st5 & c5 & E5 & Hw5 & _ & Hc5 & Hr5).
  assert (Hrun : _calibrate_clocks (simulated script_bus clock)
                   (S (List.length polls)) st = Some (Ok tt, st5)).
  { unfold _calibrate_clocks. unfold bind at 1. rewrite Es, Em, Ew.
    unfold calibration_failed, bind. rewrite E4.
    cbn [mask offset _trco_calib_nok]. rewrite (flag_bit6 n1), Hn1. cbn [negb].
    rewrite E5. unfold ret.
    cbn [mask offset _srco_calib_nok]. rewrite (flag_bit6 n2), Hn2. reflexivity. }
  destruct (calibrate_clocks_trace _ _ _ _ _ Hrun) as (full & Hfull & Htr).
  exists st5, full. split; [exact Hrun |]. split; [exact Hw5 |].
  split; [exact Hfull |].
  split; [| now apply (calibration_trace_one_write full (Ok tt))].
  assert (Hcalls : calls st5 =
                   calls st ++ [Session [DevWrite a; DevReadinto b0];
                                Session [DevWrite a'; DevWrite d']]
                     ++ [MonotonicCall (fst (clock (snd (world st))))]
                     ++ tr ++ [c4] ++ [c5]).
  { rewrite Hc5, Hc4, Hc3, Hc2. subst st1. cbn [calls].
    rewrite <- !app_assoc. reflexivity. }
  rewrite Hfull in Hcalls. apply app_inv_head in Hcalls. rewrite Hcalls.
  rewrite !filter_app, !length_app, Hn.
  destruct c4 as [[| [b1 | b1] [| [b2 | b2] [| x l]]] | t | t];
    try discriminate Hr4;
    destruct c5 as [[| [b3 | b3] [| [b4 | b4] [| y l']]] | t | t];
    try discriminate Hr5.
  cbn [filter is_clock_reading List.length]. lia.
Qed.

Lemma calibration_waits_for_done_flags_witness :
  exists st' tr,
    _calibrate_clocks (simulated script_bus (ticking_clock (3 # 10))) 4
      (init_state
         (["007"; "000"; "064"; "127"; "128"; "192"; "000"; "128"; "255"]%byte,
          1000%Q))
    = Some (Ok tt, st') /\
    fst (world st') = ["255"%byte] /\
    calls st' = [] ++ tr /\
    List.length (filter is_clock_reading tr) = 4%nat /\
    magic_writes tr = 1%nat.
Proof.
  apply (calibration_waits_for_done_flags Q (ticking_clock (3 # 10))
           "007"%byte "128"%byte "192"%byte "000"%byte "128"%byte
           ["000"; "064"; "127"]%byte ["255"%byte]
           (init_state
              (["007"; "000"; "064"; "127"; "128"; "192"; "000"; "128";
                "255"]%byte, 1000%Q)));
    try reflexivity.
  - repeat constructor.
  - intros [| [| [| i]]] Hi; [vm_compute; discriminate ..
                             | cbn [List.length] in Hi; lia].
Defined.

(** ** X23: registers that fill a byte *)

(** X23.  For a register that fills its byte (offset 0, mask 0xFF) the byte
    [_set_register] writes is the value itself, whatever the bus answered to
    the read that precedes the write.  So [reset], on every bus, reads
    address 0x3C and writes 0x96 to it; it does not write the calibration
    start register and never sleeps. *)
Theorem reset_writes_magic_whatever_was_read :
  forall (W : Type) (env : Env W) (st : State W),
    (forall (register : Register) (value : Z),
        offset register = 0 -> mask register = 0xFF -> 0 <= value < 256 ->
        exists a d a' d' st',
          _set_register env register value st = (Ok tt, st') /\
          calls st' = calls st ++ [Session [DevWrite a; DevReadinto d];
                                   Session [DevWrite a'; DevWrite d']] /\
          byte_val a' = Z.land (addr register) 0x3F /\
          byte_val d' = value) /\
    (exists a d a' d' st',
        reset env st = (Ok tt, st') /\
        calls st' = calls st ++ [Session [DevWrite a; DevReadinto d];
                                 Session [DevWrite a'; DevWrite d']] /\
        byte_val a = 0x7C /\ byte_val a' = 0x3C /\ byte_val d' = 0x96 /\
        magic_writes [Session [DevWrite a; DevReadinto d];
                      Session [DevWrite a'; DevWrite d']] = 0%nat).
Proof.
  intros W env st.
  assert (Hfull : forall (register : Register) (value : Z),
             offset register = 0 -> mask register = 0xFF -> 0 <= value < 256 ->
             exists a d a' d' st',
               _set_register env register value st = (Ok tt, st') /\
               calls st' = calls st ++ [Session [DevWrite a; DevReadinto d];
                                        Session [DevWrite a'; DevWrite d']] /\
               byte_val a = Z.lor (Z.land (addr register) _0X3F) _0X40 /\
               byte_val a' = Z.land (addr register) 0x3F /\
               byte_val d' = value).
  { intros register value Hoff Hmask Hv.
    destruct (set_register_spec env register value st)
      as (a & d & w' & a' & d' & Va & _ & Va' & Vd' & E); [lia |].
    exists a, d, a', d'. eexists. split; [exact E |]. cbn [calls].
    split; [reflexivity |]. split; [exact Va |]. split; [exact Va' |].
    rewrite Vd', Hoff, Hmask, Z.shiftl_0_r.
    change 255 with (Z.ones 8). change _0XFF with (Z.ones 8).
    rewrite (proj1 (land_ones_fix value 8 ltac:(lia)))
      by (change (2 ^ 8) with 256; lia).
    assert (Hz : Z.land (byte_val d) (Z.lnot (Z.ones 8)) = 0)
      by (clear; destruct d; reflexivity).
    rewrite Hz. apply Z.lor_0_l. }
  split.
  - intros register value Hoff Hmask Hv.
    destruct (Hfull register value Hoff Hmask Hv)
      as (a & d & a' & d' & st' & E & Hc & _ & Va' & Vd').
    exists a, d, a', d', st'. auto.
  - destruct (Hfull _preset_default 0x96)
      as (a & d & a' & d' & st' & E & Hc & Va & Va' & Vd');
      [reflexivity | reflexivity | lia |].
    exists a, d, a', d', st'. split; [exact E |]. split; [exact Hc |].
    split; [rewrite Va; reflexivity |]. split; [rewrite Va'; reflexivity |].
    split; [exact Vd' |].
    unfold magic_writes. cbn [filter is_write_of].
    rewrite Va'. reflexivity.
Qed.

Lemma reset_writes_magic_whatever_was_read_witness :
  exists a d a' d' st',
    _set_register (chip_env (ticking_clock 0)) _calib_rco 0x96
      (init_state (mkChip (set_mem blank_mem 0x3D "255"%byte) None, 0%Q))
    = (Ok tt, st') /\
    calls st' = [] ++ [Session [DevWrite a; DevReadinto d];
                       Session [DevWrite a'; DevWrite d']] /\
    byte_val a' = Z.land (addr _calib_rco) 0x3F /\
    byte_val d' = 0x96.
Proof.
  apply (proj1 (reset_writes_magic_whatever_was_read
                  _ (chip_env (ticking_clock 0))
                  (init_state (mkChip (set_mem blank_mem 0x3D "255"%byte) None,
                               0%Q)))
           _calib_rco 0x96);
    [reflexivity | reflexivity | lia].
Defined.
